(** * Network builders of [torchrl/modules/models/models.py]

    A shallow embedding of the architecture-construction code of the module:
    the flat network [MLP], the convolutional networks [ConvNet] and
    [Conv3dNet], their [forward] wrappers, the dueling arithmetic, the
    DDPG last-layer initialiser together with the four DDPG composites and
    their forward passes, the distributional network [DistributionalDQNnet],
    the recurrent network [LSTMNet] and the log-std rescaling of
    [OnlineDTActor].

    Conventions.
    - Python [int] is [Z]; [len] is [Z.of_nat (length _)]; list repetition
      [[x] * n] is [py_repeat] (empty for [n <= 0], as in Python).
    - An argument that is either a number or a sequence is an [arg];
      Python [None] is [option]'s [None].
    - A raised exception is [Raise e]; a constructor returns a [result].
    - Layers are descriptors ([layer]) holding the arguments the source hands
      to the layer class.  Device placement is not represented.  The
      constructor of a layer class may reject its arguments: what it rejects
      is a parameter ([raises]), and every construction runs through it, in
      the order of the source.
    - Tensors are represented by their shape ([list Z]) where only shapes
      matter, and by rows of rationals where values matter; the numeric
      kernels of the tensor framework are outside this development.  The
      [forward] of the layers whose classes the caller chooses (activation,
      normalisation, convolution, aggregator) is a parameter
      ([framework_forward]).
    - Module objects hold their parameters by reference into a store of
      tensors, so that tied parameters and in-place writes are covered. *)

From Stdlib Require Import ZArith QArith Lia Lqa String.
From stdpp Require Import gmap list strings.

Local Open Scope Z_scope.

(** ** Python values and exceptions *)

Inductive exn : Set :=
| ValueError
| RuntimeError
| NotImplementedError
| KeyError
| IndexError
| TypeError
| AttributeError.

Inductive result (A : Type) : Type :=
| Ok (a : A)
| Raise (e : exn).
Arguments Ok {A} a.
Arguments Raise {A} e.

#[global] Instance result_ret : MRet result := fun _ a => Ok a.
#[global] Instance result_fmap : FMap result := fun _ _ f m =>
  match m with
  | Ok a => Ok (f a)
  | Raise e => Raise e
  end.
#[global] Instance result_bind : MBind result := fun _ _ f m =>
  match m with
  | Ok a => f a
  | Raise e => Raise e
  end.

Definition is_Ok {A} (r : result A) : bool :=
  match r with Ok _ => true | Raise _ => false end.

(** The construction-time errors of the taxonomy: a length or depth conflict
    ([RuntimeError] in [MLP] and [ConvNet], [ValueError] in [Conv3dNet] and for
    a null depth), a missing [out_features] ([ValueError]) and an unsupported
    option ([NotImplementedError]). *)
Definition ConfigurationError (e : exn) : bool :=
  match e with
  | ValueError | RuntimeError | NotImplementedError => true
  | _ => false
  end.

(** [Union[int, Sequence]]: [isinstance(v, Number)] against
    [isinstance(v, Sequence)]. *)
Inductive arg (A : Type) : Type :=
| Number (n : Z)
| Sequence (l : list A).
Arguments Number {A} n.
Arguments Sequence {A} l.

Definition isinstance_Sequence {A} (v : arg A) : bool :=
  match v with Sequence _ => true | Number _ => false end.

Definition len {A} (l : list A) : Z := Z.of_nat (length l).

(** [[x] * n] *)
Definition py_repeat {A} (x : A) (n : Z) : list A := replicate (Z.to_nat n) x.

(** [torchrl._utils.prod]: the product of the entries. *)
Definition prod (l : list Z) : Z := foldr Z.mul 1 l.

(** [l[-1]] *)
Definition py_last {A} (l : list A) : result A :=
  match last l with
  | Some x => Ok x
  | None => Raise IndexError
  end.

(** A class object.  [cls_Linear] records whether the class derives from
    [nn.Linear], which is what [isinstance(_, nn.Linear)] looks at. *)
Record pyclass : Type := PyClass {
  cls_name : string;
  cls_Linear : bool
}.

(** Keyword dictionaries handed through to the layer classes. *)
Abbreviation kwargs := (gmap string (arg Z)).

(** ** Layers *)

Inductive layer : Type :=
| Layer (cls : pyclass) (_in _out : Z) (bias : bool) (kw : kwargs)
| LazyLayer (cls : pyclass) (_out : Z) (bias : bool) (kw : kwargs)
| Dropout (p : Q)
| Norm (cls : string) (kw : kwargs)
| Activation (cls : string) (kw : kwargs)
| Conv2d (_in _out : Z) (kernel_size stride : arg Z) (bias : bool) (padding : arg Z)
| LazyConv2d (_out : Z) (kernel_size stride : arg Z) (bias : bool) (padding : arg Z)
| Conv3d (_in _out : Z) (kernel_size stride : arg Z) (bias : bool) (padding : arg Z)
| LazyConv3d (_out : Z) (kernel_size stride : arg Z) (bias : bool) (padding : arg Z)
| Aggregator (cls : string) (kw : kwargs)
| Squeeze2dLayer
| SqueezeLayer (dims : list Z).

(** The layers created from [layer_class] or its lazy version. *)
Definition is_linear (l : layer) : bool :=
  match l with
  | Layer _ _ _ _ _ | LazyLayer _ _ _ _ => true
  | _ => false
  end.

Definition is_conv (l : layer) : bool :=
  match l with
  | Conv2d _ _ _ _ _ _ | LazyConv2d _ _ _ _ _
  | Conv3d _ _ _ _ _ _ | LazyConv3d _ _ _ _ _ => true
  | _ => false
  end.

Definition is_activation (l : layer) : bool :=
  match l with Activation _ _ => true | _ => false end.

Definition is_norm (l : layer) : bool :=
  match l with Norm _ _ => true | _ => false end.

Definition is_dropout (l : layer) : bool :=
  match l with Dropout _ => true | _ => false end.

(** The [bias=] argument of a linear or convolutional layer. *)
Definition layer_bias (l : layer) : option bool :=
  match l with
  | Layer _ _ _ b _ | LazyLayer _ _ b _ => Some b
  | Conv2d _ _ _ _ b _ | LazyConv2d _ _ _ b _ => Some b
  | Conv3d _ _ _ _ b _ | LazyConv3d _ _ _ b _ => Some b
  | _ => None
  end.

(** Input and output width of a linear layer ([None]: inferred lazily). *)
Definition linear_in (l : layer) : option Z :=
  match l with
  | Layer _ i _ _ _ => Some i
  | _ => None
  end.

Definition linear_out (l : layer) : option Z :=
  match l with
  | Layer _ _ o _ _ | LazyLayer _ o _ _ => Some o
  | _ => None
  end.

(** ** Instantiating a layer

    A layer is instantiated by calling its class on the arguments the
    descriptor holds.  The constructor belongs to the class, which the caller
    chooses ([layer_class], [activation_class], [norm_class], ...), and it
    may reject its arguments: a normalisation class called without a required
    argument, a negative width, a dropout probability outside [[0, 1]].
    [raises l] is the exception that creating the layer [l] raises, if any;
    it is a parameter of the construction.  When nothing is raised the
    created module is the one [l] describes. *)
Definition instantiate (raises : layer → option exn) (l : layer) : result layer :=
  match raises l with
  | Some e => Raise e
  | None => Ok l
  end.

(** [create_on_device(cls, device, ...)] of
    [torchrl/modules/models/utils.py], which is not among the sources: what
    a call of it raises is part of the parameter [raises], as for a direct
    call of the class.  The device is not represented. *)
Definition create_on_device (raises : layer → option exn) (l : layer) : result layer :=
  instantiate raises l.

(** ** The tensor framework, on shapes

    The primitives the wrappers call, reduced to what they do to a shape.
    These belong to the tensor framework, not to the module; they follow its
    documented behaviour. *)

Abbreviation shape := (list Z).

(** [x.flatten(0, end_dim)] *)
Definition flatten0 (end_dim : Z) (x : shape) : shape :=
  let k := Z.to_nat (end_dim + 1) in
  prod (take k x) :: drop k x.

(** [x.unflatten(0, sizes)]: the sizes must multiply to the first dimension. *)
Definition unflatten0 (sizes : shape) (x : shape) : result shape :=
  match x with
  | [] => Raise IndexError
  | d :: rest => if prod sizes =? d then Ok (sizes ++ rest) else Raise RuntimeError
  end.

(** [x.shape[:-1]] *)
Definition leading (x : shape) : shape := take (length x - 1)%nat x.

(** [x.shape[-1]] *)
Definition trailing (x : shape) : option Z := last x.

(** [torch.cat(xs, -1)]: the inputs agree on every dimension but the last. *)
Fixpoint cat_last (xs : list shape) : result shape :=
  match xs with
  | [] => Raise RuntimeError
  | [x] => match trailing x with Some _ => Ok x | None => Raise RuntimeError end
  | x :: xs =>
    y ← cat_last xs;
    match trailing x, trailing y with
    | Some a, Some b =>
      if bool_decide (leading x = leading y) then Ok (leading x ++ [a + b])
      else Raise RuntimeError
    | _, _ => Raise RuntimeError
    end
  end.

(** [x.view] on the given sizes: the number of elements is kept. *)
Definition view (sizes : shape) (x : shape) : result shape :=
  if prod sizes =? prod x then Ok sizes else Raise RuntimeError.

(** [*batch, d1, ..., dk = x.shape]: fails on fewer than [k] dimensions. *)
Definition unpack_trailing (k : nat) (x : shape) : result (shape * shape) :=
  if (length x <? k)%nat then Raise ValueError
  else Ok (take (length x - k)%nat x, drop (length x - k)%nat x).

Section Sequential.

(** The [forward] of the layers whose shape arithmetic the module does not
    fix: the normalisation and activation layers, whose classes the caller
    chooses, the convolutions, the aggregators and the squeeze layers.  A
    parameter. *)
Variable framework_forward : layer → shape → result shape.

(** A linear layer maps [[*, _in]] to [[*, _out]]; its lazy version takes
    [_in] from the input; [nn.Dropout] keeps the shape. *)
Definition module_forward (m : layer) (x : shape) : result shape :=
  match m with
  | Layer _ _in _out _ _ =>
    match trailing x with
    | Some d => if d =? _in then Ok (leading x ++ [_out]) else Raise RuntimeError
    | None => Raise RuntimeError
    end
  | LazyLayer _ _out _ _ =>
    match trailing x with
    | Some _ => Ok (leading x ++ [_out])
    | None => Raise RuntimeError
    end
  | Dropout _ => Ok x
  | _ => framework_forward m x
  end.

(** [nn.Sequential.forward] *)
Fixpoint nn_Sequential_forward (modules : list layer) (input : shape) : result shape :=
  match modules with
  | [] => Ok input
  | m :: modules =>
    input ← module_forward m input;
    nn_Sequential_forward modules input
  end.

End Sequential.

(** ** MLP *)

Module MLP.

(** The parameters of [MLP.__init__]. *)
Record args : Type := Args {
  in_features : option Z;
  out_features : option (arg Z);
  depth : option Z;
  num_cells : option (arg Z);
  activation_class : string;
  activation_kwargs : option kwargs;
  norm_class : option string;
  norm_kwargs : option kwargs;
  dropout : option Q;
  bias_last_layer : bool;
  single_bias_last_layer : bool;
  layer_class : pyclass;
  layer_kwargs : option kwargs;
  activate_last_layer : bool
}.

(** The attributes of the constructed object; [modules] are the layers the
    [nn.Sequential] base class registers. *)
Record t : Type := Self {
  self_in_features : option Z;
  self_out_features : arg Z;
  self__out_features_num : Z;
  self_activation_class : string;
  self_activation_kwargs : kwargs;
  self_norm_class : option string;
  self_norm_kwargs : kwargs;
  self_dropout : option Q;
  self_bias_last_layer : bool;
  self_single_bias_last_layer : bool;
  self_layer_class : pyclass;
  self_layer_kwargs : kwargs;
  self_activate_last_layer : bool;
  self_num_cells : list Z;
  self_depth : Z;
  modules : list layer
}.

Section WithLazyMapping.

(** [LazyMapping] of [torchrl/modules/models/utils.py]: the dictionary from a
    layer class to its lazy version, keyed here by the class name.  The file
    is not among the sources, so the dictionary is a parameter. *)
Variable LazyMapping : gmap string pyclass.

(** What the constructors of the layer classes reject. *)
Variable raises : layer → option exn.

(** The body of the [for] loop of [_make_net]: [layers] is the list built so
    far, [i] the index [enumerate] has reached. *)
Fixpoint _make_net_loop (self : t) (i : Z) (items : list (option Z * Z))
    (layers : list layer) : result (list layer) :=
  match items with
  | [] => Ok layers
  | (_in, _out) :: items =>
    let _bias := if i =? self_depth self then self_bias_last_layer self else true in
    layers ←
      match _in with
      | Some _in =>
        l ← create_on_device raises
              (Layer (self_layer_class self) _in _out _bias (self_layer_kwargs self));
        Ok (layers ++ [l])
      | None =>
        match LazyMapping !! cls_name (self_layer_class self) with
        | None => Raise KeyError
        | Some lazy_version =>
          l ← create_on_device raises
                (LazyLayer lazy_version _out _bias (self_layer_kwargs self));
          Ok (layers ++ [l])
        end
      end;
    layers ←
      (if (i <? self_depth self) || self_activate_last_layer self then
         layers ←
           match self_dropout self with
           | Some p => l ← create_on_device raises (Dropout p); Ok (layers ++ [l])
           | None => Ok layers
           end;
         layers ←
           match self_norm_class self with
           | Some nc =>
             l ← create_on_device raises (Norm nc (self_norm_kwargs self));
             Ok (layers ++ [l])
           | None => Ok layers
           end;
         l ← create_on_device raises
               (Activation (self_activation_class self) (self_activation_kwargs self));
         Ok (layers ++ [l])
       else Ok layers);
    _make_net_loop self (i + 1) items layers
  end.

Definition _make_net (self : t) : result (list layer) :=
  let layers := [] in
  let in_features := self_in_features self :: (Some <$> self_num_cells self) in
  let out_features := self_num_cells self ++ [self__out_features_num self] in
  _make_net_loop self 0 (zip in_features out_features) layers.

Definition __init__ (a : args) : result t :=
  match out_features a with
  | None => Raise ValueError
  | Some out_features =>
    let default_num_cells := 32 in
    let '(num_cells, depth) :=
      match num_cells a with
      | None =>
        match depth a with
        | None => (Sequence (py_repeat default_num_cells 3), Some 3)
        | Some depth => (Sequence (py_repeat default_num_cells depth), Some depth)
        end
      | Some num_cells => (num_cells, depth a)
      end in
    let _out_features_num :=
      match out_features with
      | Number n => n
      | Sequence l => prod l
      end in
    if single_bias_last_layer a then Raise NotImplementedError else
    cells ←
      match num_cells, depth with
      | Sequence l, _ => Ok l
      | Number n, Some depth => Ok (py_repeat n depth)
      | Number _, None => Raise RuntimeError
      end;
    let resolved_depth := default (len cells) depth in
    if negb (bool_decide (depth = Some (len cells)) || bool_decide (depth = None))
    then Raise RuntimeError else
    let self := {|
      self_in_features := in_features a;
      self_out_features := out_features;
      self__out_features_num := _out_features_num;
      self_activation_class := activation_class a;
      self_activation_kwargs := default ∅ (activation_kwargs a);
      self_norm_class := norm_class a;
      self_norm_kwargs := default ∅ (norm_kwargs a);
      self_dropout := dropout a;
      self_bias_last_layer := bias_last_layer a;
      self_single_bias_last_layer := single_bias_last_layer a;
      self_layer_class := layer_class a;
      self_layer_kwargs := default ∅ (layer_kwargs a);
      self_activate_last_layer := activate_last_layer a;
      self_num_cells := cells;
      self_depth := resolved_depth;
      modules := []
    |} in
    layers ← _make_net self;
    Ok (Self (self_in_features self) (self_out_features self)
          (self__out_features_num self) (self_activation_class self)
          (self_activation_kwargs self) (self_norm_class self)
          (self_norm_kwargs self) (self_dropout self)
          (self_bias_last_layer self) (self_single_bias_last_layer self)
          (self_layer_class self) (self_layer_kwargs self)
          (self_activate_last_layer self) (self_num_cells self)
          (self_depth self) layers)
  end.

End WithLazyMapping.

Section Forward.

Variable framework_forward : layer → shape → result shape.

Definition forward (self : t) (inputs : list shape) : result shape :=
  inputs ←
    (if 1 <? len inputs then x ← cat_last inputs; Ok [x] else Ok inputs);
  out ←
    match inputs with
    | [x] => nn_Sequential_forward framework_forward (modules self) x
    | _ => Raise TypeError
    end;
  match self_out_features self with
  | Number _ => Ok out
  | Sequence out_features => view (leading out ++ out_features) out
  end.

End Forward.

(** A dictionary of keyword arguments for [MLP]: [None] is a key that is
    absent, [Some v] a key bound to [v] (which may itself be Python's
    [None]). *)
Record kw : Type := Kw {
  kw_in_features : option (option Z);
  kw_out_features : option (option (arg Z));
  kw_depth : option (option Z);
  kw_num_cells : option (option (arg Z));
  kw_activation_class : option string;
  kw_activation_kwargs : option (option kwargs);
  kw_norm_class : option (option string);
  kw_norm_kwargs : option (option kwargs);
  kw_dropout : option (option Q);
  kw_bias_last_layer : option bool;
  kw_single_bias_last_layer : option bool;
  kw_layer_class : option pyclass;
  kw_layer_kwargs : option (option kwargs);
  kw_activate_last_layer : option bool
}.

(** The empty dictionary. *)
Definition empty_kw : kw :=
  Kw None None None None None None None None None None None None None None.

(** [d.update(o)]: the keys of [o] win. *)
Definition update (d o : kw) : kw := {|
  kw_in_features := kw_in_features o ∪ kw_in_features d;
  kw_out_features := kw_out_features o ∪ kw_out_features d;
  kw_depth := kw_depth o ∪ kw_depth d;
  kw_num_cells := kw_num_cells o ∪ kw_num_cells d;
  kw_activation_class := kw_activation_class o ∪ kw_activation_class d;
  kw_activation_kwargs := kw_activation_kwargs o ∪ kw_activation_kwargs d;
  kw_norm_class := kw_norm_class o ∪ kw_norm_class d;
  kw_norm_kwargs := kw_norm_kwargs o ∪ kw_norm_kwargs d;
  kw_dropout := kw_dropout o ∪ kw_dropout d;
  kw_bias_last_layer := kw_bias_last_layer o ∪ kw_bias_last_layer d;
  kw_single_bias_last_layer :=
    kw_single_bias_last_layer o ∪ kw_single_bias_last_layer d;
  kw_layer_class := kw_layer_class o ∪ kw_layer_class d;
  kw_layer_kwargs := kw_layer_kwargs o ∪ kw_layer_kwargs d;
  kw_activate_last_layer := kw_activate_last_layer o ∪ kw_activate_last_layer d
|}.

(** Binding a keyword dictionary to the parameters of [__init__], with the
    defaults of its signature. *)
Definition bind_args (k : kw) : args := {|
  in_features := default None (kw_in_features k);
  out_features := default None (kw_out_features k);
  depth := default None (kw_depth k);
  num_cells := default None (kw_num_cells k);
  activation_class := default "Tanh" (kw_activation_class k);
  activation_kwargs := default None (kw_activation_kwargs k);
  norm_class := default None (kw_norm_class k);
  norm_kwargs := default None (kw_norm_kwargs k);
  dropout := default None (kw_dropout k);
  bias_last_layer := default true (kw_bias_last_layer k);
  single_bias_last_layer := default false (kw_single_bias_last_layer k);
  layer_class := default (PyClass "Linear" true) (kw_layer_class k);
  layer_kwargs := default None (kw_layer_kwargs k);
  activate_last_layer := default false (kw_activate_last_layer k)
|}.

End MLP.

(** ** ConvNet *)

Module ConvNet.

(** The parameters of [ConvNet.__init__]. *)
Record args : Type := Args {
  in_features : option Z;
  depth : option Z;
  num_cells : option (arg Z);
  kernel_sizes : arg (arg Z);
  strides : arg (arg Z);
  paddings : arg (arg Z);
  activation_class : string;
  activation_kwargs : option kwargs;
  norm_class : option string;
  norm_kwargs : option kwargs;
  bias_last_layer : bool;
  aggregator_class : option string;
  aggregator_kwargs : option kwargs;
  squeeze_output : bool
}.

Record t : Type := Self {
  self_in_features : option Z;
  self_activation_class : string;
  self_activation_kwargs : kwargs;
  self_norm_class : option string;
  self_norm_kwargs : kwargs;
  self_bias_last_layer : bool;
  self_aggregator_class : option string;
  self_aggregator_kwargs : kwargs;
  self_squeeze_output : bool;
  self_depth : Z;
  self_num_cells : list Z;
  self_kernel_sizes : list (arg Z);
  self_strides : list (arg Z);
  self_paddings : list (arg Z);
  self_out_features : Z;
  modules : list layer
}.

(** The body of the [for] loop of [_make_net] over the five zipped lists;
    [n] is [len(in_features)]. *)
Section WithConstructors.

(** What the constructors of the layer classes reject. *)
Variable raises : layer → option exn.

Fixpoint _make_net_loop (self : t) (n : Z) (i : Z)
    (in_features : list (option Z)) (out_features : list Z)
    (kernel_sizes strides paddings : list (arg Z))
    (layers : list layer) {struct in_features} : result (list layer) :=
  match in_features, out_features, kernel_sizes, strides, paddings with
  | _in :: in_features, _out :: out_features, _kernel :: kernel_sizes,
    _stride :: strides, _padding :: paddings =>
    let _bias := (i <? n - 1) || self_bias_last_layer self in
    l ←
      match _in with
      | Some _in => instantiate raises (Conv2d _in _out _kernel _stride _bias _padding)
      | None => instantiate raises (LazyConv2d _out _kernel _stride _bias _padding)
      end;
    let layers := layers ++ [l] in
    l ← create_on_device raises
          (Activation (self_activation_class self) (self_activation_kwargs self));
    let layers := layers ++ [l] in
    layers ←
      match self_norm_class self with
      | Some nc =>
        l ← create_on_device raises (Norm nc (self_norm_kwargs self));
        Ok (layers ++ [l])
      | None => Ok layers
      end;
    _make_net_loop self n (i + 1) in_features out_features kernel_sizes strides paddings layers
  | _, _, _, _, _ => Ok layers
  end.

Definition _make_net (self : t) : result (list layer) :=
  let layers := [] in
  let in_features :=
    self_in_features self
      :: (Some <$> take (Z.to_nat (self_depth self)) (self_num_cells self)) in
  let out_features := self_num_cells self ++ [self_out_features self] in
  let kernel_sizes := self_kernel_sizes self in
  let strides := self_strides self in
  let paddings := self_paddings self in
  layers ←
    _make_net_loop self (len in_features) 0
      in_features out_features kernel_sizes strides paddings layers;
  layers ←
    match self_aggregator_class self with
    | Some ac =>
      l ← create_on_device raises (Aggregator ac (self_aggregator_kwargs self));
      Ok (layers ++ [l])
    | None => Ok layers
    end;
  if self_squeeze_output self then
    l ← instantiate raises (Squeeze2dLayer);
    Ok (layers ++ [l])
  else Ok layers.

End WithConstructors.

(** One round of the loop over the four per-layer fields: the attribute is
    set to the sequence itself or to the number repeated [_depth] times, and
    its length is compared with [_depth].  [_depth] is an integer here, so
    the test "provided as an integer, depth must be provided too" never
    fires. *)
Definition set_field {A} (inj : Z → A) (_value : arg A) (_depth : Z) : result (list A) :=
  let field :=
    match _value with
    | Sequence l => l
    | Number n => py_repeat (inj n) _depth
    end in
  if negb (len field =? _depth) then Raise RuntimeError else Ok field.

Section WithFindDepth.

(** [_find_depth] of [torchrl/modules/models/utils.py], which is not among
    the sources: a parameter of the construction. *)
Variable _find_depth :
  option Z → arg Z → arg (arg Z) → arg (arg Z) → arg (arg Z) → result Z.

(** What the constructors of the layer classes reject. *)
Variable raises : layer → option exn.

Definition __init__ (a : args) : result t :=
  let num_cells := default (Sequence [32; 32; 32]) (num_cells a) in
  depth ← _find_depth (depth a) num_cells (kernel_sizes a) (strides a) (paddings a);
  if depth =? 0 then Raise ValueError else
  cells ← set_field id num_cells depth;
  kernels ← set_field Number (kernel_sizes a) depth;
  strides_ ← set_field Number (strides a) depth;
  paddings_ ← set_field Number (paddings a) depth;
  out ← py_last cells;
  let self := {|
    self_in_features := in_features a;
    self_activation_class := activation_class a;
    self_activation_kwargs := default ∅ (activation_kwargs a);
    self_norm_class := norm_class a;
    self_norm_kwargs := default ∅ (norm_kwargs a);
    self_bias_last_layer := bias_last_layer a;
    self_aggregator_class := aggregator_class a;
    self_aggregator_kwargs :=
      default {["ndims_in" := Number 3]} (aggregator_kwargs a);
    self_squeeze_output := squeeze_output a;
    self_depth := len kernels;
    self_num_cells := cells;
    self_kernel_sizes := kernels;
    self_strides := strides_;
    self_paddings := paddings_;
    self_out_features := out;
    modules := []
  |} in
  layers ← _make_net raises self;
  Ok (Self (self_in_features self) (self_activation_class self)
        (self_activation_kwargs self) (self_norm_class self)
        (self_norm_kwargs self) (self_bias_last_layer self)
        (self_aggregator_class self) (self_aggregator_kwargs self)
        (self_squeeze_output self) (self_depth self) (self_num_cells self)
        (self_kernel_sizes self) (self_strides self) (self_paddings self)
        (self_out_features self) layers).

End WithFindDepth.

Section Forward.

Variable framework_forward : layer → shape → result shape.

Definition forward (self : t) (inputs : shape) : result shape :=
  '(batch, _) ← unpack_trailing 3 inputs;
  let inputs := if 1 <? len batch then flatten0 (len batch - 1) inputs else inputs in
  out ← nn_Sequential_forward framework_forward (modules self) inputs;
  if 1 <? len batch then unflatten0 batch out else Ok out.

End Forward.

(** A dictionary of keyword arguments for [ConvNet]. *)
Record kw : Type := Kw {
  kw_in_features : option (option Z);
  kw_depth : option (option Z);
  kw_num_cells : option (option (arg Z));
  kw_kernel_sizes : option (arg (arg Z));
  kw_strides : option (arg (arg Z));
  kw_paddings : option (arg (arg Z));
  kw_activation_class : option string;
  kw_activation_kwargs : option (option kwargs);
  kw_norm_class : option (option string);
  kw_norm_kwargs : option (option kwargs);
  kw_bias_last_layer : option bool;
  kw_aggregator_class : option (option string);
  kw_aggregator_kwargs : option (option kwargs);
  kw_squeeze_output : option bool
}.

Definition empty_kw : kw :=
  Kw None None None None None None None None None None None None None None.

(** [d.update(o)]: the keys of [o] win. *)
Definition update (d o : kw) : kw := {|
  kw_in_features := kw_in_features o ∪ kw_in_features d;
  kw_depth := kw_depth o ∪ kw_depth d;
  kw_num_cells := kw_num_cells o ∪ kw_num_cells d;
  kw_kernel_sizes := kw_kernel_sizes o ∪ kw_kernel_sizes d;
  kw_strides := kw_strides o ∪ kw_strides d;
  kw_paddings := kw_paddings o ∪ kw_paddings d;
  kw_activation_class := kw_activation_class o ∪ kw_activation_class d;
  kw_activation_kwargs := kw_activation_kwargs o ∪ kw_activation_kwargs d;
  kw_norm_class := kw_norm_class o ∪ kw_norm_class d;
  kw_norm_kwargs := kw_norm_kwargs o ∪ kw_norm_kwargs d;
  kw_bias_last_layer := kw_bias_last_layer o ∪ kw_bias_last_layer d;
  kw_aggregator_class := kw_aggregator_class o ∪ kw_aggregator_class d;
  kw_aggregator_kwargs := kw_aggregator_kwargs o ∪ kw_aggregator_kwargs d;
  kw_squeeze_output := kw_squeeze_output o ∪ kw_squeeze_output d
|}.

(** Binding a keyword dictionary to the parameters of [__init__], with the
    defaults of its signature. *)
Definition bind_args (k : kw) : args := {|
  in_features := default None (kw_in_features k);
  depth := default None (kw_depth k);
  num_cells := default None (kw_num_cells k);
  kernel_sizes := default (Number 3) (kw_kernel_sizes k);
  strides := default (Number 1) (kw_strides k);
  paddings := default (Number 0) (kw_paddings k);
  activation_class := default "ELU" (kw_activation_class k);
  activation_kwargs := default None (kw_activation_kwargs k);
  norm_class := default None (kw_norm_class k);
  norm_kwargs := default None (kw_norm_kwargs k);
  bias_last_layer := default true (kw_bias_last_layer k);
  aggregator_class := default (Some "SquashDims") (kw_aggregator_class k);
  aggregator_kwargs := default None (kw_aggregator_kwargs k);
  squeeze_output := default false (kw_squeeze_output k)
|}.

End ConvNet.

(** ** Conv3dNet *)

Module Conv3dNet.

(** The parameters of [Conv3dNet.__init__]. *)
Record args : Type := Args {
  in_features : option Z;
  depth : option Z;
  num_cells : option (arg Z);
  kernel_sizes : arg (arg Z);
  strides : arg (arg Z);
  paddings : arg (arg Z);
  activation_class : string;
  activation_kwargs : option kwargs;
  norm_class : option string;
  norm_kwargs : option kwargs;
  bias_last_layer : bool;
  aggregator_class : option string;
  aggregator_kwargs : option kwargs;
  squeeze_output : bool
}.

Record t : Type := Self {
  self_in_features : option Z;
  self_activation_class : string;
  self_activation_kwargs : kwargs;
  self_norm_class : option string;
  self_norm_kwargs : kwargs;
  self_bias_last_layer : bool;
  self_aggregator_class : option string;
  self_aggregator_kwargs : kwargs;
  self_squeeze_output : bool;
  self_depth : Z;
  self_num_cells : list Z;
  self_kernel_sizes : list (arg Z);
  self_strides : list (arg Z);
  self_paddings : list (arg Z);
  self_out_features : Z;
  modules : list layer
}.

Section WithConstructors.

(** What the constructors of the layer classes reject. *)
Variable raises : layer → option exn.

Fixpoint _make_net_loop (self : t) (n : Z) (i : Z)
    (in_features : list (option Z)) (out_features : list Z)
    (kernel_sizes strides paddings : list (arg Z))
    (layers : list layer) {struct in_features} : result (list layer) :=
  match in_features, out_features, kernel_sizes, strides, paddings with
  | _in :: in_features, _out :: out_features, _kernel :: kernel_sizes,
    _stride :: strides, _padding :: paddings =>
    let _bias := (i <? n - 1) || self_bias_last_layer self in
    l ←
      match _in with
      | Some _in => instantiate raises (Conv3d _in _out _kernel _stride _bias _padding)
      | None => instantiate raises (LazyConv3d _out _kernel _stride _bias _padding)
      end;
    let layers := layers ++ [l] in
    l ← create_on_device raises
          (Activation (self_activation_class self) (self_activation_kwargs self));
    let layers := layers ++ [l] in
    layers ←
      match self_norm_class self with
      | Some nc =>
        l ← create_on_device raises (Norm nc (self_norm_kwargs self));
        Ok (layers ++ [l])
      | None => Ok layers
      end;
    _make_net_loop self n (i + 1) in_features out_features kernel_sizes strides paddings layers
  | _, _, _, _, _ => Ok layers
  end.

Definition _make_net (self : t) : result (list layer) :=
  let layers := [] in
  let in_features :=
    self_in_features self
      :: (Some <$> take (Z.to_nat (self_depth self)) (self_num_cells self)) in
  let out_features := self_num_cells self ++ [self_out_features self] in
  let kernel_sizes := self_kernel_sizes self in
  let strides := self_strides self in
  let paddings := self_paddings self in
  layers ←
    _make_net_loop self (len in_features) 0
      in_features out_features kernel_sizes strides paddings layers;
  layers ←
    match self_aggregator_class self with
    | Some ac =>
      l ← create_on_device raises (Aggregator ac (self_aggregator_kwargs self));
      Ok (layers ++ [l])
    | None => Ok layers
    end;
  if self_squeeze_output self then
    l ← instantiate raises (SqueezeLayer [-3; -2; -1]);
    Ok (layers ++ [l])
  else Ok layers.

End WithConstructors.

(** One round of the loop over the four per-layer fields; a length conflict
    is a [ValueError] in this class. *)
Definition set_field {A} (inj : Z → A) (_value : arg A) (_depth : Z) : result (list A) :=
  let field :=
    match _value with
    | Sequence l => l
    | Number n => py_repeat (inj n) _depth
    end in
  if negb (len field =? _depth) then Raise ValueError else Ok field.

Section WithFindDepth.

Variable _find_depth :
  option Z → arg Z → arg (arg Z) → arg (arg Z) → arg (arg Z) → result Z.

(** What the constructors of the layer classes reject. *)
Variable raises : layer → option exn.

Definition __init__ (a : args) : result t :=
  let num_cells :=
    match num_cells a with
    | None =>
      match depth a with
      | None => Sequence [32; 32; 32]
      | Some depth => Sequence (py_repeat 32 depth)
      end
    | Some num_cells => num_cells
    end in
  depth ← _find_depth (depth a) num_cells (kernel_sizes a) (strides a) (paddings a);
  if depth =? 0 then Raise ValueError else
  cells ← set_field id num_cells depth;
  kernels ← set_field Number (kernel_sizes a) depth;
  strides_ ← set_field Number (strides a) depth;
  paddings_ ← set_field Number (paddings a) depth;
  out ← py_last cells;
  let self := {|
    self_in_features := in_features a;
    self_activation_class := activation_class a;
    self_activation_kwargs := default ∅ (activation_kwargs a);
    self_norm_class := norm_class a;
    self_norm_kwargs := default ∅ (norm_kwargs a);
    self_bias_last_layer := bias_last_layer a;
    self_aggregator_class := aggregator_class a;
    self_aggregator_kwargs :=
      default {["ndims_in" := Number 4]} (aggregator_kwargs a);
    self_squeeze_output := squeeze_output a;
    self_depth := len kernels;
    self_num_cells := cells;
    self_kernel_sizes := kernels;
    self_strides := strides_;
    self_paddings := paddings_;
    self_out_features := out;
    modules := []
  |} in
  layers ← _make_net raises self;
  Ok (Self (self_in_features self) (self_activation_class self)
        (self_activation_kwargs self) (self_norm_class self)
        (self_norm_kwargs self) (self_bias_last_layer self)
        (self_aggregator_class self) (self_aggregator_kwargs self)
        (self_squeeze_output self) (self_depth self) (self_num_cells self)
        (self_kernel_sizes self) (self_strides self) (self_paddings self)
        (self_out_features self) layers).

End WithFindDepth.

Section Forward.

Variable framework_forward : layer → shape → result shape.

Definition forward (self : t) (inputs : shape) : result shape :=
  '(batch, _) ← unpack_trailing 4 inputs;
  let inputs := if 1 <? len batch then flatten0 (len batch - 1) inputs else inputs in
  out ← nn_Sequential_forward framework_forward (modules self) inputs;
  if 1 <? len batch then unflatten0 batch out else Ok out.

End Forward.

End Conv3dNet.

(** Modelled from the spec: [_find_depth], the depth resolver of
    [torchrl/modules/models/utils.py], is not among the sources.  Section 4.1
    of the specification: the explicit depth and the length of every
    sequence-valued parameter are depth candidates; all candidates must be
    equal, else the resolver fails with a configuration error; with no
    candidate at all the fixed default depth 3 is used. *)
Definition _find_depth (depth : option Z) (num_cells : arg Z)
    (kernel_sizes strides paddings : arg (arg Z)) : result Z :=
  let candidate {A} (v : arg A) : list Z :=
    match v with
    | Sequence l => [len l]
    | Number _ => []
    end in
  let candidates :=
    option_list depth ++ candidate num_cells ++ candidate kernel_sizes
      ++ candidate strides ++ candidate paddings in
  match candidates with
  | [] => Ok 3
  | d :: rest => if forallb (Z.eqb d) rest then Ok d else Raise ValueError
  end.

(** A sequence-valued argument has length [d]; a number fits any depth. *)
Definition matches_depth {A} (v : arg A) (d : Z) : Prop :=
  ∀ l, v = Sequence l → len l = d.

(** A sequence-valued argument whose length is not [d]. *)
Definition conflicts_with_depth {A} (v : arg A) (d : Z) : Prop :=
  ∃ l, v = Sequence l ∧ len l ≠ d.

(** What the construction code relies on from [_find_depth]: an explicit
    depth is returned as it is or rejected, it is accepted when every
    sequence has that length, and a rejection is a configuration error. *)
Definition find_depth_contract
    (fd : option Z → arg Z → arg (arg Z) → arg (arg Z) → arg (arg Z) → result Z)
    : Prop :=
  (∀ d nc ks ss ps d', fd (Some d) nc ks ss ps = Ok d' → d' = d) ∧
  (∀ d nc ks ss ps,
      matches_depth nc d → matches_depth ks d →
      matches_depth ss d → matches_depth ps d →
      fd (Some d) nc ks ss ps = Ok d) ∧
  (∀ d nc ks ss ps e, fd d nc ks ss ps = Raise e → ConfigurationError e = true).

(** ** Dueling networks *)

(** A batch of rows: the leading dimensions flattened, the last axis kept.
    Values are rationals: the arithmetic of [forward] is taken exactly. *)
Abbreviation row := (list Q).

Definition qsum (r : row) : Q := foldr Qplus 0%Q r.

(** [t.mean(dim=-1)] on one row. *)
Definition row_mean (r : row) : Q := (qsum r / inject_Z (len r))%Q.

(** [t.mean(dim=-1, keepdim=True)] *)
Definition mean_keepdim (t : list row) : list row := (λ r, [row_mean r]) <$> t.

Fixpoint sequence {A} (l : list (result A)) : result (list A) :=
  match l with
  | [] => Ok []
  | x :: l => a ← x; r ← sequence l; Ok (a :: r)
  end.

(** Broadcasting along one axis: equal sizes pair up, a size of one is
    repeated, anything else is a shape error. *)
Definition broadcast {A} (op : A → A → result A) (x y : list A) : result (list A) :=
  if (length x =? length y)%nat then sequence (zip_with op x y)
  else
    match x, y with
    | [a], _ => sequence (op a <$> y)
    | _, [b] => sequence ((λ a, op a b) <$> x)
    | _, _ => Raise RuntimeError
    end.

(** An entrywise operation on rows, and on batches of rows. *)
Definition row_op (f : Q → Q → Q) : row → row → result row :=
  broadcast (λ a b, Ok (f a b)).

Definition tensor_add : list row → list row → result (list row) :=
  broadcast (row_op Qplus).

Definition tensor_sub : list row → list row → result (list row) :=
  broadcast (row_op Qminus).

Module DuelingMlpDQNet.

Section Forward.

(** The [forward] of the three sub-networks [self.features],
    [self.advantage] and [self.value]. *)
Context {X F : Type}.
Variable features : X → result F.
Variable advantage : F → result (list row).
Variable value : F → result (list row).

Definition forward (x : X) : result (list row) :=
  x ← features x;
  advantage ← advantage x;
  value ← value x;
  s ← tensor_add value advantage;
  tensor_sub s (mean_keepdim advantage).

End Forward.

End DuelingMlpDQNet.

Module DuelingCnnDQNet.

Section Forward.

Context {X F : Type}.
Variable features : X → result F.
Variable advantage : F → result (list row).
Variable value : F → result (list row).

Definition forward (x : X) : result (list row) :=
  x ← features x;
  advantage ← advantage x;
  value ← value x;
  s ← tensor_add value advantage;
  tensor_sub s (mean_keepdim advantage).

End Forward.

End DuelingCnnDQNet.

(** ** Module objects and their parameters *)

(** A parameter tensor, by its entries; the parameters of a lazy layer are
    uninitialised until the first forward call. *)
Inductive param : Type :=
| Uninitialized
| Tensor (data : list Q).

(** A module object: the layer it is, its [weight] and [bias] attributes
    ([None] as in Python) and its remaining parameters and buffers.  A
    parameter is held by reference, as a position in the store of tensors:
    two modules whose attributes are the same position share the tensor
    (tied parameters), and an in-place write to it shows in both. *)
Record module_obj : Type := ModuleObj {
  descr : layer;
  weight : option nat;
  bias : option nat;
  others : list nat
}.

(** The parameter tensors a module holds. *)
Definition parameters (o : module_obj) : list nat :=
  option_list (weight o) ++ option_list (bias o) ++ others o.

(** The state construction runs in: the module objects and the parameter
    tensors, each addressed by its position, and the random generator.
    [rand] is the stream of draws of [torch.rand] (uniform on [[0, 1)]),
    [init] the stream of values the layers' own initialisation writes;
    [cursor] is the next draw. *)
Record world : Type := World {
  heap : list module_obj;
  tensors : list param;
  rand : nat → Q;
  init : nat → Q;
  cursor : nat
}.

Definition M (A : Type) : Type := world → result A * world.

Definition retM {A} (a : A) : M A := λ w, (Ok a, w).

Definition bindM {A B} (m : M A) (f : A → M B) : M B := λ w,
  match m w with
  | (Ok a, w) => f a w
  | (Raise e, w) => (Raise e, w)
  end.

Definition liftM {A} (r : result A) : M A := λ w, (r, w).

Notation "'do' x <- m ; k" := (bindM m (λ x, k))
  (at level 10, x name, m at level 100, k at level 200, only parsing).

(** The next [n] values of a stream. *)
Definition draw (stream : world → nat → Q) (n : nat) : M (list Q) := λ w,
  (Ok ((λ i, stream w (cursor w + i)%nat) <$> seq 0 n),
   World (heap w) (tensors w) (rand w) (init w) (cursor w + n)%nat).

(** [torch.rand_like(p.data)]; an uninitialised parameter cannot be used. *)
Definition rand_like (p : param) : M (list Q) :=
  match p with
  | Tensor data => draw rand (length data)
  | Uninitialized => liftM (Raise ValueError)
  end.

Definition alloc (o : module_obj) : M nat := λ w,
  (Ok (length (heap w)),
   World (heap w ++ [o]) (tensors w) (rand w) (init w) (cursor w)).

(** A new tensor. *)
Definition alloc_tensor (p : param) : M nat := λ w,
  (Ok (length (tensors w)),
   World (heap w) (tensors w ++ [p]) (rand w) (init w) (cursor w)).

(** The tensor at a position. *)
Definition read_tensor (t : nat) : M param := λ w,
  match tensors w !! t with
  | Some p => (Ok p, w)
  | None => (Raise RuntimeError, w)
  end.

(** Writing a tensor in place. *)
Definition write_tensor (t : nat) (p : param) : M unit := λ w,
  (Ok tt, World (heap w) (<[t := p]> (tensors w)) (rand w) (init w) (cursor w)).

(** Number of points of a kernel in [dims] spatial dimensions. *)
Definition kernel_volume (dims : nat) (k : arg Z) : Z :=
  match k with
  | Number n => n ^ Z.of_nat dims
  | Sequence l => prod l
  end.

Definition new_param (n : Z) : M nat :=
  do data <- draw init (Z.to_nat n); alloc_tensor (Tensor data).

Definition new_bias (b : bool) (n : Z) : M (option nat) :=
  if b then do p <- new_param n; retM (Some p) else retM None.

(** The parameters of a lazy layer. *)
Definition new_lazy_bias (b : bool) : M (option nat) :=
  if b then do p <- alloc_tensor Uninitialized; retM (Some p) else retM None.

(** Instantiating a layer: the parameters a linear or convolutional layer
    creates, each a tensor of its own.  The parameters of the other layers
    are not represented. *)
Definition new_module (l : layer) : M nat :=
  match l with
  | Layer _ i o b _ =>
    do w <- new_param (o * i); do b <- new_bias b o; alloc (ModuleObj l (Some w) b [])
  | Conv2d i o k _ b _ =>
    do w <- new_param (o * i * kernel_volume 2 k);
    do b <- new_bias b o; alloc (ModuleObj l (Some w) b [])
  | Conv3d i o k _ b _ =>
    do w <- new_param (o * i * kernel_volume 3 k);
    do b <- new_bias b o; alloc (ModuleObj l (Some w) b [])
  | LazyLayer _ _ b _ | LazyConv2d _ _ _ b _ | LazyConv3d _ _ _ b _ =>
    do w <- alloc_tensor Uninitialized;
    do b <- new_lazy_bias b; alloc (ModuleObj l (Some w) b [])
  | _ => alloc (ModuleObj l None None [])
  end.

(** [nn.Sequential] registering freshly created layers. *)
Fixpoint nn_Sequential (layers : list layer) : M (list nat) :=
  match layers with
  | [] => retM []
  | l :: layers =>
    do loc <- new_module l; do locs <- nn_Sequential layers; retM (loc :: locs)
  end.

(** What registering a network does to the state: its modules are new
    objects at consecutive positions and their parameters are new tensors;
    what existed is not touched. *)
Definition registers (layers : list layer) (locs : list nat) (w w' : world) : Prop :=
  locs = seq (length (heap w)) (length layers) ∧
  ∃ objs ts, heap w' = heap w ++ objs ∧ tensors w' = tensors w ++ ts ∧
    descr <$> objs = layers ∧
    Forall (λ o, ∀ t, t ∈ parameters o →
                   (length (tensors w) ≤ t < length (tensors w ++ ts))%nat) objs.

(** ** The DDPG last-layer initialiser *)

(** [isinstance(m, (nn.Linear, nn.Conv2d))] *)
Definition isinstance_Linear_Conv2d (l : layer) : bool :=
  match l with
  | Layer cls _ _ _ _ | LazyLayer cls _ _ _ => cls_Linear cls
  | Conv2d _ _ _ _ _ _ | LazyConv2d _ _ _ _ _ => true
  | _ => false
  end.

(** The [for ... in reversed(module)] loop with its [break]. *)
Definition find_last_layer (h : list module_obj) (module : list nat) : option nat :=
  List.find
    (λ loc, from_option (λ o, isinstance_Linear_Conv2d (descr o)) false (h !! loc))
    (reverse module).

(** [torch.rand_like(p.data) * scale - scale / 2] *)
Definition ddpg_noise (scale : Q) (p : param) : M param :=
  do r <- rand_like p; retM (Tensor ((λ x, x * scale - scale / 2)%Q <$> r)).

(** [t.data.copy_(torch.rand_like(t.data) * scale - scale / 2)] for the
    tensor at position [t]: the tensor is overwritten in place. *)
Definition copy_noise (scale : Q) (t : nat) : M unit :=
  do p <- read_tensor t; do q <- ddpg_noise scale p; write_tensor t q.

Definition ddpg_init_last_layer (module : list nat) (scale : Q) : M unit := λ w,
  match find_last_layer (heap w) module with
  | None => (Raise RuntimeError, w)
  | Some loc =>
    match heap w !! loc with
    | None => (Raise RuntimeError, w)
    | Some last_layer =>
      (match weight last_layer with
       | None => liftM (Raise AttributeError)
       | Some t =>
         do _ <- copy_noise scale t;
         match bias last_layer with
         | None => retM tt
         | Some b => copy_noise scale b
         end
       end) w
    end
  end.

(** Every entry of the weight and of the bias of the last linear or
    convolutional layer of [module] lies in [[-b, b]]. *)
Definition within (b x : Q) : bool := Qle_bool (- b) x && Qle_bool x b.

Definition param_within (b : Q) (p : option param) : bool :=
  match p with
  | Some (Tensor data) => forallb (within b) data
  | _ => true
  end.

(** The tensor an attribute of a module refers to ([None] for an attribute
    that is [None]). *)
Definition attribute (w : world) (t : option nat) : option param :=
  t ≫= λ t, tensors w !! t.

Definition last_layer_within (w : world) (module : list nat) (b : Q) : bool :=
  match find_last_layer (heap w) module with
  | None => false
  | Some loc =>
    match heap w !! loc with
    | None => false
    | Some o =>
      param_within b (attribute w (weight o)) && param_within b (attribute w (bias o))
    end
  end.

(** The draws of [torch.rand] lie in [[0, 1)]. *)
Definition uniform01 (w : world) : Prop := ∀ i, (0 <= rand w i ∧ rand w i < 1)%Q.

(** The random stream itself is never changed, only the cursor into it. *)
Definition keeps_rand {A} (m : M A) : Prop :=
  ∀ w r w', m w = (r, w') → rand w' = rand w.

(** ** The DDPG composites *)

Section Ddpg.

Variable LazyMapping : gmap string pyclass.
Variable _find_depth :
  option Z → arg Z → arg (arg Z) → arg (arg Z) → arg (arg Z) → result Z.
Variable raises : layer → option exn.

(** [MLP(device=device, **kwargs)]: the constructor, then the registration
    of the created layers. *)
Definition new_MLP (k : MLP.kw) : M (MLP.t * list nat) :=
  do net <- liftM (MLP.__init__ LazyMapping raises (MLP.bind_args k));
  do locs <- nn_Sequential (MLP.modules net);
  retM (net, locs).

(** [ConvNet(device=device, **kwargs)] *)
Definition new_ConvNet (k : ConvNet.kw) : M (ConvNet.t * list nat) :=
  do net <- liftM (ConvNet.__init__ _find_depth raises (ConvNet.bind_args k));
  do locs <- nn_Sequential (ConvNet.modules net);
  retM (net, locs).

(** The default convolutional keywords of the two convolutional composites,
    which differ in [num_cells] only. *)
Definition conv_net_default_kwargs (num_cells : list Z) (use_avg_pooling : bool)
    : ConvNet.kw := {|
  ConvNet.kw_in_features := Some None;
  ConvNet.kw_depth := None;
  ConvNet.kw_num_cells := Some (Some (Sequence num_cells));
  ConvNet.kw_kernel_sizes := Some (Sequence [Number 8; Number 4; Number 3]);
  ConvNet.kw_strides := Some (Sequence [Number 4; Number 2; Number 1]);
  ConvNet.kw_paddings := Some (Sequence [Number 0; Number 0; Number 1]);
  ConvNet.kw_activation_class := Some "ELU";
  ConvNet.kw_activation_kwargs := None;
  ConvNet.kw_norm_class := Some None;
  ConvNet.kw_norm_kwargs := None;
  ConvNet.kw_bias_last_layer := None;
  ConvNet.kw_aggregator_class :=
    Some (Some (if negb use_avg_pooling then "SquashDims" else "AdaptiveAvgPool2d"));
  ConvNet.kw_aggregator_kwargs :=
    Some (Some (if negb use_avg_pooling then {["ndims_in" := Number 3]}
                else {["output_size" := Sequence [1; 1]]}));
  ConvNet.kw_squeeze_output := Some use_avg_pooling
|}.

(** The default [MLP] keywords of the composites. *)
Definition mlp_net_default_kwargs (out_features : Z) (depth : option Z)
    (num_cells : arg Z) (activate_last_layer : option bool) : MLP.kw := {|
  MLP.kw_in_features := Some None;
  MLP.kw_out_features := Some (Some (Number out_features));
  MLP.kw_depth := Some <$> depth;
  MLP.kw_num_cells := Some (Some num_cells);
  MLP.kw_activation_class := Some "ELU";
  MLP.kw_activation_kwargs := None;
  MLP.kw_norm_class := None;
  MLP.kw_norm_kwargs := None;
  MLP.kw_dropout := None;
  MLP.kw_bias_last_layer := Some true;
  MLP.kw_single_bias_last_layer := None;
  MLP.kw_layer_class := None;
  MLP.kw_layer_kwargs := None;
  MLP.kw_activate_last_layer := activate_last_layer
|}.

(** [DdpgCnnActor.__init__]; the record holds [self.convnet] and [self.mlp]. *)
Definition DdpgCnnActor (action_dim : Z) (conv_net_kwargs : option ConvNet.kw)
    (mlp_net_kwargs : option MLP.kw) (use_avg_pooling : bool)
    : M ((ConvNet.t * list nat) * (MLP.t * list nat)) :=
  let conv_net_default_kwargs := conv_net_default_kwargs [32; 64; 64] use_avg_pooling in
  let conv_net_kwargs := default ConvNet.empty_kw conv_net_kwargs in
  let conv_net_default_kwargs := ConvNet.update conv_net_default_kwargs conv_net_kwargs in
  let mlp_net_default_kwargs :=
    mlp_net_default_kwargs action_dim (Some 2) (Number 200) None in
  let mlp_net_kwargs := default MLP.empty_kw mlp_net_kwargs in
  let mlp_net_default_kwargs := MLP.update mlp_net_default_kwargs mlp_net_kwargs in
  do convnet <- new_ConvNet conv_net_default_kwargs;
  do mlp <- new_MLP mlp_net_default_kwargs;
  do _ <- ddpg_init_last_layer (snd mlp) 6e-4;
  retM (convnet, mlp).

(** [DdpgMlpActor.__init__]; the result is [self.mlp]. *)
Definition DdpgMlpActor (action_dim : Z) (mlp_net_kwargs : option MLP.kw)
    : M (MLP.t * list nat) :=
  let mlp_net_default_kwargs :=
    mlp_net_default_kwargs action_dim (Some 2) (Sequence [400; 300]) None in
  let mlp_net_kwargs := default MLP.empty_kw mlp_net_kwargs in
  let mlp_net_default_kwargs := MLP.update mlp_net_default_kwargs mlp_net_kwargs in
  do mlp <- new_MLP mlp_net_default_kwargs;
  do _ <- ddpg_init_last_layer (snd mlp) 6e-3;
  retM mlp.

(** [DdpgCnnQNet.__init__]; the record holds [self.convnet] and [self.mlp]. *)
Definition DdpgCnnQNet (conv_net_kwargs : option ConvNet.kw)
    (mlp_net_kwargs : option MLP.kw) (use_avg_pooling : bool)
    : M ((ConvNet.t * list nat) * (MLP.t * list nat)) :=
  let conv_net_default_kwargs := conv_net_default_kwargs [32; 64; 128] use_avg_pooling in
  let conv_net_kwargs := default ConvNet.empty_kw conv_net_kwargs in
  let conv_net_default_kwargs := ConvNet.update conv_net_default_kwargs conv_net_kwargs in
  let mlp_net_default_kwargs := mlp_net_default_kwargs 1 (Some 2) (Number 200) None in
  let mlp_net_kwargs := default MLP.empty_kw mlp_net_kwargs in
  let mlp_net_default_kwargs := MLP.update mlp_net_default_kwargs mlp_net_kwargs in
  do convnet <- new_ConvNet conv_net_default_kwargs;
  do mlp <- new_MLP mlp_net_default_kwargs;
  do _ <- ddpg_init_last_layer (snd mlp) 6e-4;
  retM (convnet, mlp).

(** [DdpgMlpQNet.__init__]; the record holds [self.mlp1] and [self.mlp2]. *)
Definition DdpgMlpQNet (mlp_net_kwargs_net1 mlp_net_kwargs_net2 : option MLP.kw)
    : M ((MLP.t * list nat) * (MLP.t * list nat)) :=
  let mlp1_net_default_kwargs :=
    mlp_net_default_kwargs 400 (Some 0) (Sequence []) (Some true) in
  let mlp_net_kwargs_net1 := default MLP.empty_kw mlp_net_kwargs_net1 in
  let mlp1_net_default_kwargs := MLP.update mlp1_net_default_kwargs mlp_net_kwargs_net1 in
  do mlp1 <- new_MLP mlp1_net_default_kwargs;
  let mlp2_net_default_kwargs := mlp_net_default_kwargs 1 None (Sequence [300]) None in
  let mlp_net_kwargs_net2 := default MLP.empty_kw mlp_net_kwargs_net2 in
  let mlp2_net_default_kwargs := MLP.update mlp2_net_default_kwargs mlp_net_kwargs_net2 in
  do mlp2 <- new_MLP mlp2_net_default_kwargs;
  do _ <- ddpg_init_last_layer (snd mlp2) 6e-3;
  retM (mlp1, mlp2).

End Ddpg.

(** ** Observations on a layer sequence *)

(** Number of layers of a kind. *)
Definition count_layers (p : layer → bool) (layers : list layer) : nat :=
  length (List.filter p layers).

(** The [bias=] arguments of the layers of a kind, in order. *)
Definition biases (p : layer → bool) (layers : list layer) : list bool :=
  omap layer_bias (List.filter p layers).

(** [starts_with ps l]: the first layers of [l] satisfy [ps], one each. *)
Fixpoint starts_with (ps : list (layer → bool)) (l : list layer) : bool :=
  match ps, l with
  | [], _ => true
  | p :: ps, x :: l => p x && starts_with ps l
  | _ :: _, [] => false
  end.

(** [after_each_conv ps l]: every convolution of [l] is directly followed by
    layers satisfying [ps], in that order. *)
Fixpoint after_each_conv (ps : list (layer → bool)) (l : list layer) : bool :=
  match l with
  | [] => true
  | x :: l => (if is_conv x then starts_with ps l else true) && after_each_conv ps l
  end.

(** Normalisation (when configured) then activation. *)
Definition norm_then_activation (norm_class : option string) : list (layer → bool) :=
  match norm_class with
  | Some _ => [is_norm; is_activation]
  | None => [is_activation]
  end.

(** Activation then normalisation (when configured). *)
Definition activation_then_norm (norm_class : option string) : list (layer → bool) :=
  match norm_class with
  | Some _ => [is_activation; is_norm]
  | None => [is_activation]
  end.

(** The loop of the two convolutional [_make_net], without the accumulator:
    [mk] builds the convolution ([Conv2d]/[LazyConv2d] or their 3D
    counterparts), [post] is what follows it. *)
Fixpoint conv_blocks (mk : option Z → Z → arg Z → arg Z → bool → arg Z → layer)
    (post : list layer) (bias_last_layer : bool) (n i : Z)
    (in_features : list (option Z)) (out_features : list Z)
    (kernel_sizes strides paddings : list (arg Z)) {struct in_features} : list layer :=
  match in_features, out_features, kernel_sizes, strides, paddings with
  | _in :: in_features, _out :: out_features, _kernel :: kernel_sizes,
    _stride :: strides, _padding :: paddings =>
    mk _in _out _kernel _stride ((i <? n - 1) || bias_last_layer) _padding
      :: post
      ++ conv_blocks mk post bias_last_layer n (i + 1)
           in_features out_features kernel_sizes strides paddings
  | _, _, _, _, _ => []
  end.

Definition mk_conv2d (_in : option Z) (_out : Z) (k s : arg Z) (b : bool) (p : arg Z) : layer :=
  match _in with
  | Some _in => Conv2d _in _out k s b p
  | None => LazyConv2d _out k s b p
  end.

Definition mk_conv3d (_in : option Z) (_out : Z) (k s : arg Z) (b : bool) (p : arg Z) : layer :=
  match _in with
  | Some _in => Conv3d _in _out k s b p
  | None => LazyConv3d _out k s b p
  end.

(** What follows each convolution in [ConvNet._make_net] and
    [Conv3dNet._make_net]. *)
Definition conv_post (activation_class : string) (activation_kwargs : kwargs)
    (norm_class : option string) (norm_kwargs : kwargs) : list layer :=
  Activation activation_class activation_kwargs
    :: match norm_class with
       | Some nc => [Norm nc norm_kwargs]
       | None => []
       end.
Arguments conv_post : simpl never.

(** The appended aggregator and squeeze steps. *)
Definition conv_tail (aggregator_class : option string) (aggregator_kwargs : kwargs)
    (squeeze_output : bool) (squeeze : layer) : list layer :=
  match aggregator_class with
  | Some ac => [Aggregator ac aggregator_kwargs]
  | None => []
  end ++ (if squeeze_output then [squeeze] else []).

(** The layers of [MLP._make_net], without the accumulator and with the
    lazy version of the layer class already looked up. *)
Definition mlp_linear (self : MLP.t) (lazy_version : pyclass)
    (_in : option Z) (_out : Z) (_bias : bool) : layer :=
  match _in with
  | Some _in => Layer (MLP.self_layer_class self) _in _out _bias (MLP.self_layer_kwargs self)
  | None => LazyLayer lazy_version _out _bias (MLP.self_layer_kwargs self)
  end.

(** What follows a linear layer when it is not the last one or
    [activate_last_layer] is set: dropout, normalisation, activation. *)
Definition mlp_post (self : MLP.t) : list layer :=
  match MLP.self_dropout self with Some p => [Dropout p] | None => [] end
  ++ match MLP.self_norm_class self with
     | Some nc => [Norm nc (MLP.self_norm_kwargs self)]
     | None => []
     end
  ++ [Activation (MLP.self_activation_class self) (MLP.self_activation_kwargs self)].
Arguments mlp_post : simpl never.

Fixpoint mlp_blocks (self : MLP.t) (lazy_version : pyclass) (i : Z)
    (items : list (option Z * Z)) : list layer :=
  match items with
  | [] => []
  | (_in, _out) :: items =>
    [mlp_linear self lazy_version _in _out
       (if i =? MLP.self_depth self then MLP.self_bias_last_layer self else true)]
    ++ (if (i <? MLP.self_depth self) || MLP.self_activate_last_layer self
        then mlp_post self else [])
    ++ mlp_blocks self lazy_version (i + 1) items
  end.

(** The hidden widths [MLP.__init__] settles on, when [depth] and [num_cells]
    agree. *)
Definition mlp_cells (a : MLP.args) : option (list Z) :=
  match MLP.num_cells a, MLP.depth a with
  | None, None => Some (py_repeat 32 3)
  | None, Some d => if 0 <=? d then Some (py_repeat 32 d) else None
  | Some (Sequence l), None => Some l
  | Some (Sequence l), Some d => if len l =? d then Some l else None
  | Some (Number n), Some d => if 0 <=? d then Some (py_repeat n d) else None
  | Some (Number n), None => None
  end.

(** The attributes [MLP.__init__] has set when it calls [_make_net]. *)
Definition mlp_self (a : MLP.args) (out_features : arg Z) (cells : list Z) : MLP.t := {|
  MLP.self_in_features := MLP.in_features a;
  MLP.self_out_features := out_features;
  MLP.self__out_features_num :=
    match out_features with Number n => n | Sequence l => prod l end;
  MLP.self_activation_class := MLP.activation_class a;
  MLP.self_activation_kwargs := default ∅ (MLP.activation_kwargs a);
  MLP.self_norm_class := MLP.norm_class a;
  MLP.self_norm_kwargs := default ∅ (MLP.norm_kwargs a);
  MLP.self_dropout := MLP.dropout a;
  MLP.self_bias_last_layer := MLP.bias_last_layer a;
  MLP.self_single_bias_last_layer := MLP.single_bias_last_layer a;
  MLP.self_layer_class := MLP.layer_class a;
  MLP.self_layer_kwargs := default ∅ (MLP.layer_kwargs a);
  MLP.self_activate_last_layer := MLP.activate_last_layer a;
  MLP.self_num_cells := cells;
  MLP.self_depth := len cells;
  MLP.modules := []
|}.

(** [self] once [nn.Sequential] has registered the layers. *)
Definition mlp_with_modules (self : MLP.t) (layers : list layer) : MLP.t :=
  MLP.Self (MLP.self_in_features self) (MLP.self_out_features self)
    (MLP.self__out_features_num self) (MLP.self_activation_class self)
    (MLP.self_activation_kwargs self) (MLP.self_norm_class self)
    (MLP.self_norm_kwargs self) (MLP.self_dropout self)
    (MLP.self_bias_last_layer self) (MLP.self_single_bias_last_layer self)
    (MLP.self_layer_class self) (MLP.self_layer_kwargs self)
    (MLP.self_activate_last_layer self) (MLP.self_num_cells self)
    (MLP.self_depth self) layers.

(** ** The layers a configuration asks for *)

(** Instantiating the layers of a list in order: the first exception a
    constructor raises is the outcome. *)
Fixpoint create_all (raises : layer → option exn) (ls : list layer) : result (list layer) :=
  match ls with
  | [] => Ok []
  | l :: ls => l ← instantiate raises l; ls ← create_all raises ls; Ok (l :: ls)
  end.

(** The value of a per-layer field at depth [d]: the sequence itself, or the
    number repeated [d] times. *)
Definition per_layer {A} (inj : Z → A) (v : arg A) (d : Z) : list A :=
  match v with
  | Sequence l => l
  | Number n => py_repeat (inj n) d
  end.

(** The layers [MLP.__init__] instantiates, in order, when its guards pass:
    the modules of the network when every constructor accepts. *)
Definition MLP_layers (LazyMapping : gmap string pyclass) (a : MLP.args) : list layer :=
  match MLP.out_features a, mlp_cells a with
  | Some o, Some cells =>
    mlp_blocks (mlp_self a o cells)
      (default (MLP.layer_class a) (LazyMapping !! cls_name (MLP.layer_class a))) 0
      (zip (MLP.in_features a :: (Some <$> cells))
           (cells ++ [MLP.self__out_features_num (mlp_self a o cells)]))
  | _, _ => []
  end.

(** The layers [ConvNet.__init__] instantiates, in order, at depth [d]. *)
Definition ConvNet_layers (a : ConvNet.args) (d : Z) : list layer :=
  let cells := per_layer id (default (Sequence [32; 32; 32]) (ConvNet.num_cells a)) d in
  conv_blocks mk_conv2d
    (conv_post (ConvNet.activation_class a) (default ∅ (ConvNet.activation_kwargs a))
       (ConvNet.norm_class a) (default ∅ (ConvNet.norm_kwargs a)))
    (ConvNet.bias_last_layer a) (d + 1) 0
    (ConvNet.in_features a :: (Some <$> cells)) (cells ++ [default 0 (last cells)])
    (per_layer Number (ConvNet.kernel_sizes a) d)
    (per_layer Number (ConvNet.strides a) d)
    (per_layer Number (ConvNet.paddings a) d)
  ++ conv_tail (ConvNet.aggregator_class a)
       (default {["ndims_in" := Number 3]} (ConvNet.aggregator_kwargs a))
       (ConvNet.squeeze_output a) Squeeze2dLayer.

(** The layers [Conv3dNet.__init__] instantiates, in order, at depth [d]. *)
Definition Conv3dNet_layers (a : Conv3dNet.args) (d : Z) : list layer :=
  let cells :=
    per_layer id
      (match Conv3dNet.num_cells a with
       | None =>
         match Conv3dNet.depth a with
         | None => Sequence [32; 32; 32]
         | Some depth => Sequence (py_repeat 32 depth)
         end
       | Some num_cells => num_cells
       end) d in
  conv_blocks mk_conv3d
    (conv_post (Conv3dNet.activation_class a) (default ∅ (Conv3dNet.activation_kwargs a))
       (Conv3dNet.norm_class a) (default ∅ (Conv3dNet.norm_kwargs a)))
    (Conv3dNet.bias_last_layer a) (d + 1) 0
    (Conv3dNet.in_features a :: (Some <$> cells)) (cells ++ [default 0 (last cells)])
    (per_layer Number (Conv3dNet.kernel_sizes a) d)
    (per_layer Number (Conv3dNet.strides a) d)
    (per_layer Number (Conv3dNet.paddings a) d)
  ++ conv_tail (Conv3dNet.aggregator_class a)
       (default {["ndims_in" := Number 4]} (Conv3dNet.aggregator_kwargs a))
       (Conv3dNet.squeeze_output a) (SqueezeLayer [-3; -2; -1]).

(** Every constructor accepts. *)
Definition accepts (raises : layer → option exn) (ls : list layer) : Prop :=
  Forall (λ l, raises l = None) ls.

(** ** Layers that keep the shape *)



(** ** DistributionalDQNnet *)

Module DistributionalDQNnet.

(** The (deprecated) [DQNet] argument: a network with an [out_features]
    attribute that can be called on a tensor. *)
Record network : Type := Network {
  net_out_features : arg Z;
  net_forward : shape → result shape
}.

Record t : Type := Self {
  dqn : option network;
  in_keys : list string;
  out_keys : list string
}.

Definition __init__ (DQNet : option network) (in_keys out_keys : option (list string))
    : result t :=
  _ ←
    match DQNet with
    | Some net =>
      if negb (match net_out_features net with
               | Number _ => false
               | Sequence l => 1 <? len l
               end)
      then Raise RuntimeError else Ok tt
    | None => Ok tt
    end;
  Ok {|
    dqn := DQNet;
    in_keys := default ["action_value"] in_keys;
    out_keys := default ["action_value"] out_keys
  |}.

(** The [for] loop of [forward] over the zipped keys.  The tensordict, a
    dictionary from keys to tensors (here: their shapes), is updated in
    place, so it is returned next to the outcome.  [F.log_softmax] keeps the
    shape. *)
Fixpoint forward_loop (dqn : option network) (keys : list (string * string))
    (tensordict : gmap string shape) : result unit * gmap string shape :=
  match keys with
  | [] => (Ok tt, tensordict)
  | (in_key, out_key) :: keys =>
    match tensordict !! in_key with
    | None => (Raise KeyError, tensordict)
    | Some q_values =>
      match
        (match dqn with
         | Some net => net_forward net q_values
         | None => Ok q_values
         end)
      with
      | Raise e => (Raise e, tensordict)
      | Ok q_values =>
        if len q_values <? 2 then (Raise RuntimeError, tensordict)
        else forward_loop dqn keys (<[out_key := q_values]> tensordict)
      end
    end
  end.

Definition forward (self : t) (tensordict : gmap string shape)
    : result unit * gmap string shape :=
  forward_loop (dqn self) (zip (in_keys self) (out_keys self)) tensordict.

End DistributionalDQNnet.

(** ** LSTMNet *)

(** More of the tensor framework, on shapes. *)

(** [x.unsqueeze(d)] for a position [d] within the rank. *)
Definition unsqueeze (d : nat) (x : shape) : shape := take d x ++ 1 :: drop d x.

(** [x.squeeze(d)]: the dimension is removed when it is one. *)
Definition squeeze (d : nat) (x : shape) : result shape :=
  match x !! d with
  | None => Raise IndexError
  | Some n => if n =? 1 then Ok (delete d x) else Ok x
  end.

(** [x[:, 0]] *)
Definition select1_0 (x : shape) : result shape :=
  match x !! 1%nat with
  | None => Raise IndexError
  | Some n => if 0 <? n then Ok (delete 1%nat x) else Raise IndexError
  end.

(** [x.transpose(i, j)] for two positions within the rank. *)
Definition transpose (i j : nat) (x : shape) : result shape :=
  match x !! i, x !! j with
  | Some a, Some b => Ok (<[i := b]> (<[j := a]> x))
  | _, _ => Raise IndexError
  end.

(** [x.transpose(-3, -2)] *)
Definition transpose_m3_m2 (x : shape) : result shape :=
  if (length x <? 3)%nat then Raise IndexError
  else transpose (length x - 3) (length x - 2) x.

(** [torch.stack(xs, 1)]: the tensors have one shape, of rank one at least. *)
Definition stack1 (xs : list shape) : result shape :=
  match xs with
  | [] => Raise RuntimeError
  | x :: rest =>
    if forallb (λ y, bool_decide (y = x)) rest && (0 <? len x)
    then Ok (take 1 x ++ len xs :: drop 1 x)
    else Raise RuntimeError
  end.

Module LSTMNet.

(** [self.mlp], the [num_layers] and [hidden_size] of [self.lstm], and the
    width of [self.linear]. *)
Record t : Type := Self {
  mlp : MLP.t;
  lstm_num_layers : Z;
  lstm_hidden_size : Z;
  linear_out_features : Z
}.

Section Forward.

Variable framework_forward : layer → shape → result shape.

(** The [forward] of [self.lstm] (built with [batch_first=True]): from the
    input and the two hidden states to the output and the new hidden
    states. *)
Variable lstm_forward : shape → shape → shape → result (shape * (shape * shape)).

Definition _lstm (self : t) (input : shape) (hidden0_in hidden1_in : option shape)
    : result (shape * shape * shape * shape * shape) :=
  let squeeze0 := len input =? 1 in
  let input := if squeeze0 then unsqueeze 0 input else input in
  let squeeze1 := len input =? 2 in
  let input := if squeeze1 then unsqueeze 1 input else input in
  '(batch, steps) ←
    match input with
    | batch :: steps :: _ => Ok (batch, steps)
    | _ => Raise ValueError
    end;
  '(hidden0_in, hidden1_in) ←
    match hidden0_in, hidden1_in with
    | None, None =>
      let shape := if negb squeeze1 then [batch; steps] else [batch] in
      let zeros := shape ++ [lstm_num_layers self; lstm_hidden_size self] in
      Ok (zeros, zeros)
    | Some hidden0_in, Some hidden1_in =>
      if squeeze0 then Ok (unsqueeze 0 hidden0_in, unsqueeze 0 hidden1_in)
      else Ok (hidden0_in, hidden1_in)
    | _, _ => Raise RuntimeError
    end;
  _hidden0_in ← (if negb squeeze1 then select1_0 hidden0_in else Ok hidden0_in);
  _hidden1_in ← (if negb squeeze1 then select1_0 hidden1_in else Ok hidden1_in);
  h0 ← transpose_m3_m2 _hidden0_in;
  h1 ← transpose_m3_m2 _hidden1_in;
  '(y0, (h0, h1)) ← lstm_forward input h0 h1;
  h0 ← transpose 0 1 h0;
  h1 ← transpose 0 1 h1;
  y ←
    match trailing y0 with
    | Some _ => Ok (leading y0 ++ [linear_out_features self])
    | None => Raise RuntimeError
    end;
  out0 ← (if squeeze1 then squeeze 1 y else Ok y);
  let pad (h : shape) : result shape :=
    if negb squeeze1 then
      stack1 (replicate (Z.to_nat (steps - 1)) h ++ [h])
    else Ok h in
  out3 ← pad h0;
  out4 ← pad h1;
  if squeeze0 then
    out0 ← squeeze 0 out0;
    out1 ← squeeze 0 hidden0_in;
    out2 ← squeeze 0 hidden1_in;
    out3 ← squeeze 0 out3;
    out4 ← squeeze 0 out4;
    Ok (out0, out1, out2, out3, out4)
  else Ok (out0, hidden0_in, hidden1_in, out3, out4).

Definition forward (self : t) (input : shape) (hidden0_in hidden1_in : option shape)
    : result (shape * shape * shape * shape * shape) :=
  input ← MLP.forward framework_forward (mlp self) [input];
  _lstm self input hidden0_in hidden1_in.

End Forward.

End LSTMNet.

(** What [nn.LSTM] with [batch_first=True] does to shapes, for [num_layers]
    layers of [hidden_size] units on inputs of width [input_size]:
    [[B, T, input_size]] and two hidden states [[num_layers, B, hidden_size]]
    give [[B, T, hidden_size]] and hidden states of the same shape. *)
Definition lstm_contract (input_size num_layers hidden_size : Z)
    (lstm_forward : shape → shape → shape → result (shape * (shape * shape))) : Prop :=
  ∀ B T, 0 < B → 0 < T →
    lstm_forward [B; T; input_size]
      [num_layers; B; hidden_size] [num_layers; B; hidden_size]
    = Ok ([B; T; hidden_size],
          ([num_layers; B; hidden_size], [num_layers; B; hidden_size])).

(** A stand-in for [nn.LSTM] in the examples. *)
Definition sample_lstm_forward (num_layers hidden_size : Z)
    (input h0 h1 : shape) : result (shape * (shape * shape)) :=
  match input with
  | [B; T; _] =>
    if bool_decide (h0 = [num_layers; B; hidden_size])
       && bool_decide (h1 = [num_layers; B; hidden_size])
    then Ok ([B; T; hidden_size], (h0, h1))
    else Raise RuntimeError
  | _ => Raise RuntimeError
  end.

(** ** OnlineDTActor *)

Module OnlineDTActor.

Definition log_std_min : Q := (-5)%Q.
Definition log_std_max : Q := 2%Q.

(** The rescaling of [forward], applied to one entry [log_std] of
    [torch.tanh(log_std)]. *)
Definition rescale_log_std (log_std : Q) : Q :=
  (log_std_min + 0.5 * (log_std_max - log_std_min) * (log_std + 1.0))%Q.

End OnlineDTActor.

(** Channels of a convolution ([None]: inferred lazily). *)
Definition conv_in (l : layer) : option Z :=
  match l with
  | Conv2d i _ _ _ _ _ | Conv3d i _ _ _ _ _ => Some i
  | _ => None
  end.

Definition conv_out (l : layer) : option Z :=
  match l with
  | Conv2d _ o _ _ _ _ | LazyConv2d o _ _ _ _
  | Conv3d _ o _ _ _ _ | LazyConv3d o _ _ _ _ => Some o
  | _ => None
  end.

(** [1] for [True], [0] for [False]. *)
Definition indicator (b : bool) : nat := if b then 1%nat else 0%nat.

(** The module at a position is an [nn.Linear] or [nn.Conv2d]: the test of
    the loop of [ddpg_init_last_layer]. *)
Definition holds_Linear_Conv2d (h : list module_obj) (loc : nat) : bool :=
  from_option (λ o, isinstance_Linear_Conv2d (descr o)) false (h !! loc).

(** ** The forward passes of the DDPG composites *)

Section DdpgForward.

Variable framework_forward : layer → shape → result shape.





End DdpgForward.

(** ** Sample configurations *)

(** The two entries of [LazyMapping] that the docstring of [MLP] shows at
    work: [nn.Linear] and [NoisyLinear]. *)
Definition nn_Linear : pyclass := PyClass "Linear" true.
Definition nn_LazyLinear : pyclass := PyClass "LazyLinear" true.
Definition NoisyLinear : pyclass := PyClass "NoisyLinear" true.
Definition NoisyLazyLinear : pyclass := PyClass "NoisyLazyLinear" true.

Definition LazyMapping_doc : gmap string pyclass :=
  <["Linear" := nn_LazyLinear]> (<["NoisyLinear" := NoisyLazyLinear]> ∅).

(** [MLP(in_features=3, out_features=6, depth=4, num_cells=32)] *)
Definition mlp_doc_args : MLP.args := {|
  MLP.in_features := Some 3;
  MLP.out_features := Some (Number 6);
  MLP.depth := Some 4;
  MLP.num_cells := Some (Number 32);
  MLP.activation_class := "Tanh";
  MLP.activation_kwargs := None;
  MLP.norm_class := None;
  MLP.norm_kwargs := None;
  MLP.dropout := None;
  MLP.bias_last_layer := true;
  MLP.single_bias_last_layer := false;
  MLP.layer_class := nn_Linear;
  MLP.layer_kwargs := None;
  MLP.activate_last_layer := false
|}.

(** [ConvNet(in_features=3, num_cells=[32, 33, 34, 35],
    kernel_sizes=[3, 4, 5, (2, 3)])] *)
Definition cnet_doc_args : ConvNet.args := {|
  ConvNet.in_features := Some 3;
  ConvNet.depth := None;
  ConvNet.num_cells := Some (Sequence [32; 33; 34; 35]);
  ConvNet.kernel_sizes := Sequence [Number 3; Number 4; Number 5; Sequence [2; 3]];
  ConvNet.strides := Number 1;
  ConvNet.paddings := Number 0;
  ConvNet.activation_class := "ELU";
  ConvNet.activation_kwargs := None;
  ConvNet.norm_class := None;
  ConvNet.norm_kwargs := None;
  ConvNet.bias_last_layer := true;
  ConvNet.aggregator_class := Some "SquashDims";
  ConvNet.aggregator_kwargs := None;
  ConvNet.squeeze_output := false
|}.

(** [ConvNet(in_features=3, depth=1, num_cells=[32], norm_class=nn.BatchNorm2d,
    norm_kwargs={"num_features": 32}, bias_last_layer=False)] *)
Definition cnet_norm_args : ConvNet.args := {|
  ConvNet.in_features := Some 3;
  ConvNet.depth := Some 1;
  ConvNet.num_cells := Some (Sequence [32]);
  ConvNet.kernel_sizes := Number 3;
  ConvNet.strides := Number 1;
  ConvNet.paddings := Number 0;
  ConvNet.activation_class := "ELU";
  ConvNet.activation_kwargs := None;
  ConvNet.norm_class := Some "BatchNorm2d";
  ConvNet.norm_kwargs := Some {["num_features" := Number 32]};
  ConvNet.bias_last_layer := false;
  ConvNet.aggregator_class := Some "SquashDims";
  ConvNet.aggregator_kwargs := None;
  ConvNet.squeeze_output := false
|}.

(** [ConvNet(in_features=3, depth=1, num_cells=[32],
    norm_class=nn.BatchNorm2d, bias_last_layer=False)]: the normalisation
    class is called without its required [num_features]. *)
Definition cnet_bare_norm_args : ConvNet.args := {|
  ConvNet.in_features := Some 3;
  ConvNet.depth := Some 1;
  ConvNet.num_cells := Some (Sequence [32]);
  ConvNet.kernel_sizes := Number 3;
  ConvNet.strides := Number 1;
  ConvNet.paddings := Number 0;
  ConvNet.activation_class := "ELU";
  ConvNet.activation_kwargs := None;
  ConvNet.norm_class := Some "BatchNorm2d";
  ConvNet.norm_kwargs := None;
  ConvNet.bias_last_layer := false;
  ConvNet.aggregator_class := Some "SquashDims";
  ConvNet.aggregator_kwargs := None;
  ConvNet.squeeze_output := false
|}.

(** [Conv3dNet(in_features=3, depth=1, num_cells=[32],
    norm_class=nn.BatchNorm3d, norm_kwargs={"num_features": 32},
    bias_last_layer=False)] *)
Definition cnet3d_norm_args : Conv3dNet.args := {|
  Conv3dNet.in_features := Some 3;
  Conv3dNet.depth := Some 1;
  Conv3dNet.num_cells := Some (Sequence [32]);
  Conv3dNet.kernel_sizes := Number 3;
  Conv3dNet.strides := Number 1;
  Conv3dNet.paddings := Number 0;
  Conv3dNet.activation_class := "ELU";
  Conv3dNet.activation_kwargs := None;
  Conv3dNet.norm_class := Some "BatchNorm3d";
  Conv3dNet.norm_kwargs := Some {["num_features" := Number 32]};
  Conv3dNet.bias_last_layer := false;
  Conv3dNet.aggregator_class := Some "SquashDims";
  Conv3dNet.aggregator_kwargs := None;
  Conv3dNet.squeeze_output := false
|}.

(** [ConvNet(in_features=3, depth=1, num_cells=[32], bias_last_layer=False)] *)
Definition cnet_one_args : ConvNet.args := {|
  ConvNet.in_features := Some 3;
  ConvNet.depth := Some 1;
  ConvNet.num_cells := Some (Sequence [32]);
  ConvNet.kernel_sizes := Number 3;
  ConvNet.strides := Number 1;
  ConvNet.paddings := Number 0;
  ConvNet.activation_class := "ELU";
  ConvNet.activation_kwargs := None;
  ConvNet.norm_class := None;
  ConvNet.norm_kwargs := None;
  ConvNet.bias_last_layer := false;
  ConvNet.aggregator_class := Some "SquashDims";
  ConvNet.aggregator_kwargs := None;
  ConvNet.squeeze_output := false
|}.

(** [Conv3dNet(in_features=3, depth=1, num_cells=[32], bias_last_layer=False)] *)
Definition cnet3d_one_args : Conv3dNet.args := {|
  Conv3dNet.in_features := Some 3;
  Conv3dNet.depth := Some 1;
  Conv3dNet.num_cells := Some (Sequence [32]);
  Conv3dNet.kernel_sizes := Number 3;
  Conv3dNet.strides := Number 1;
  Conv3dNet.paddings := Number 0;
  Conv3dNet.activation_class := "ELU";
  Conv3dNet.activation_kwargs := None;
  Conv3dNet.norm_class := None;
  Conv3dNet.norm_kwargs := None;
  Conv3dNet.bias_last_layer := false;
  Conv3dNet.aggregator_class := Some "SquashDims";
  Conv3dNet.aggregator_kwargs := None;
  Conv3dNet.squeeze_output := false
|}.

(** [MLP(out_features=6, depth=4, num_cells=[32, 33, 34, 35])] *)
Definition mlp_seq_args : MLP.args := {|
  MLP.in_features := None;
  MLP.out_features := Some (Number 6);
  MLP.depth := Some 4;
  MLP.num_cells := Some (Sequence [32; 33; 34; 35]);
  MLP.activation_class := "Tanh";
  MLP.activation_kwargs := None;
  MLP.norm_class := None;
  MLP.norm_kwargs := None;
  MLP.dropout := None;
  MLP.bias_last_layer := true;
  MLP.single_bias_last_layer := false;
  MLP.layer_class := nn_Linear;
  MLP.layer_kwargs := None;
  MLP.activate_last_layer := false
|}.

(** [MLP(in_features=3, out_features=6, depth=0)] *)
Definition mlp_depth0_args : MLP.args := {|
  MLP.in_features := Some 3;
  MLP.out_features := Some (Number 6);
  MLP.depth := Some 0;
  MLP.num_cells := None;
  MLP.activation_class := "Tanh";
  MLP.activation_kwargs := None;
  MLP.norm_class := None;
  MLP.norm_kwargs := None;
  MLP.dropout := None;
  MLP.bias_last_layer := true;
  MLP.single_bias_last_layer := false;
  MLP.layer_class := nn_Linear;
  MLP.layer_kwargs := None;
  MLP.activate_last_layer := false
|}.

(** [MLP(in_features=3, out_features=6, depth=2, num_cells=[32, 33, 34])] *)
Definition mlp_conflict_args : MLP.args := {|
  MLP.in_features := Some 3;
  MLP.out_features := Some (Number 6);
  MLP.depth := Some 2;
  MLP.num_cells := Some (Sequence [32; 33; 34]);
  MLP.activation_class := "Tanh";
  MLP.activation_kwargs := None;
  MLP.norm_class := None;
  MLP.norm_kwargs := None;
  MLP.dropout := None;
  MLP.bias_last_layer := true;
  MLP.single_bias_last_layer := false;
  MLP.layer_class := nn_Linear;
  MLP.layer_kwargs := None;
  MLP.activate_last_layer := false
|}.

(** [ConvNet(in_features=3, depth=d, num_cells=[32, 33], strides=strides)] *)
Definition cnet_args (d : Z) (strides : arg (arg Z)) : ConvNet.args := {|
  ConvNet.in_features := Some 3;
  ConvNet.depth := Some d;
  ConvNet.num_cells := Some (Sequence [32; 33]);
  ConvNet.kernel_sizes := Number 3;
  ConvNet.strides := strides;
  ConvNet.paddings := Number 0;
  ConvNet.activation_class := "ELU";
  ConvNet.activation_kwargs := None;
  ConvNet.norm_class := None;
  ConvNet.norm_kwargs := None;
  ConvNet.bias_last_layer := true;
  ConvNet.aggregator_class := Some "SquashDims";
  ConvNet.aggregator_kwargs := None;
  ConvNet.squeeze_output := false
|}.

(** [Conv3dNet(in_features=3, depth=d, strides=strides)] *)
Definition cnet3d_args (d : Z) (strides : arg (arg Z)) : Conv3dNet.args := {|
  Conv3dNet.in_features := Some 3;
  Conv3dNet.depth := Some d;
  Conv3dNet.num_cells := None;
  Conv3dNet.kernel_sizes := Number 3;
  Conv3dNet.strides := strides;
  Conv3dNet.paddings := Number 0;
  Conv3dNet.activation_class := "ELU";
  Conv3dNet.activation_kwargs := None;
  Conv3dNet.norm_class := None;
  Conv3dNet.norm_kwargs := None;
  Conv3dNet.bias_last_layer := true;
  Conv3dNet.aggregator_class := Some "SquashDims";
  Conv3dNet.aggregator_kwargs := None;
  Conv3dNet.squeeze_output := false
|}.

(** A stand-in for the framework's [forward] in the examples: a convolution
    with scalar kernel, stride and padding on a batched input; an aggregator
    that flattens all but the first dimension; [nn.GLU], which halves the
    last dimension; [nn.LayerNorm], which wants its [normalized_shape] as the
    last dimension; the other activation and normalisation layers keep the
    shape. *)
Definition sample_framework_forward (m : layer) (x : shape) : result shape :=
  match m, x with
  | Conv2d _ o (Number k) (Number s) _ (Number p), [n; _; h; w] =>
    Ok [n; o; (h + 2 * p - k) / s + 1; (w + 2 * p - k) / s + 1]
  | Conv3d _ o (Number k) (Number s) _ (Number p), [n; _; d; h; w] =>
    Ok [n; o; (d + 2 * p - k) / s + 1; (h + 2 * p - k) / s + 1; (w + 2 * p - k) / s + 1]
  | Aggregator _ _, n :: rest => Ok [n; prod rest]
  | Activation cls _, _ =>
    if bool_decide (cls = "GLU") then
      match trailing x with
      | Some d => if d mod 2 =? 0 then Ok (leading x ++ [d / 2]) else Raise RuntimeError
      | None => Raise IndexError
      end
    else Ok x
  | Norm cls kw, _ =>
    if bool_decide (cls = "LayerNorm") then
      match kw !! "normalized_shape", trailing x with
      | Some (Number n), Some d => if d =? n then Ok x else Raise RuntimeError
      | _, _ => Raise RuntimeError
      end
    else Ok x
  | _, _ => Raise RuntimeError
  end.

(** A stand-in for the constructors of the framework's layer classes in the
    examples: a batch normalisation wants [num_features] and [nn.LayerNorm]
    wants [normalized_shape] ([TypeError] when it is missing), a width or a
    number of channels is not negative, a dropout probability lies in
    [[0, 1]]. *)
Definition torch_raises (l : layer) : option exn :=
  match l with
  | Layer _ i o _ _ | Conv2d i o _ _ _ _ | Conv3d i o _ _ _ _ =>
    if (i <? 0) || (o <? 0) then Some RuntimeError else None
  | LazyLayer _ o _ _ | LazyConv2d o _ _ _ _ | LazyConv3d o _ _ _ _ =>
    if o <? 0 then Some RuntimeError else None
  | Dropout p => if Qle_bool 0 p && Qle_bool p 1 then None else Some ValueError
  | Norm cls kw =>
    if bool_decide (cls ∈ ["BatchNorm1d"; "BatchNorm2d"; "BatchNorm3d"]) then
      if bool_decide (is_Some (kw !! "num_features")) then None else Some TypeError
    else if bool_decide (cls = "LayerNorm") then
      if bool_decide (is_Some (kw !! "normalized_shape")) then None else Some TypeError
    else None
  | _ => None
  end.



(** An empty heap and a generator whose every draw is [9/10]. *)
Definition sample_world : world := World [] [] (λ _, 0.9%Q) (λ _, 0%Q) 0.

(** Two linear layers with an activation between them, the second layer's
    weight tied to the first one's ([second.weight = first.weight]): both
    [weight] attributes are the tensor at position 0. *)
Definition tied_world : world := {|
  heap := [ModuleObj (Layer nn_Linear 2 2 true ∅) (Some 0%nat) (Some 1%nat) [];
           ModuleObj (Activation "Tanh" ∅) None None [];
           ModuleObj (Layer nn_Linear 2 2 true ∅) (Some 0%nat) (Some 2%nat) []];
  tensors := [Tensor [0; 0; 0; 0]; Tensor [0; 0]; Tensor [0; 0]]%Q;
  rand := λ _, 0.9%Q;
  init := λ _, 0%Q;
  cursor := 0
|}.

(** [{"in_features": 2, "num_cells": [2, 2]}] *)
Definition small_mlp_kw : MLP.kw := {|
  MLP.kw_in_features := Some (Some 2);
  MLP.kw_out_features := None;
  MLP.kw_depth := None;
  MLP.kw_num_cells := Some (Some (Sequence [2; 2]));
  MLP.kw_activation_class := None;
  MLP.kw_activation_kwargs := None;
  MLP.kw_norm_class := None;
  MLP.kw_norm_kwargs := None;
  MLP.kw_dropout := None;
  MLP.kw_bias_last_layer := None;
  MLP.kw_single_bias_last_layer := None;
  MLP.kw_layer_class := None;
  MLP.kw_layer_kwargs := None;
  MLP.kw_activate_last_layer := None
|}.

(** [MLP(in_features=3, out_features=4, num_cells=[4, 4], dropout=0.5,
    norm_class=nn.LayerNorm, norm_kwargs={"normalized_shape": 4},
    bias_last_layer=False, activate_last_layer=True)] *)
Definition mlp_full_args : MLP.args := {|
  MLP.in_features := Some 3;
  MLP.out_features := Some (Number 4);
  MLP.depth := None;
  MLP.num_cells := Some (Sequence [4; 4]);
  MLP.activation_class := "Tanh";
  MLP.activation_kwargs := None;
  MLP.norm_class := Some "LayerNorm";
  MLP.norm_kwargs := Some {["normalized_shape" := Number 4]};
  MLP.dropout := Some 0.5%Q;
  MLP.bias_last_layer := false;
  MLP.single_bias_last_layer := false;
  MLP.layer_class := nn_Linear;
  MLP.layer_kwargs := None;
  MLP.activate_last_layer := true
|}.

(** [MLP(out_features=6, depth=depth, layer_class=layer_class,
    single_bias_last_layer=single)] *)
Definition mlp_default_args (out_features : option (arg Z)) (depth : option Z)
    (num_cells : option (arg Z)) (layer_class : pyclass) (single : bool) : MLP.args := {|
  MLP.in_features := None;
  MLP.out_features := out_features;
  MLP.depth := depth;
  MLP.num_cells := num_cells;
  MLP.activation_class := "Tanh";
  MLP.activation_kwargs := None;
  MLP.norm_class := None;
  MLP.norm_kwargs := None;
  MLP.dropout := None;
  MLP.bias_last_layer := true;
  MLP.single_bias_last_layer := single;
  MLP.layer_class := layer_class;
  MLP.layer_kwargs := None;
  MLP.activate_last_layer := false
|}.

(** [{"num_cells": [2, 2]}] *)
Definition tiny_mlp_kw : MLP.kw := {|
  MLP.kw_in_features := None;
  MLP.kw_out_features := None;
  MLP.kw_depth := None;
  MLP.kw_num_cells := Some (Some (Sequence [2; 2]));
  MLP.kw_activation_class := None;
  MLP.kw_activation_kwargs := None;
  MLP.kw_norm_class := None;
  MLP.kw_norm_kwargs := None;
  MLP.kw_dropout := None;
  MLP.kw_bias_last_layer := None;
  MLP.kw_single_bias_last_layer := None;
  MLP.kw_layer_class := None;
  MLP.kw_layer_kwargs := None;
  MLP.kw_activate_last_layer := None
|}.


(** [{"out_features": 5}], the [mlp_kwargs] of the docstring of [LSTMNet]. *)
Definition lstm_doc_mlp_kw : MLP.kw := {|
  MLP.kw_in_features := None;
  MLP.kw_out_features := Some (Some (Number 5));
  MLP.kw_depth := None;
  MLP.kw_num_cells := None;
  MLP.kw_activation_class := None;
  MLP.kw_activation_kwargs := None;
  MLP.kw_norm_class := None;
  MLP.kw_norm_kwargs := None;
  MLP.kw_dropout := None;
  MLP.kw_bias_last_layer := None;
  MLP.kw_single_bias_last_layer := None;
  MLP.kw_layer_class := None;
  MLP.kw_layer_kwargs := None;
  MLP.kw_activate_last_layer := None
|}.

(** * Properties *)

(** ** Docstring examples *)

Example mlp_doc_example :
  MLP.modules <$> MLP.__init__ LazyMapping_doc torch_raises mlp_doc_args =
  Ok [Layer nn_Linear 3 32 true ∅; Activation "Tanh" ∅;
      Layer nn_Linear 32 32 true ∅; Activation "Tanh" ∅;
      Layer nn_Linear 32 32 true ∅; Activation "Tanh" ∅;
      Layer nn_Linear 32 32 true ∅; Activation "Tanh" ∅;
      Layer nn_Linear 32 6 true ∅].
Proof. reflexivity. Qed.

Example cnet_doc_example :
  ConvNet.modules <$> ConvNet.__init__ _find_depth torch_raises cnet_doc_args =
  Ok [Conv2d 3 32 (Number 3) (Number 1) true (Number 0); Activation "ELU" ∅;
      Conv2d 32 33 (Number 4) (Number 1) true (Number 0); Activation "ELU" ∅;
      Conv2d 33 34 (Number 5) (Number 1) true (Number 0); Activation "ELU" ∅;
      Conv2d 34 35 (Sequence [2; 3]) (Number 1) true (Number 0); Activation "ELU" ∅;
      Aggregator "SquashDims" {["ndims_in" := Number 3]}].
Proof. reflexivity. Qed.

(** ** Reasoning about [result] *)

Lemma bind_Ok {A B} (m : result A) (f : A → result B) (b : B) :
  m ≫= f = Ok b → ∃ a, m = Ok a ∧ f a = Ok b.
Proof. destruct m as [a|e]; simpl; [eauto | discriminate]. Qed.

Lemma bind_Raise {A B} (m : result A) (f : A → result B) (e : exn) :
  m ≫= f = Raise e → m = Raise e ∨ ∃ a, m = Ok a ∧ f a = Raise e.
Proof. destruct m as [a|e']; simpl; [eauto | intros [= ->]; auto]. Qed.

Ltac inv_bind H :=
  let a := fresh "a" in
  let E := fresh "E" in
  apply bind_Ok in H; destruct H as (a & E & H).

Lemma len_nonneg {A} (l : list A) : 0 ≤ len l.
Proof. unfold len. lia. Qed.

Lemma len_app {A} (l1 l2 : list A) : len (l1 ++ l2) = len l1 + len l2.
Proof. unfold len. rewrite length_app. lia. Qed.

Lemma len_py_repeat {A} (x : A) (n : Z) : len (py_repeat x n) = Z.max 0 n.
Proof. unfold len, py_repeat. rewrite length_replicate. lia. Qed.

(** ** The convolutional loop *)

Section ConvBlocks.

Variable mk : option Z → Z → arg Z → arg Z → bool → arg Z → layer.
Hypothesis mk_is_conv : ∀ i o k s b p, is_conv (mk i o k s b p) = true.
Hypothesis mk_bias : ∀ i o k s b p, layer_bias (mk i o k s b p) = Some b.

Variables (activation_class : string) (activation_kwargs : kwargs).
Variables (norm_class : option string) (norm_kwargs : kwargs).
Variable bias_last_layer : bool.

Local Abbreviation post :=
  (conv_post activation_class activation_kwargs norm_class norm_kwargs).

Lemma conv_blocks_cons n i x ins o outs k ks s ss q ps :
  conv_blocks mk post bias_last_layer n i
    (x :: ins) (o :: outs) (k :: ks) (s :: ss) (q :: ps)
  = [mk x o k s ((i <? n - 1) || bias_last_layer) q] ++ post
      ++ conv_blocks mk post bias_last_layer n (i + 1) ins outs ks ss ps.
Proof. reflexivity. Qed.


Lemma count_layers_app p l1 l2 :
  count_layers p (l1 ++ l2) = (count_layers p l1 + count_layers p l2)%nat.
Proof. unfold count_layers. rewrite List.filter_app, length_app. reflexivity. Qed.

Lemma biases_app p l1 l2 : biases p (l1 ++ l2) = biases p l1 ++ biases p l2.
Proof. unfold biases. rewrite List.filter_app, omap_app. reflexivity. Qed.

Lemma biases_conv_post : biases is_conv post = [].
Proof. unfold conv_post. destruct norm_class; reflexivity. Qed.


(** While the index stays below [n - 1], every convolution is biased. *)
Lemma conv_blocks_biases n i ins outs ks ss ps :
  (length ks ≤ length ins)%nat → (length ks ≤ length outs)%nat →
  length ss = length ks → length ps = length ks →
  i + len ks ≤ n - 1 →
  biases is_conv
    (conv_blocks mk post bias_last_layer n i ins outs ks ss ps)
  = replicate (length ks) true.
Proof.
  revert i ins outs ss ps.
  induction ks as [|k ks IH]; intros i ins outs ss ps Hi Ho Hs Hp Hn.
  - destruct ins, outs, ss, ps; reflexivity.
  - destruct ins as [|x ins], outs as [|o outs], ss as [|s ss], ps as [|q ps];
      simpl in Hi, Ho, Hs, Hp; try lia.
    unfold len in Hn. simpl length in Hn.
    rewrite conv_blocks_cons.
    rewrite !biases_app, biases_conv_post, IH by (unfold len; lia).
    unfold biases. simpl. rewrite mk_is_conv. simpl. rewrite mk_bias.
    replace (i <? n - 1) with true by (symmetry; apply Z.ltb_lt; lia).
    reflexivity.
Qed.

Lemma starts_with_post rest :
  starts_with (activation_then_norm norm_class) (post ++ rest) = true.
Proof. unfold conv_post. destruct norm_class; reflexivity. Qed.

Lemma after_each_conv_post ps rest :
  after_each_conv ps (post ++ rest) = after_each_conv ps rest.
Proof. unfold conv_post. destruct norm_class; reflexivity. Qed.

(** Each convolution is followed by the activation, then the normalisation. *)
Lemma conv_blocks_order n i ins outs ks ss ps tail :
  after_each_conv (activation_then_norm norm_class) tail = true →
  after_each_conv (activation_then_norm norm_class)
    (conv_blocks mk post bias_last_layer n i ins outs ks ss ps ++ tail) = true.
Proof.
  intros Htail. revert i outs ks ss ps.
  induction ins as [|x ins IH]; intros i outs ks ss ps; [exact Htail|].
  destruct outs as [|o outs], ks as [|k ks], ss as [|s ss], ps as [|q ps];
    try exact Htail.
  rewrite conv_blocks_cons. cbn [app after_each_conv].
  rewrite mk_is_conv, <- app_assoc, starts_with_post, after_each_conv_post.
  apply IH.
Qed.

Lemma conv_blocks_no_dropout n i ins outs ks ss ps :
  count_layers is_dropout
    (conv_blocks mk post bias_last_layer n i ins outs ks ss ps) = 0%nat.
Proof.
  revert i outs ks ss ps.
  induction ins as [|x ins IH]; intros i outs ks ss ps; [reflexivity|].
  destruct outs as [|o outs], ks as [|k ks], ss as [|s ss], ps as [|q ps];
    try reflexivity.
  rewrite conv_blocks_cons.
  rewrite !count_layers_app, IH.
  assert (count_layers is_dropout post = 0%nat) as ->
    by (unfold conv_post; destruct norm_class; reflexivity).
  unfold count_layers. simpl.
  pose proof (mk_is_conv x o k s ((i <? n - 1) || bias_last_layer) q) as Hc.
  destruct (mk x o k s ((i <? n - 1) || bias_last_layer) q); try discriminate Hc;
    reflexivity.
Qed.

End ConvBlocks.

(** ** Construction of the convolutional networks *)


Lemma conv_tail_order ps ac akw sq squeeze :
  is_conv squeeze = false →
  after_each_conv ps (conv_tail ac akw sq squeeze) = true.
Proof.
  intros H. unfold conv_tail. destruct ac, sq; simpl; rewrite ?H; reflexivity.
Qed.

Lemma conv_tail_no_dropout ac akw sq squeeze :
  is_dropout squeeze = false →
  count_layers is_dropout (conv_tail ac akw sq squeeze) = 0%nat.
Proof.
  intros H. unfold conv_tail, count_layers.
  destruct ac, sq; simpl; rewrite ?H; reflexivity.
Qed.

(** ** Instantiating a list of layers *)

Lemma create_all_app raises l1 l2 :
  create_all raises (l1 ++ l2)
  = (a ← create_all raises l1; b ← create_all raises l2; Ok (a ++ b)).
Proof.
  induction l1 as [|l l1 IH]; cbn [app create_all mbind result_bind].
  - destruct (create_all raises l2); reflexivity.
  - unfold instantiate. destruct (raises l); [reflexivity|].
    cbn [mbind result_bind]. rewrite IH.
    destruct (create_all raises l1); [|reflexivity]. cbn [mbind result_bind].
    destruct (create_all raises l2); reflexivity.
Qed.

Lemma create_all_accepts raises ls : accepts raises ls → create_all raises ls = Ok ls.
Proof.
  induction 1 as [|l ls Hl _ IH]; [reflexivity|].
  cbn [create_all]. unfold instantiate. rewrite Hl. cbn [mbind result_bind].
  rewrite IH. reflexivity.
Qed.

Lemma create_all_Ok raises ls ls' :
  create_all raises ls = Ok ls' → ls' = ls ∧ accepts raises ls.
Proof.
  revert ls'. induction ls as [|l ls IH]; intros ls' H.
  - injection H as <-. split; [reflexivity | constructor].
  - cbn [create_all] in H. unfold instantiate in H.
    destruct (raises l) eqn:Hl; [discriminate H|]. cbn [mbind result_bind] in H.
    destruct (create_all raises ls) as [ls0|e]; [|discriminate H].
    injection H as <-. destruct (IH ls0 eq_refl) as [-> Hacc].
    split; [reflexivity | constructor; assumption].
Qed.

Lemma create_all_Raise raises ls e :
  create_all raises ls = Raise e → ∃ l, l ∈ ls ∧ raises l = Some e.
Proof.
  induction ls as [|l ls IH]; [discriminate|].
  cbn [create_all]. unfold instantiate.
  destruct (raises l) as [e'|] eqn:Hl.
  - intros [= <-]. exists l. split; [left | exact Hl].
  - cbn [mbind result_bind].
    destruct (create_all raises ls) as [ls0|e'']; [discriminate|].
    intros [= <-]. destruct (IH eq_refl) as (l' & Hin & Hl').
    exists l'. split; [right; exact Hin | exact Hl'].
Qed.

(** ** The loops of the convolutional networks *)

Ltac loop_blocks_tac IH :=
  cbn [ConvNet._make_net_loop Conv3dNet._make_net_loop];
  rewrite conv_blocks_cons;
  unfold mk_conv2d, mk_conv3d, conv_post, create_on_device in IH |- *;
  repeat match goal with
         | H : _ = Some _ |- _ => rewrite H
         | H : _ = None |- _ => rewrite H
         end;
  cbn [app create_all];
  repeat match goal with
         | |- context [match ?x with Some _ => _ | None => _ end] =>
           is_var x; destruct x
         end;
  unfold instantiate;
  repeat match goal with
         | |- context [match ?raises ?l with Some _ => _ | None => _ end] =>
           destruct (raises l); cbn [mbind result_bind app create_all];
           [reflexivity|]
         end;
  rewrite IH;
  match goal with
  | |- context [create_all ?raises ?ls] => destruct (create_all raises ls)
  end;
  cbn [mbind result_bind]; rewrite <- ?app_assoc; reflexivity.

(** The loop instantiates, in order, a convolution and what follows it for
    each unit of depth. *)
Lemma ConvNet_loop_blocks raises self n i ins outs ks ss ps layers :
  ConvNet._make_net_loop raises self n i ins outs ks ss ps layers
  = (bs ← create_all raises
            (conv_blocks mk_conv2d
               (conv_post (ConvNet.self_activation_class self)
                  (ConvNet.self_activation_kwargs self)
                  (ConvNet.self_norm_class self) (ConvNet.self_norm_kwargs self))
               (ConvNet.self_bias_last_layer self) n i ins outs ks ss ps);
     Ok (layers ++ bs)).
Proof.
  revert i outs ks ss ps layers.
  induction ins as [|x ins IH]; intros i outs ks ss ps layers.
  - cbn. rewrite app_nil_r. reflexivity.
  - destruct outs as [|o outs], ks as [|k ks], ss as [|s ss], ps as [|q ps];
      try (cbn; rewrite app_nil_r; reflexivity).
    destruct (ConvNet.self_norm_class self) as [nc|] eqn:Hnc;
      loop_blocks_tac IH.
Qed.

Lemma Conv3dNet_loop_blocks raises self n i ins outs ks ss ps layers :
  Conv3dNet._make_net_loop raises self n i ins outs ks ss ps layers
  = (bs ← create_all raises
            (conv_blocks mk_conv3d
               (conv_post (Conv3dNet.self_activation_class self)
                  (Conv3dNet.self_activation_kwargs self)
                  (Conv3dNet.self_norm_class self) (Conv3dNet.self_norm_kwargs self))
               (Conv3dNet.self_bias_last_layer self) n i ins outs ks ss ps);
     Ok (layers ++ bs)).
Proof.
  revert i outs ks ss ps layers.
  induction ins as [|x ins IH]; intros i outs ks ss ps layers.
  - cbn. rewrite app_nil_r. reflexivity.
  - destruct outs as [|o outs], ks as [|k ks], ss as [|s ss], ps as [|q ps];
      try (cbn; rewrite app_nil_r; reflexivity).
    destruct (Conv3dNet.self_norm_class self) as [nc|] eqn:Hnc;
      loop_blocks_tac IH.
Qed.

(** [_make_net] instantiates the blocks of the loop, then the aggregator and
    the squeeze layer. *)
Lemma ConvNet_make_net_blocks raises self :
  ConvNet._make_net raises self
  = create_all raises
      (conv_blocks mk_conv2d
         (conv_post (ConvNet.self_activation_class self)
            (ConvNet.self_activation_kwargs self)
            (ConvNet.self_norm_class self) (ConvNet.self_norm_kwargs self))
         (ConvNet.self_bias_last_layer self)
         (len (ConvNet.self_in_features self
                 :: (Some <$> take (Z.to_nat (ConvNet.self_depth self))
                                (ConvNet.self_num_cells self)))) 0
         (ConvNet.self_in_features self
            :: (Some <$> take (Z.to_nat (ConvNet.self_depth self))
                           (ConvNet.self_num_cells self)))
         (ConvNet.self_num_cells self ++ [ConvNet.self_out_features self])
         (ConvNet.self_kernel_sizes self) (ConvNet.self_strides self)
         (ConvNet.self_paddings self)
       ++ conv_tail (ConvNet.self_aggregator_class self)
            (ConvNet.self_aggregator_kwargs self)
            (ConvNet.self_squeeze_output self) Squeeze2dLayer).
Proof.
  unfold ConvNet._make_net. rewrite ConvNet_loop_blocks, create_all_app.
  match goal with
  | |- context [create_all raises (conv_blocks ?a ?b ?c ?d ?e ?f ?g ?h ?i ?j)] =>
    destruct (create_all raises (conv_blocks a b c d e f g h i j)) as [bs|e0];
      [|reflexivity]
  end.
  cbn [mbind result_bind app]. unfold conv_tail, create_on_device.
  destruct (ConvNet.self_aggregator_class self) as [ac|],
    (ConvNet.self_squeeze_output self);
    cbn [app create_all mbind result_bind]; unfold instantiate;
    repeat match goal with
           | |- context [match raises ?l with Some _ => _ | None => _ end] =>
             destruct (raises l); cbn [mbind result_bind app]; [reflexivity|]
           end;
    rewrite <- ?app_assoc, ?app_nil_r; reflexivity.
Qed.

Lemma Conv3dNet_make_net_blocks raises self :
  Conv3dNet._make_net raises self
  = create_all raises
      (conv_blocks mk_conv3d
         (conv_post (Conv3dNet.self_activation_class self)
            (Conv3dNet.self_activation_kwargs self)
            (Conv3dNet.self_norm_class self) (Conv3dNet.self_norm_kwargs self))
         (Conv3dNet.self_bias_last_layer self)
         (len (Conv3dNet.self_in_features self
                 :: (Some <$> take (Z.to_nat (Conv3dNet.self_depth self))
                                (Conv3dNet.self_num_cells self)))) 0
         (Conv3dNet.self_in_features self
            :: (Some <$> take (Z.to_nat (Conv3dNet.self_depth self))
                           (Conv3dNet.self_num_cells self)))
         (Conv3dNet.self_num_cells self ++ [Conv3dNet.self_out_features self])
         (Conv3dNet.self_kernel_sizes self) (Conv3dNet.self_strides self)
         (Conv3dNet.self_paddings self)
       ++ conv_tail (Conv3dNet.self_aggregator_class self)
            (Conv3dNet.self_aggregator_kwargs self)
            (Conv3dNet.self_squeeze_output self) (SqueezeLayer [-3; -2; -1])).
Proof.
  unfold Conv3dNet._make_net. rewrite Conv3dNet_loop_blocks, create_all_app.
  match goal with
  | |- context [create_all raises (conv_blocks ?a ?b ?c ?d ?e ?f ?g ?h ?i ?j)] =>
    destruct (create_all raises (conv_blocks a b c d e f g h i j)) as [bs|e0];
      [|reflexivity]
  end.
  cbn [mbind result_bind app]. unfold conv_tail, create_on_device.
  destruct (Conv3dNet.self_aggregator_class self) as [ac|],
    (Conv3dNet.self_squeeze_output self);
    cbn [app create_all mbind result_bind]; unfold instantiate;
    repeat match goal with
           | |- context [match raises ?l with Some _ => _ | None => _ end] =>
             destruct (raises l); cbn [mbind result_bind app]; [reflexivity|]
           end;
    rewrite <- ?app_assoc, ?app_nil_r; reflexivity.
Qed.

Lemma ConvNet_set_field_Ok {A} (inj : Z → A) v d l :
  ConvNet.set_field inj v d = Ok l →
  len l = d ∧ l = match v with Sequence l => l | Number n => py_repeat (inj n) d end.
Proof.
  unfold ConvNet.set_field.
  destruct (len _ =? d) eqn:E; simpl; [|discriminate].
  intros [= <-]. apply Z.eqb_eq in E. auto.
Qed.

Lemma take_len {A} (l : list A) : take (Z.to_nat (len l)) l = l.
Proof. unfold len. rewrite Nat2Z.id. apply firstn_all. Qed.

Lemma take_len_eq {A B} (l : list A) (k : list B) :
  len l = len k → take (Z.to_nat (len k)) l = l.
Proof. intros <-. apply take_len. Qed.

Lemma py_last_Ok {A} (l : list A) : len l ≠ 0 → ∃ x, py_last l = Ok x.
Proof.
  unfold py_last, len. intros H.
  destruct (last l) as [x|] eqn:E; [eauto|].
  apply last_None in E. subst l. simpl in H. lia.
Qed.

Lemma py_last_default (l : list Z) x : py_last l = Ok x → default 0 (last l) = x.
Proof. unfold py_last. destruct (last l); [intros [= <-]; reflexivity | discriminate]. Qed.

Lemma len_per_layer {A} (inj : Z → A) v d :
  matches_depth v d → 0 ≤ d → len (per_layer inj v d) = d.
Proof.
  intros Hm Hd. destruct v as [n|l]; cbn [per_layer].
  - rewrite len_py_repeat. lia.
  - apply Hm. reflexivity.
Qed.

Lemma ConvNet_set_field_per_layer {A} (inj : Z → A) v d l :
  ConvNet.set_field inj v d = Ok l →
  l = per_layer inj v d ∧ len l = d ∧ matches_depth v d.
Proof.
  intros H. apply ConvNet_set_field_Ok in H as [Hlen Hl].
  split; [exact Hl|]. split; [exact Hlen|].
  intros l' ->. congruence.
Qed.

Lemma ConvNet_set_field_success {A} (inj : Z → A) v d :
  matches_depth v d → 0 ≤ d → ConvNet.set_field inj v d = Ok (per_layer inj v d).
Proof.
  intros Hm Hd. unfold ConvNet.set_field.
  change (match v with Sequence l => l | Number n => py_repeat (inj n) d end)
    with (per_layer inj v d).
  rewrite (len_per_layer inj v d Hm Hd), Z.eqb_refl. reflexivity.
Qed.

Lemma ConvNet_set_field_Raise {A} (inj : Z → A) v d e :
  ConvNet.set_field inj v d = Raise e → e = RuntimeError.
Proof.
  unfold ConvNet.set_field. destruct (negb _); [congruence | discriminate].
Qed.

(** [ConvNet.__init__] once its guards have passed: the layers of the
    configuration are instantiated in order, and the network holds them. *)
Lemma ConvNet_init_nf fd raises a d :
  fd (ConvNet.depth a) (default (Sequence [32; 32; 32]) (ConvNet.num_cells a))
    (ConvNet.kernel_sizes a) (ConvNet.strides a) (ConvNet.paddings a) = Ok d →
  0 < d →
  matches_depth (default (Sequence [32; 32; 32]) (ConvNet.num_cells a)) d →
  matches_depth (ConvNet.kernel_sizes a) d →
  matches_depth (ConvNet.strides a) d →
  matches_depth (ConvNet.paddings a) d →
  ∃ mk : list layer → ConvNet.t,
    (∀ ls, ConvNet.modules (mk ls) = ls ∧ ConvNet.self_depth (mk ls) = d ∧
       ConvNet.self_num_cells (mk ls) = per_layer id (default (Sequence [32; 32; 32]) (ConvNet.num_cells a)) d ∧
       ConvNet.self_kernel_sizes (mk ls) = per_layer Number (ConvNet.kernel_sizes a) d ∧
       ConvNet.self_strides (mk ls) = per_layer Number (ConvNet.strides a) d ∧
       ConvNet.self_paddings (mk ls) = per_layer Number (ConvNet.paddings a) d ∧
       ConvNet.self_out_features (mk ls) = default 0 (last (per_layer id (default (Sequence [32; 32; 32]) (ConvNet.num_cells a)) d))) ∧
    ConvNet.__init__ fd raises a
    = (ls ← create_all raises (ConvNet_layers a d); Ok (mk ls)).
Proof.
  intros Hfd Hd Hc Hk Hs Hp. unfold ConvNet.__init__.
  rewrite Hfd. cbn [mbind result_bind].
  replace (d =? 0) with false by (symmetry; apply Z.eqb_neq; lia).
  rewrite !ConvNet_set_field_success by (assumption || lia).
  cbn [mbind result_bind].
  destruct (py_last_Ok
              (per_layer id (default (Sequence [32; 32; 32]) (ConvNet.num_cells a)) d))
    as [out Eo]; [rewrite len_per_layer by (assumption || lia); lia|].
  rewrite Eo. cbn [mbind result_bind].
  rewrite ConvNet_make_net_blocks.
  cbn [ConvNet.self_depth ConvNet.self_num_cells ConvNet.self_in_features
       ConvNet.self_out_features ConvNet.self_kernel_sizes ConvNet.self_strides
       ConvNet.self_paddings ConvNet.self_aggregator_class
       ConvNet.self_aggregator_kwargs ConvNet.self_squeeze_output
       ConvNet.self_activation_class ConvNet.self_activation_kwargs
       ConvNet.self_norm_class ConvNet.self_norm_kwargs ConvNet.self_bias_last_layer].
  rewrite take_len_eq
    by (rewrite !len_per_layer by (assumption || lia); reflexivity).
  replace (len (ConvNet.in_features a
                  :: (Some <$> per_layer id
                                 (default (Sequence [32; 32; 32]) (ConvNet.num_cells a))
                                 d)))
    with (d + 1)
    by (pose proof (len_per_layer id _ d Hc ltac:(lia)) as Hl;
        unfold len in *; cbn [length]; rewrite length_fmap; lia).
  rewrite <- (py_last_default _ _ Eo).
  rewrite len_per_layer by (assumption || lia).
  fold (ConvNet_layers a d).
  eexists (λ ls, ConvNet.Self _ _ _ _ _ _ _ _ _ _ _ _ _ _ _ ls).
  split; [|reflexivity].
  intros ls. repeat split; reflexivity.
Qed.

(** The guards of [ConvNet.__init__]: what a construction that got past them
    went through. *)
Lemma ConvNet_init_guards fd raises a r :
  ConvNet.__init__ fd raises a = r →
  (∃ e, r = Raise e ∧
     (fd (ConvNet.depth a) (default (Sequence [32; 32; 32]) (ConvNet.num_cells a))
        (ConvNet.kernel_sizes a) (ConvNet.strides a) (ConvNet.paddings a) = Raise e
      ∨ e = ValueError ∨ e = RuntimeError))
  ∨ ∃ d,
      fd (ConvNet.depth a) (default (Sequence [32; 32; 32]) (ConvNet.num_cells a))
        (ConvNet.kernel_sizes a) (ConvNet.strides a) (ConvNet.paddings a) = Ok d ∧
      0 < d ∧
      matches_depth (default (Sequence [32; 32; 32]) (ConvNet.num_cells a)) d ∧
      matches_depth (ConvNet.kernel_sizes a) d ∧
      matches_depth (ConvNet.strides a) d ∧
      matches_depth (ConvNet.paddings a) d.
Proof.
  unfold ConvNet.__init__. intros <-.
  destruct (fd _ _ _ _ _) as [d|e] eqn:Hfd; [|left; exists e; auto].
  cbn [mbind result_bind].
  destruct (d =? 0) eqn:Hd; [left; eauto|]. apply Z.eqb_neq in Hd.
  destruct (ConvNet.set_field id _ d) as [cells|e] eqn:Ec;
    [|left; exists e; split; [reflexivity|];
      right; right; eapply ConvNet_set_field_Raise, Ec].
  cbn [mbind result_bind].
  destruct (ConvNet.set_field Number (ConvNet.kernel_sizes a) d) as [ks|e] eqn:Ek;
    [|left; exists e; split; [reflexivity|];
      right; right; eapply ConvNet_set_field_Raise, Ek].
  cbn [mbind result_bind].
  destruct (ConvNet.set_field Number (ConvNet.strides a) d) as [ss|e] eqn:Es;
    [|left; exists e; split; [reflexivity|];
      right; right; eapply ConvNet_set_field_Raise, Es].
  cbn [mbind result_bind].
  destruct (ConvNet.set_field Number (ConvNet.paddings a) d) as [ps|e] eqn:Ep;
    [|left; exists e; split; [reflexivity|];
      right; right; eapply ConvNet_set_field_Raise, Ep].
  right. exists d.
  apply ConvNet_set_field_per_layer in Ec as (_ & Hlen & Hc).
  apply ConvNet_set_field_per_layer in Ek as (_ & _ & Hk).
  apply ConvNet_set_field_per_layer in Es as (_ & _ & Hs).
  apply ConvNet_set_field_per_layer in Ep as (_ & _ & Hp).
  pose proof (len_nonneg cells).
  repeat split; try assumption; try reflexivity. lia.
Qed.

(** A successful construction got past the guards at a depth [d], every
    constructor accepted, and the network holds the layers of the
    configuration. *)
Lemma ConvNet_init_layers fd raises a net :
  ConvNet.__init__ fd raises a = Ok net →
  ∃ d,
    fd (ConvNet.depth a) (default (Sequence [32; 32; 32]) (ConvNet.num_cells a))
      (ConvNet.kernel_sizes a) (ConvNet.strides a) (ConvNet.paddings a) = Ok d ∧
    0 < d ∧
    matches_depth (default (Sequence [32; 32; 32]) (ConvNet.num_cells a)) d ∧
    matches_depth (ConvNet.kernel_sizes a) d ∧
    matches_depth (ConvNet.strides a) d ∧
    matches_depth (ConvNet.paddings a) d ∧
    ConvNet.self_depth net = d ∧
    ConvNet.modules net = ConvNet_layers a d ∧
    accepts raises (ConvNet_layers a d) ∧
    ConvNet.self_num_cells net = per_layer id (default (Sequence [32; 32; 32]) (ConvNet.num_cells a)) d ∧
    ConvNet.self_kernel_sizes net = per_layer Number (ConvNet.kernel_sizes a) d ∧
    ConvNet.self_strides net = per_layer Number (ConvNet.strides a) d ∧
    ConvNet.self_paddings net = per_layer Number (ConvNet.paddings a) d ∧
    ConvNet.self_out_features net = default 0 (last (per_layer id (default (Sequence [32; 32; 32]) (ConvNet.num_cells a)) d)).
Proof.
  intros H.
  destruct (ConvNet_init_guards fd raises a _ H)
    as [(e & He & _) | (d & Hfd & Hd & Hc & Hk & Hs & Hp)]; [discriminate He|].
  exists d. repeat (split; [assumption|]).
  destruct (ConvNet_init_nf fd raises a d Hfd Hd Hc Hk Hs Hp) as (mk & Hmk & Hinit).
  rewrite Hinit in H. inv_bind H. injection H as <-.
  apply create_all_Ok in E as [-> Hacc].
  destruct (Hmk (ConvNet_layers a d)) as (Hm & Hdepth & Hrest). auto.
Qed.

(** The layers of a successfully constructed [ConvNet]: [d] blocks of a
    convolution and what follows it, then the aggregator and squeeze steps. *)
Lemma ConvNet_init_Ok fd raises a net :
  ConvNet.__init__ fd raises a = Ok net →
  ∃ d cells ks ss ps out,
    fd (ConvNet.depth a) (default (Sequence [32; 32; 32]) (ConvNet.num_cells a))
      (ConvNet.kernel_sizes a) (ConvNet.strides a) (ConvNet.paddings a) = Ok d ∧
    d ≠ 0 ∧ len cells = d ∧ len ks = d ∧ len ss = d ∧ len ps = d ∧
    matches_depth (default (Sequence [32; 32; 32]) (ConvNet.num_cells a)) d ∧
    matches_depth (ConvNet.kernel_sizes a) d ∧
    matches_depth (ConvNet.strides a) d ∧
    matches_depth (ConvNet.paddings a) d ∧
    ConvNet.self_depth net = d ∧
    ConvNet.modules net =
      conv_blocks mk_conv2d
        (conv_post (ConvNet.activation_class a) (default ∅ (ConvNet.activation_kwargs a))
           (ConvNet.norm_class a) (default ∅ (ConvNet.norm_kwargs a)))
        (ConvNet.bias_last_layer a) (d + 1) 0
        (ConvNet.in_features a :: (Some <$> cells)) (cells ++ [out]) ks ss ps
      ++ conv_tail (ConvNet.aggregator_class a)
           (default {["ndims_in" := Number 3]} (ConvNet.aggregator_kwargs a))
           (ConvNet.squeeze_output a) Squeeze2dLayer.
Proof.
  intros H.
  apply ConvNet_init_layers in H
    as (d & Hfd & Hd & Hc & Hk & Hs & Hp & Hdepth & Hm & _).
  exists d, (per_layer id (default (Sequence [32; 32; 32]) (ConvNet.num_cells a)) d),
    (per_layer Number (ConvNet.kernel_sizes a) d),
    (per_layer Number (ConvNet.strides a) d),
    (per_layer Number (ConvNet.paddings a) d),
    (default 0 (last (per_layer id
                        (default (Sequence [32; 32; 32]) (ConvNet.num_cells a)) d))).
  rewrite !len_per_layer by (assumption || lia).
  repeat split; try assumption; try reflexivity. lia.
Qed.


(** A failing construction fails in [_find_depth], on the null depth, on a
    length conflict, or, past these guards, in the constructor of one of the
    layers of the configuration; [num_cells[-1]] never fails. *)
Lemma ConvNet_init_Raise fd raises a e :
  ConvNet.__init__ fd raises a = Raise e →
  fd (ConvNet.depth a) (default (Sequence [32; 32; 32]) (ConvNet.num_cells a))
    (ConvNet.kernel_sizes a) (ConvNet.strides a) (ConvNet.paddings a) = Raise e
  ∨ e = ValueError ∨ e = RuntimeError
  ∨ ∃ d,
      fd (ConvNet.depth a) (default (Sequence [32; 32; 32]) (ConvNet.num_cells a))
        (ConvNet.kernel_sizes a) (ConvNet.strides a) (ConvNet.paddings a) = Ok d ∧
      0 < d ∧
      matches_depth (default (Sequence [32; 32; 32]) (ConvNet.num_cells a)) d ∧
      matches_depth (ConvNet.kernel_sizes a) d ∧
      matches_depth (ConvNet.strides a) d ∧
      matches_depth (ConvNet.paddings a) d ∧
      ∃ l, l ∈ ConvNet_layers a d ∧ raises l = Some e.
Proof.
  intros H.
  destruct (ConvNet_init_guards fd raises a _ H)
    as [(e' & [= <-] & [He | [He | He]]) | (d & Hfd & Hd & Hc & Hk & Hs & Hp)]; auto.
  right; right; right. exists d. repeat (split; [assumption|]).
  destruct (ConvNet_init_nf fd raises a d Hfd Hd Hc Hk Hs Hp) as (mk & Hmk & Hinit).
  rewrite Hinit in H.
  apply bind_Raise in H as [H | (ls & _ & H)]; [|discriminate H].
  apply create_all_Raise, H.
Qed.

Lemma Conv3dNet_set_field_Ok {A} (inj : Z → A) v d l :
  Conv3dNet.set_field inj v d = Ok l →
  len l = d ∧ l = match v with Sequence l => l | Number n => py_repeat (inj n) d end.
Proof.
  unfold Conv3dNet.set_field.
  destruct (len _ =? d) eqn:E; simpl; [|discriminate].
  intros [= <-]. apply Z.eqb_eq in E. auto.
Qed.

Lemma Conv3dNet_set_field_per_layer {A} (inj : Z → A) v d l :
  Conv3dNet.set_field inj v d = Ok l →
  l = per_layer inj v d ∧ len l = d ∧ matches_depth v d.
Proof.
  intros H. apply Conv3dNet_set_field_Ok in H as [Hlen Hl].
  split; [exact Hl|]. split; [exact Hlen|].
  intros l' ->. congruence.
Qed.

Lemma Conv3dNet_set_field_success {A} (inj : Z → A) v d :
  matches_depth v d → 0 ≤ d → Conv3dNet.set_field inj v d = Ok (per_layer inj v d).
Proof.
  intros Hm Hd. unfold Conv3dNet.set_field.
  change (match v with Sequence l => l | Number n => py_repeat (inj n) d end)
    with (per_layer inj v d).
  rewrite (len_per_layer inj v d Hm Hd), Z.eqb_refl. reflexivity.
Qed.

Lemma Conv3dNet_set_field_Raise {A} (inj : Z → A) v d e :
  Conv3dNet.set_field inj v d = Raise e → e = ValueError.
Proof.
  unfold Conv3dNet.set_field. destruct (negb _); [congruence | discriminate].
Qed.

(** [Conv3dNet.__init__] once its guards have passed: the layers of the
    configuration are instantiated in order, and the network holds them. *)
Lemma Conv3dNet_init_nf fd raises a d :
  fd (Conv3dNet.depth a) (match Conv3dNet.num_cells a with
       | None =>
         match Conv3dNet.depth a with
         | None => Sequence [32; 32; 32]
         | Some depth => Sequence (py_repeat 32 depth)
         end
       | Some num_cells => num_cells
       end)
    (Conv3dNet.kernel_sizes a) (Conv3dNet.strides a) (Conv3dNet.paddings a) = Ok d →
  0 < d →
  matches_depth (match Conv3dNet.num_cells a with
       | None =>
         match Conv3dNet.depth a with
         | None => Sequence [32; 32; 32]
         | Some depth => Sequence (py_repeat 32 depth)
         end
       | Some num_cells => num_cells
       end) d →
  matches_depth (Conv3dNet.kernel_sizes a) d →
  matches_depth (Conv3dNet.strides a) d →
  matches_depth (Conv3dNet.paddings a) d →
  ∃ mk : list layer → Conv3dNet.t,
    (∀ ls, Conv3dNet.modules (mk ls) = ls ∧ Conv3dNet.self_depth (mk ls) = d ∧
       Conv3dNet.self_num_cells (mk ls) = per_layer id (match Conv3dNet.num_cells a with
       | None =>
         match Conv3dNet.depth a with
         | None => Sequence [32; 32; 32]
         | Some depth => Sequence (py_repeat 32 depth)
         end
       | Some num_cells => num_cells
       end) d ∧
       Conv3dNet.self_kernel_sizes (mk ls) = per_layer Number (Conv3dNet.kernel_sizes a) d ∧
       Conv3dNet.self_strides (mk ls) = per_layer Number (Conv3dNet.strides a) d ∧
       Conv3dNet.self_paddings (mk ls) = per_layer Number (Conv3dNet.paddings a) d ∧
       Conv3dNet.self_out_features (mk ls) = default 0 (last (per_layer id (match Conv3dNet.num_cells a with
       | None =>
         match Conv3dNet.depth a with
         | None => Sequence [32; 32; 32]
         | Some depth => Sequence (py_repeat 32 depth)
         end
       | Some num_cells => num_cells
       end) d))) ∧
    Conv3dNet.__init__ fd raises a
    = (ls ← create_all raises (Conv3dNet_layers a d); Ok (mk ls)).
Proof.
  intros Hfd Hd Hc Hk Hs Hp. unfold Conv3dNet.__init__.
  rewrite Hfd. cbn [mbind result_bind].
  replace (d =? 0) with false by (symmetry; apply Z.eqb_neq; lia).
  rewrite !Conv3dNet_set_field_success by (assumption || lia).
  cbn [mbind result_bind].
  destruct (py_last_Ok
              (per_layer id (match Conv3dNet.num_cells a with
       | None =>
         match Conv3dNet.depth a with
         | None => Sequence [32; 32; 32]
         | Some depth => Sequence (py_repeat 32 depth)
         end
       | Some num_cells => num_cells
       end) d))
    as [out Eo]; [rewrite len_per_layer by (assumption || lia); lia|].
  rewrite Eo. cbn [mbind result_bind].
  rewrite Conv3dNet_make_net_blocks.
  cbn [Conv3dNet.self_depth Conv3dNet.self_num_cells Conv3dNet.self_in_features
       Conv3dNet.self_out_features Conv3dNet.self_kernel_sizes Conv3dNet.self_strides
       Conv3dNet.self_paddings Conv3dNet.self_aggregator_class
       Conv3dNet.self_aggregator_kwargs Conv3dNet.self_squeeze_output
       Conv3dNet.self_activation_class Conv3dNet.self_activation_kwargs
       Conv3dNet.self_norm_class Conv3dNet.self_norm_kwargs Conv3dNet.self_bias_last_layer].
  rewrite take_len_eq
    by (rewrite !len_per_layer by (assumption || lia); reflexivity).
  replace (len (Conv3dNet.in_features a
                  :: (Some <$> per_layer id
                                 (match Conv3dNet.num_cells a with
       | None =>
         match Conv3dNet.depth a with
         | None => Sequence [32; 32; 32]
         | Some depth => Sequence (py_repeat 32 depth)
         end
       | Some num_cells => num_cells
       end)
                                 d)))
    with (d + 1)
    by (pose proof (len_per_layer id _ d Hc ltac:(lia)) as Hl;
        unfold len in *; cbn [length]; rewrite length_fmap; lia).
  rewrite <- (py_last_default _ _ Eo).
  rewrite len_per_layer by (assumption || lia).
  fold (Conv3dNet_layers a d).
  eexists (λ ls, Conv3dNet.Self _ _ _ _ _ _ _ _ _ _ _ _ _ _ _ ls).
  split; [|reflexivity].
  intros ls. repeat split; reflexivity.
Qed.

(** The guards of [Conv3dNet.__init__]: what a construction that got past them
    went through. *)
Lemma Conv3dNet_init_guards fd raises a r :
  Conv3dNet.__init__ fd raises a = r →
  (∃ e, r = Raise e ∧
     (fd (Conv3dNet.depth a) (match Conv3dNet.num_cells a with
       | None =>
         match Conv3dNet.depth a with
         | None => Sequence [32; 32; 32]
         | Some depth => Sequence (py_repeat 32 depth)
         end
       | Some num_cells => num_cells
       end)
        (Conv3dNet.kernel_sizes a) (Conv3dNet.strides a) (Conv3dNet.paddings a) = Raise e
      ∨ e = ValueError))
  ∨ ∃ d,
      fd (Conv3dNet.depth a) (match Conv3dNet.num_cells a with
       | None =>
         match Conv3dNet.depth a with
         | None => Sequence [32; 32; 32]
         | Some depth => Sequence (py_repeat 32 depth)
         end
       | Some num_cells => num_cells
       end)
        (Conv3dNet.kernel_sizes a) (Conv3dNet.strides a) (Conv3dNet.paddings a) = Ok d ∧
      0 < d ∧
      matches_depth (match Conv3dNet.num_cells a with
       | None =>
         match Conv3dNet.depth a with
         | None => Sequence [32; 32; 32]
         | Some depth => Sequence (py_repeat 32 depth)
         end
       | Some num_cells => num_cells
       end) d ∧
      matches_depth (Conv3dNet.kernel_sizes a) d ∧
      matches_depth (Conv3dNet.strides a) d ∧
      matches_depth (Conv3dNet.paddings a) d.
Proof.
  unfold Conv3dNet.__init__. intros <-.
  destruct (fd _ _ _ _ _) as [d|e] eqn:Hfd; [|left; exists e; auto].
  cbn [mbind result_bind].
  destruct (d =? 0) eqn:Hd; [left; eauto|]. apply Z.eqb_neq in Hd.
  destruct (Conv3dNet.set_field id _ d) as [cells|e] eqn:Ec;
    [|left; exists e; split; [reflexivity|];
      right; eapply Conv3dNet_set_field_Raise, Ec].
  cbn [mbind result_bind].
  destruct (Conv3dNet.set_field Number (Conv3dNet.kernel_sizes a) d) as [ks|e] eqn:Ek;
    [|left; exists e; split; [reflexivity|];
      right; eapply Conv3dNet_set_field_Raise, Ek].
  cbn [mbind result_bind].
  destruct (Conv3dNet.set_field Number (Conv3dNet.strides a) d) as [ss|e] eqn:Es;
    [|left; exists e; split; [reflexivity|];
      right; eapply Conv3dNet_set_field_Raise, Es].
  cbn [mbind result_bind].
  destruct (Conv3dNet.set_field Number (Conv3dNet.paddings a) d) as [ps|e] eqn:Ep;
    [|left; exists e; split; [reflexivity|];
      right; eapply Conv3dNet_set_field_Raise, Ep].
  right. exists d.
  apply Conv3dNet_set_field_per_layer in Ec as (_ & Hlen & Hc).
  apply Conv3dNet_set_field_per_layer in Ek as (_ & _ & Hk).
  apply Conv3dNet_set_field_per_layer in Es as (_ & _ & Hs).
  apply Conv3dNet_set_field_per_layer in Ep as (_ & _ & Hp).
  pose proof (len_nonneg cells).
  repeat split; try assumption; try reflexivity. lia.
Qed.

(** A successful construction got past the guards at a depth [d], every
    constructor accepted, and the network holds the layers of the
    configuration. *)
Lemma Conv3dNet_init_layers fd raises a net :
  Conv3dNet.__init__ fd raises a = Ok net →
  ∃ d,
    fd (Conv3dNet.depth a) (match Conv3dNet.num_cells a with
       | None =>
         match Conv3dNet.depth a with
         | None => Sequence [32; 32; 32]
         | Some depth => Sequence (py_repeat 32 depth)
         end
       | Some num_cells => num_cells
       end)
      (Conv3dNet.kernel_sizes a) (Conv3dNet.strides a) (Conv3dNet.paddings a) = Ok d ∧
    0 < d ∧
    matches_depth (match Conv3dNet.num_cells a with
       | None =>
         match Conv3dNet.depth a with
         | None => Sequence [32; 32; 32]
         | Some depth => Sequence (py_repeat 32 depth)
         end
       | Some num_cells => num_cells
       end) d ∧
    matches_depth (Conv3dNet.kernel_sizes a) d ∧
    matches_depth (Conv3dNet.strides a) d ∧
    matches_depth (Conv3dNet.paddings a) d ∧
    Conv3dNet.self_depth net = d ∧
    Conv3dNet.modules net = Conv3dNet_layers a d ∧
    accepts raises (Conv3dNet_layers a d) ∧
    Conv3dNet.self_num_cells net = per_layer id (match Conv3dNet.num_cells a with
       | None =>
         match Conv3dNet.depth a with
         | None => Sequence [32; 32; 32]
         | Some depth => Sequence (py_repeat 32 depth)
         end
       | Some num_cells => num_cells
       end) d ∧
    Conv3dNet.self_kernel_sizes net = per_layer Number (Conv3dNet.kernel_sizes a) d ∧
    Conv3dNet.self_strides net = per_layer Number (Conv3dNet.strides a) d ∧
    Conv3dNet.self_paddings net = per_layer Number (Conv3dNet.paddings a) d ∧
    Conv3dNet.self_out_features net = default 0 (last (per_layer id (match Conv3dNet.num_cells a with
       | None =>
         match Conv3dNet.depth a with
         | None => Sequence [32; 32; 32]
         | Some depth => Sequence (py_repeat 32 depth)
         end
       | Some num_cells => num_cells
       end) d)).
Proof.
  intros H.
  destruct (Conv3dNet_init_guards fd raises a _ H)
    as [(e & He & _) | (d & Hfd & Hd & Hc & Hk & Hs & Hp)]; [discriminate He|].
  exists d. repeat (split; [assumption|]).
  destruct (Conv3dNet_init_nf fd raises a d Hfd Hd Hc Hk Hs Hp) as (mk & Hmk & Hinit).
  rewrite Hinit in H. inv_bind H. injection H as <-.
  apply create_all_Ok in E as [-> Hacc].
  destruct (Hmk (Conv3dNet_layers a d)) as (Hm & Hdepth & Hrest). auto.
Qed.

(** The layers of a successfully constructed [Conv3dNet]: [d] blocks of a
    convolution and what follows it, then the aggregator and squeeze steps. *)
Lemma Conv3dNet_init_Ok fd raises a net :
  Conv3dNet.__init__ fd raises a = Ok net →
  ∃ d cells ks ss ps out,
    fd (Conv3dNet.depth a) (match Conv3dNet.num_cells a with
       | None =>
         match Conv3dNet.depth a with
         | None => Sequence [32; 32; 32]
         | Some depth => Sequence (py_repeat 32 depth)
         end
       | Some num_cells => num_cells
       end)
      (Conv3dNet.kernel_sizes a) (Conv3dNet.strides a) (Conv3dNet.paddings a) = Ok d ∧
    d ≠ 0 ∧ len cells = d ∧ len ks = d ∧ len ss = d ∧ len ps = d ∧
    matches_depth (match Conv3dNet.num_cells a with
       | None =>
         match Conv3dNet.depth a with
         | None => Sequence [32; 32; 32]
         | Some depth => Sequence (py_repeat 32 depth)
         end
       | Some num_cells => num_cells
       end) d ∧
    matches_depth (Conv3dNet.kernel_sizes a) d ∧
    matches_depth (Conv3dNet.strides a) d ∧
    matches_depth (Conv3dNet.paddings a) d ∧
    Conv3dNet.self_depth net = d ∧
    Conv3dNet.modules net =
      conv_blocks mk_conv3d
        (conv_post (Conv3dNet.activation_class a) (default ∅ (Conv3dNet.activation_kwargs a))
           (Conv3dNet.norm_class a) (default ∅ (Conv3dNet.norm_kwargs a)))
        (Conv3dNet.bias_last_layer a) (d + 1) 0
        (Conv3dNet.in_features a :: (Some <$> cells)) (cells ++ [out]) ks ss ps
      ++ conv_tail (Conv3dNet.aggregator_class a)
           (default {["ndims_in" := Number 4]} (Conv3dNet.aggregator_kwargs a))
           (Conv3dNet.squeeze_output a) (SqueezeLayer [-3; -2; -1]).
Proof.
  intros H.
  apply Conv3dNet_init_layers in H
    as (d & Hfd & Hd & Hc & Hk & Hs & Hp & Hdepth & Hm & _).
  exists d, (per_layer id (match Conv3dNet.num_cells a with
       | None =>
         match Conv3dNet.depth a with
         | None => Sequence [32; 32; 32]
         | Some depth => Sequence (py_repeat 32 depth)
         end
       | Some num_cells => num_cells
       end) d),
    (per_layer Number (Conv3dNet.kernel_sizes a) d),
    (per_layer Number (Conv3dNet.strides a) d),
    (per_layer Number (Conv3dNet.paddings a) d),
    (default 0 (last (per_layer id
                        (match Conv3dNet.num_cells a with
       | None =>
         match Conv3dNet.depth a with
         | None => Sequence [32; 32; 32]
         | Some depth => Sequence (py_repeat 32 depth)
         end
       | Some num_cells => num_cells
       end) d))).
  rewrite !len_per_layer by (assumption || lia).
  repeat split; try assumption; try reflexivity. lia.
Qed.

Lemma Conv3dNet_init_success fd raises a d :
  fd (Conv3dNet.depth a) (match Conv3dNet.num_cells a with
       | None =>
         match Conv3dNet.depth a with
         | None => Sequence [32; 32; 32]
         | Some depth => Sequence (py_repeat 32 depth)
         end
       | Some num_cells => num_cells
       end)
    (Conv3dNet.kernel_sizes a) (Conv3dNet.strides a) (Conv3dNet.paddings a) = Ok d →
  0 < d →
  matches_depth (match Conv3dNet.num_cells a with
       | None =>
         match Conv3dNet.depth a with
         | None => Sequence [32; 32; 32]
         | Some depth => Sequence (py_repeat 32 depth)
         end
       | Some num_cells => num_cells
       end) d →
  matches_depth (Conv3dNet.kernel_sizes a) d →
  matches_depth (Conv3dNet.strides a) d →
  matches_depth (Conv3dNet.paddings a) d →
  accepts raises (Conv3dNet_layers a d) →
  ∃ net, Conv3dNet.__init__ fd raises a = Ok net ∧
         Conv3dNet.modules net = Conv3dNet_layers a d.
Proof.
  intros Hfd Hd Hc Hk Hs Hp Hacc.
  destruct (Conv3dNet_init_nf fd raises a d Hfd Hd Hc Hk Hs Hp) as (mk & Hmk & ->).
  rewrite (create_all_accepts _ _ Hacc). cbn [mbind result_bind].
  exists (mk (Conv3dNet_layers a d)). split; [reflexivity|]. apply (Hmk _).
Qed.

(** A failing construction fails in [_find_depth], on the null depth, on a
    length conflict, or, past these guards, in the constructor of one of the
    layers of the configuration; [num_cells[-1]] never fails. *)
Lemma Conv3dNet_init_Raise fd raises a e :
  Conv3dNet.__init__ fd raises a = Raise e →
  fd (Conv3dNet.depth a) (match Conv3dNet.num_cells a with
       | None =>
         match Conv3dNet.depth a with
         | None => Sequence [32; 32; 32]
         | Some depth => Sequence (py_repeat 32 depth)
         end
       | Some num_cells => num_cells
       end)
    (Conv3dNet.kernel_sizes a) (Conv3dNet.strides a) (Conv3dNet.paddings a) = Raise e
  ∨ e = ValueError
  ∨ ∃ d,
      fd (Conv3dNet.depth a) (match Conv3dNet.num_cells a with
       | None =>
         match Conv3dNet.depth a with
         | None => Sequence [32; 32; 32]
         | Some depth => Sequence (py_repeat 32 depth)
         end
       | Some num_cells => num_cells
       end)
        (Conv3dNet.kernel_sizes a) (Conv3dNet.strides a) (Conv3dNet.paddings a) = Ok d ∧
      0 < d ∧
      matches_depth (match Conv3dNet.num_cells a with
       | None =>
         match Conv3dNet.depth a with
         | None => Sequence [32; 32; 32]
         | Some depth => Sequence (py_repeat 32 depth)
         end
       | Some num_cells => num_cells
       end) d ∧
      matches_depth (Conv3dNet.kernel_sizes a) d ∧
      matches_depth (Conv3dNet.strides a) d ∧
      matches_depth (Conv3dNet.paddings a) d ∧
      ∃ l, l ∈ Conv3dNet_layers a d ∧ raises l = Some e.
Proof.
  intros H.
  destruct (Conv3dNet_init_guards fd raises a _ H)
    as [(e' & [= <-] & [He | He]) | (d & Hfd & Hd & Hc & Hk & Hs & Hp)]; auto.
  right; right. exists d. repeat (split; [assumption|]).
  destruct (Conv3dNet_init_nf fd raises a d Hfd Hd Hc Hk Hs Hp) as (mk & Hmk & Hinit).
  rewrite Hinit in H.
  apply bind_Raise in H as [H | (ls & _ & H)]; [|discriminate H].
  apply create_all_Raise, H.
Qed.

(** ** Construction of the flat network *)

Ltac step_raises raises :=
  repeat match goal with
         | |- context [match raises ?l with Some _ => _ | None => _ end] =>
           destruct (raises l); cbn [mbind result_bind app create_all];
           [reflexivity|]
         end.

(** What follows a linear layer is instantiated in the order dropout,
    normalisation, activation. *)
Lemma MLP_post_blocks raises self layers :
  (layers ←
     match MLP.self_dropout self with
     | Some p => l ← create_on_device raises (Dropout p); Ok (layers ++ [l])
     | None => Ok layers
     end;
   layers ←
     match MLP.self_norm_class self with
     | Some nc =>
       l ← create_on_device raises (Norm nc (MLP.self_norm_kwargs self));
       Ok (layers ++ [l])
     | None => Ok layers
     end;
   l ← create_on_device raises
         (Activation (MLP.self_activation_class self)
            (MLP.self_activation_kwargs self));
   Ok (layers ++ [l]))
  = (bs ← create_all raises (mlp_post self); Ok (layers ++ bs)).
Proof.
  unfold mlp_post, create_on_device.
  destruct (MLP.self_dropout self), (MLP.self_norm_class self);
    cbn [app create_all mbind result_bind]; unfold instantiate;
    step_raises raises; rewrite <- ?app_assoc; reflexivity.
Qed.

Lemma MLP_loop_blocks LM raises self lazy_version i items layers :
  (∀ _out, (None, _out) ∈ items →
     LM !! cls_name (MLP.self_layer_class self) = Some lazy_version) →
  MLP._make_net_loop LM raises self i items layers
  = (bs ← create_all raises (mlp_blocks self lazy_version i items);
     Ok (layers ++ bs)).
Proof.
  revert i layers.
  induction items as [|[_in _out] items IH]; intros i layers Hlazy.
  - cbn. rewrite app_nil_r. reflexivity.
  - cbn [MLP._make_net_loop mlp_blocks].
    assert (∀ o, (None, o) ∈ items →
              LM !! cls_name (MLP.self_layer_class self) = Some lazy_version) as Hrest
      by (intros o Ho; apply (Hlazy o); right; exact Ho).
    assert (match _in with
            | Some _in =>
              l ← create_on_device raises
                    (Layer (MLP.self_layer_class self) _in _out
                       (if i =? MLP.self_depth self
                        then MLP.self_bias_last_layer self else true)
                       (MLP.self_layer_kwargs self));
              Ok (layers ++ [l])
            | None =>
              match LM !! cls_name (MLP.self_layer_class self) with
              | None => Raise KeyError
              | Some lazy_version =>
                l ← create_on_device raises
                      (LazyLayer lazy_version _out
                         (if i =? MLP.self_depth self
                          then MLP.self_bias_last_layer self else true)
                         (MLP.self_layer_kwargs self));
                Ok (layers ++ [l])
              end
            end
            = (l ← instantiate raises
                     (mlp_linear self lazy_version _in _out
                        (if i =? MLP.self_depth self
                         then MLP.self_bias_last_layer self else true));
               Ok (layers ++ [l]))) as ->.
    { destruct _in as [_in|]; [reflexivity|].
      rewrite (Hlazy _out) by left. reflexivity. }
    cbn [app create_all]. rewrite create_all_app.
    destruct (instantiate raises _) as [l|e]; [|reflexivity].
    cbn [mbind result_bind].
    destruct ((i <? MLP.self_depth self) || MLP.self_activate_last_layer self).
    + rewrite MLP_post_blocks.
      destruct (create_all raises (mlp_post self)) as [bs|e]; [|reflexivity].
      cbn [mbind result_bind]. rewrite (IH _ _ Hrest).
      destruct (create_all raises (mlp_blocks _ _ _ _)) as [bs'|e]; [|reflexivity].
      cbn [mbind result_bind]. rewrite <- !app_assoc. reflexivity.
    + cbn [mbind result_bind create_all]. rewrite (IH _ _ Hrest).
      destruct (create_all raises (mlp_blocks _ _ _ _)) as [bs'|e]; [|reflexivity].
      cbn [mbind result_bind app]. rewrite <- !app_assoc. reflexivity.
Qed.

Lemma MLP_loop_KeyError LM raises self i _out items layers :
  LM !! cls_name (MLP.self_layer_class self) = None →
  MLP._make_net_loop LM raises self i ((None, _out) :: items) layers = Raise KeyError.
Proof. intros H. cbn. rewrite H. reflexivity. Qed.

(** [MLP.__init__] in normal form: the three guards, then [_make_net]. *)
Lemma MLP_init_nf LM raises a :
  MLP.__init__ LM raises a =
  match MLP.out_features a with
  | None => Raise ValueError
  | Some o =>
    if MLP.single_bias_last_layer a then Raise NotImplementedError else
    match mlp_cells a with
    | None => Raise RuntimeError
    | Some cells =>
      layers ← MLP._make_net LM raises (mlp_self a o cells);
      Ok (mlp_with_modules (mlp_self a o cells) layers)
    end
  end.
Proof.
  unfold MLP.__init__, mlp_cells.
  destruct (MLP.out_features a) as [o|]; [|reflexivity].
  destruct (MLP.num_cells a) as [[n|l]|], (MLP.depth a) as [d|],
    (MLP.single_bias_last_layer a) eqn:Hsb; try reflexivity; cbn.
  - destruct (0 <=? d) eqn:Hd.
    + apply Z.leb_le in Hd.
      rewrite bool_decide_eq_true_2 by (rewrite len_py_repeat; f_equal; lia).
      cbn. unfold mlp_self. rewrite Hsb, len_py_repeat.
      replace (Z.max 0 d) with d by lia. reflexivity.
    + apply Z.leb_gt in Hd.
      rewrite bool_decide_eq_false_2
        by (rewrite len_py_repeat; intros [= Heq]; lia).
      reflexivity.
  - destruct (len l =? d) eqn:Hd.
    + apply Z.eqb_eq in Hd. subst d.
      rewrite bool_decide_eq_true_2 by reflexivity.
      cbn. unfold mlp_self. rewrite Hsb. reflexivity.
    + apply Z.eqb_neq in Hd.
      rewrite bool_decide_eq_false_2 by (intros [= Heq]; lia).
      reflexivity.
  - unfold mlp_self. rewrite Hsb. reflexivity.
  - destruct (0 <=? d) eqn:Hd.
    + apply Z.leb_le in Hd.
      rewrite bool_decide_eq_true_2 by (rewrite len_py_repeat; f_equal; lia).
      cbn. unfold mlp_self. rewrite Hsb, len_py_repeat.
      replace (Z.max 0 d) with d by lia. reflexivity.
    + apply Z.leb_gt in Hd.
      rewrite bool_decide_eq_false_2
        by (rewrite len_py_repeat; intros [= Heq]; lia).
      reflexivity.
  - unfold mlp_self. rewrite Hsb. reflexivity.
Qed.

Lemma MLP_make_net_blocks LM raises a o cells lazy_version :
  (MLP.in_features a = None →
   LM !! cls_name (MLP.layer_class a) = Some lazy_version) →
  MLP._make_net LM raises (mlp_self a o cells)
  = create_all raises
      (mlp_blocks (mlp_self a o cells) lazy_version 0
         (zip (MLP.in_features a :: (Some <$> cells))
              (cells ++ [MLP.self__out_features_num (mlp_self a o cells)]))).
Proof.
  intros Hlazy. unfold MLP._make_net.
  rewrite (MLP_loop_blocks LM _ _ lazy_version).
  - cbn [MLP.self_in_features MLP.self_num_cells mlp_self].
    destruct (create_all raises _); reflexivity.
  - intros _out Hin. apply elem_of_zip_l in Hin.
    cbn [MLP.self_in_features MLP.self_num_cells mlp_self] in Hin.
    apply elem_of_cons in Hin as [Hin | Hin]; [symmetry in Hin; auto|].
    apply list_elem_of_fmap in Hin as (x & Hx & _). discriminate Hx.
Qed.

Lemma MLP_layers_eq LM a o cells :
  MLP.out_features a = Some o → mlp_cells a = Some cells →
  MLP_layers LM a
  = mlp_blocks (mlp_self a o cells)
      (default (MLP.layer_class a) (LM !! cls_name (MLP.layer_class a))) 0
      (zip (MLP.in_features a :: (Some <$> cells))
           (cells ++ [MLP.self__out_features_num (mlp_self a o cells)])).
Proof. intros Ho Hc. unfold MLP_layers. rewrite Ho, Hc. reflexivity. Qed.

(** [MLP.__init__] once its guards have passed and the lazy version of the
    layer class, if needed, is known: the layers of the configuration are
    instantiated in order. *)
Lemma MLP_init_create LM raises a o cells :
  MLP.out_features a = Some o →
  MLP.single_bias_last_layer a = false →
  mlp_cells a = Some cells →
  (MLP.in_features a = None → is_Some (LM !! cls_name (MLP.layer_class a))) →
  MLP.__init__ LM raises a
  = (ls ← create_all raises (MLP_layers LM a);
     Ok (mlp_with_modules (mlp_self a o cells) ls)).
Proof.
  intros Ho Hsb Hc Hlazy. rewrite MLP_init_nf, Ho, Hsb, Hc.
  rewrite (MLP_layers_eq LM a o cells Ho Hc).
  rewrite (MLP_make_net_blocks LM raises a o cells
             (default (MLP.layer_class a) (LM !! cls_name (MLP.layer_class a))));
    [reflexivity|].
  intros Hin. destruct (Hlazy Hin) as [lz ->]. reflexivity.
Qed.

(** A successful construction got past the guards, every constructor
    accepted, and the network holds the layers of the configuration. *)
Lemma MLP_init_layers LM raises a net :
  MLP.__init__ LM raises a = Ok net →
  ∃ o cells,
    MLP.out_features a = Some o ∧
    MLP.single_bias_last_layer a = false ∧
    mlp_cells a = Some cells ∧
    (MLP.in_features a = None → is_Some (LM !! cls_name (MLP.layer_class a))) ∧
    net = mlp_with_modules (mlp_self a o cells) (MLP_layers LM a) ∧
    accepts raises (MLP_layers LM a).
Proof.
  intros H. pose proof H as H0. rewrite MLP_init_nf in H0.
  destruct (MLP.out_features a) as [o|] eqn:Ho; [|discriminate].
  destruct (MLP.single_bias_last_layer a) eqn:Hsb; [discriminate|].
  destruct (mlp_cells a) as [cells|] eqn:Hc; [|discriminate].
  exists o, cells.
  assert (MLP.in_features a = None →
          is_Some (LM !! cls_name (MLP.layer_class a))) as Hlazy.
  { intros Hin.
    destruct (LM !! cls_name (MLP.layer_class a)) as [lz|] eqn:Hlz; [eauto|].
    exfalso. unfold MLP._make_net in H0.
    cbn [MLP.self_in_features MLP.self_num_cells mlp_self] in H0.
    rewrite Hin in H0. destruct cells; cbn [fmap list_fmap app zip zip_with] in H0.
    - rewrite MLP_loop_KeyError in H0 by exact Hlz. discriminate H0.
    - rewrite MLP_loop_KeyError in H0 by exact Hlz. discriminate H0. }
  rewrite (MLP_init_create LM raises a o cells Ho Hsb Hc Hlazy) in H.
  inv_bind H. injection H as <-.
  apply create_all_Ok in E as [-> Hacc]. auto 10.
Qed.

Lemma MLP_init_Ok LM raises a net :
  MLP.__init__ LM raises a = Ok net →
  ∃ o cells lazy_version,
    MLP.out_features a = Some o ∧
    MLP.single_bias_last_layer a = false ∧
    mlp_cells a = Some cells ∧
    (MLP.in_features a = None →
     LM !! cls_name (MLP.layer_class a) = Some lazy_version) ∧
    net = mlp_with_modules (mlp_self a o cells)
            (mlp_blocks (mlp_self a o cells) lazy_version 0
               (zip (MLP.in_features a :: (Some <$> cells))
                    (cells ++ [MLP.self__out_features_num (mlp_self a o cells)]))).
Proof.
  intros H.
  apply MLP_init_layers in H as (o & cells & Ho & Hsb & Hc & Hlazy & -> & _).
  exists o, cells,
    (default (MLP.layer_class a) (LM !! cls_name (MLP.layer_class a))).
  repeat (split; [assumption|]). split.
  - intros Hin. destruct (Hlazy Hin) as [lz ->]. reflexivity.
  - rewrite (MLP_layers_eq LM a o cells Ho Hc). reflexivity.
Qed.

Lemma MLP_init_success LM raises a o cells :
  MLP.out_features a = Some o →
  MLP.single_bias_last_layer a = false →
  mlp_cells a = Some cells →
  (MLP.in_features a = None → is_Some (LM !! cls_name (MLP.layer_class a))) →
  accepts raises (MLP_layers LM a) →
  ∃ net, MLP.__init__ LM raises a = Ok net ∧ MLP.modules net = MLP_layers LM a.
Proof.
  intros Ho Hsb Hc Hlazy Hacc.
  rewrite (MLP_init_create LM raises a o cells Ho Hsb Hc Hlazy).
  rewrite (create_all_accepts _ _ Hacc). cbn [mbind result_bind].
  eexists. split; reflexivity.
Qed.

Lemma mk_conv2d_is_conv i o k s b p : is_conv (mk_conv2d i o k s b p) = true.
Proof. destruct i; reflexivity. Qed.

Lemma mk_conv2d_bias i o k s b p : layer_bias (mk_conv2d i o k s b p) = Some b.
Proof. destruct i; reflexivity. Qed.

Lemma mk_conv3d_is_conv i o k s b p : is_conv (mk_conv3d i o k s b p) = true.
Proof. destruct i; reflexivity. Qed.

Lemma mk_conv3d_bias i o k s b p : layer_bias (mk_conv3d i o k s b p) = Some b.
Proof. destruct i; reflexivity. Qed.

Lemma len_length {A B} (l : list A) (k : list B) : len l = len k → length l = length k.
Proof. unfold len. lia. Qed.



Lemma biases_conv_tail ac akw sq squeeze :
  is_conv squeeze = false → biases is_conv (conv_tail ac akw sq squeeze) = [].
Proof.
  intros H. unfold conv_tail, biases.
  destruct ac, sq; simpl; rewrite ?H; reflexivity.
Qed.

(** Every convolution of a constructed [ConvNet] has [bias=True], whatever
    [bias_last_layer] says: the loop index never reaches
    [len(in_features) - 1]. *)
Lemma ConvNet_conv_biases fd raises a net :
  ConvNet.__init__ fd raises a = Ok net →
  biases is_conv (ConvNet.modules net)
  = replicate (Z.to_nat (ConvNet.self_depth net)) true.
Proof.
  intros H.
  destruct (ConvNet_init_Ok _ _ _ _ H)
    as (d & cells & ks & ss & ps & out & _ & _ & Hc & Hk & Hs & Hp & _ & _ & _ & _ & Hd & ->).
  rewrite biases_app, biases_conv_tail, app_nil_r by reflexivity.
  rewrite conv_blocks_biases.
  - f_equal. unfold len in Hk. lia.
  - apply mk_conv2d_is_conv.
  - apply mk_conv2d_bias.
  - cbn [length]. rewrite length_fmap. unfold len in *. lia.
  - rewrite length_app. unfold len in *. lia.
  - apply len_length. congruence.
  - apply len_length. congruence.
  - lia.
Qed.

Lemma Conv3dNet_conv_biases fd raises a net :
  Conv3dNet.__init__ fd raises a = Ok net →
  biases is_conv (Conv3dNet.modules net)
  = replicate (Z.to_nat (Conv3dNet.self_depth net)) true.
Proof.
  intros H.
  destruct (Conv3dNet_init_Ok _ _ _ _ H)
    as (d & cells & ks & ss & ps & out & _ & _ & Hc & Hk & Hs & Hp & _ & _ & _ & _ & Hd & ->).
  rewrite biases_app, biases_conv_tail, app_nil_r by reflexivity.
  rewrite conv_blocks_biases.
  - f_equal. unfold len in Hk. lia.
  - apply mk_conv3d_is_conv.
  - apply mk_conv3d_bias.
  - cbn [length]. rewrite length_fmap. unfold len in *. lia.
  - rewrite length_app. unfold len in *. lia.
  - apply len_length. congruence.
  - apply len_length. congruence.
  - lia.
Qed.

(** ** The depth resolver *)

Lemma _find_depth_contract : find_depth_contract _find_depth.
Proof.
  unfold find_depth_contract, _find_depth. repeat split.
  - intros d nc ks ss ps d'. simpl.
    match goal with |- context [forallb ?f ?l] => destruct (forallb f l) end;
      [congruence | discriminate].
  - intros d nc ks ss ps Hnc Hks Hss Hps. simpl.
    assert (∀ {A} (v : arg A), matches_depth v d →
              forallb (Z.eqb d)
                match v with Sequence l => [len l] | Number _ => [] end = true) as Hone.
    { intros A [n|l] Hm; [reflexivity|].
      cbn. rewrite (Hm l eq_refl), Z.eqb_refl. reflexivity. }
    rewrite !forallb_app, !Hone by assumption. reflexivity.
  - intros d nc ks ss ps e.
    match goal with |- context [match ?c with [] => _ | _ :: _ => _ end] =>
      destruct c as [|c0 rest] end; [discriminate|].
    match goal with |- context [forallb ?f ?l] => destruct (forallb f l) end;
      [discriminate|]. intros [= <-]. reflexivity.
Qed.

(** ** C1: what follows each convolution *)

(** C1, as the code has it: in every constructed [ConvNet] and [Conv3dNet],
    each convolution is directly followed by the activation layer and then,
    when a [norm_class] is configured, by the normalisation layer; this holds
    for every convolution, the last one included, and no dropout layer is
    emitted. *)
Theorem C1_conv_activation_then_norm
    (fd : option Z → arg Z → arg (arg Z) → arg (arg Z) → arg (arg Z) → result Z)
    (raises : layer → option exn) :
  (∀ a net, ConvNet.__init__ fd raises a = Ok net →
     after_each_conv (activation_then_norm (ConvNet.norm_class a))
       (ConvNet.modules net) = true
     ∧ count_layers is_dropout (ConvNet.modules net) = 0%nat) ∧
  (∀ a net, Conv3dNet.__init__ fd raises a = Ok net →
     after_each_conv (activation_then_norm (Conv3dNet.norm_class a))
       (Conv3dNet.modules net) = true
     ∧ count_layers is_dropout (Conv3dNet.modules net) = 0%nat).
Proof.
  split; intros a net H.
  - destruct (ConvNet_init_Ok _ _ _ _ H)
      as (d & cells & ks & ss & ps & out & _ & _ & _ & _ & _ & _ & _ & _ & _ & _ & _ & ->).
    split.
    + apply conv_blocks_order; [apply mk_conv2d_is_conv|].
      apply conv_tail_order. reflexivity.
    + rewrite count_layers_app, conv_blocks_no_dropout, conv_tail_no_dropout;
        [reflexivity | reflexivity | apply mk_conv2d_is_conv].
  - destruct (Conv3dNet_init_Ok _ _ _ _ H)
      as (d & cells & ks & ss & ps & out & _ & _ & _ & _ & _ & _ & _ & _ & _ & _ & _ & ->).
    split.
    + apply conv_blocks_order; [apply mk_conv3d_is_conv|].
      apply conv_tail_order. reflexivity.
    + rewrite count_layers_app, conv_blocks_no_dropout, conv_tail_no_dropout;
        [reflexivity | reflexivity | apply mk_conv3d_is_conv].
Qed.

Lemma C1_conv_activation_then_norm_witness :
  ∃ net net3,
    ConvNet.__init__ _find_depth torch_raises cnet_norm_args = Ok net ∧
    Conv3dNet.__init__ _find_depth torch_raises cnet3d_norm_args = Ok net3 ∧
    after_each_conv [is_activation; is_norm] (ConvNet.modules net) = true ∧
    after_each_conv [is_activation; is_norm] (Conv3dNet.modules net3) = true.
Proof.
  eexists. eexists.
  split; [reflexivity|]. split; [reflexivity|].
  split.
  - exact (proj1 (proj1 (C1_conv_activation_then_norm _find_depth torch_raises)
                    cnet_norm_args _ eq_refl)).
  - exact (proj1 (proj2 (C1_conv_activation_then_norm _find_depth torch_raises)
                    cnet3d_norm_args _ eq_refl)).
Defined.

(** C1 as claimed fails: with [norm_class=nn.BatchNorm2d] and
    [norm_kwargs={"num_features": 32}], the layer directly after the
    convolution is the activation, not the normalisation. *)
Lemma C1_norm_then_activation_counterexample :
  ∃ net,
    ConvNet.__init__ _find_depth torch_raises cnet_norm_args = Ok net ∧
    ConvNet.modules net =
      [Conv2d 3 32 (Number 3) (Number 1) true (Number 0);
       Activation "ELU" ∅; Norm "BatchNorm2d" {["num_features" := Number 32]};
       Aggregator "SquashDims" {["ndims_in" := Number 3]}] ∧
    after_each_conv (norm_then_activation (ConvNet.norm_class cnet_norm_args))
      (ConvNet.modules net) = false.
Proof. eexists. repeat split. Qed.

(** ** C2: bias of the last convolution *)

(** C2 at the failing input: [ConvNet] and [Conv3dNet] built with
    [bias_last_layer=False], no normalisation and one convolution, which is
    the last one; the construction succeeds and the convolution is created
    with [bias=True]. *)
Theorem C2_last_conv_bias_at_failing_input :
  ConvNet.bias_last_layer cnet_one_args = false ∧
  Conv3dNet.bias_last_layer cnet3d_one_args = false ∧
  (ConvNet.modules <$> ConvNet.__init__ _find_depth torch_raises cnet_one_args)
    = Ok [Conv2d 3 32 (Number 3) (Number 1) true (Number 0);
          Activation "ELU" ∅;
          Aggregator "SquashDims" {["ndims_in" := Number 3]}] ∧
  (Conv3dNet.modules <$> Conv3dNet.__init__ _find_depth torch_raises cnet3d_one_args)
    = Ok [Conv3d 3 32 (Number 3) (Number 1) true (Number 0);
          Activation "ELU" ∅;
          Aggregator "SquashDims" {["ndims_in" := Number 4]}] ∧
  (biases is_conv <$> (ConvNet.modules <$> ConvNet.__init__ _find_depth torch_raises cnet_one_args))
    = Ok [true] ∧
  (biases is_conv <$> (Conv3dNet.modules <$> Conv3dNet.__init__ _find_depth torch_raises cnet3d_one_args))
    = Ok [true].
Proof. repeat split. Qed.

(** ** The layers of the flat network *)

Lemma count_linear_mlp_post self : count_layers is_linear (mlp_post self) = 0%nat.
Proof.
  unfold mlp_post.
  destruct (MLP.self_dropout self), (MLP.self_norm_class self); reflexivity.
Qed.

Lemma is_linear_mlp_linear self lz i o b : is_linear (mlp_linear self lz i o b) = true.
Proof. destruct i; reflexivity. Qed.

(** One linear layer per pair of input and output widths. *)
Lemma mlp_blocks_count self lz i items :
  count_layers is_linear (mlp_blocks self lz i items) = length items.
Proof.
  revert i. induction items as [|[_in _out] items IH]; intros i; [reflexivity|].
  cbn [mlp_blocks length]. rewrite !count_layers_app, IH.
  destruct ((i <? MLP.self_depth self) || MLP.self_activate_last_layer self);
    rewrite ?count_linear_mlp_post;
    unfold count_layers; cbn; rewrite is_linear_mlp_linear; reflexivity.
Qed.

Lemma biases_linear_mlp_post self : biases is_linear (mlp_post self) = [].
Proof.
  unfold mlp_post.
  destruct (MLP.self_dropout self), (MLP.self_norm_class self); reflexivity.
Qed.

Lemma layer_bias_mlp_linear self lz i o b : layer_bias (mlp_linear self lz i o b) = Some b.
Proof. destruct i; reflexivity. Qed.

(** The linear layers before index [depth] are biased; the one at index
    [depth] follows [bias_last_layer]. *)
Lemma mlp_blocks_biases self lz i items :
  i + len items = MLP.self_depth self + 1 → items ≠ [] →
  biases is_linear (mlp_blocks self lz i items)
  = replicate (length items - 1) true ++ [MLP.self_bias_last_layer self].
Proof.
  revert i. induction items as [|[_in _out] items IH]; intros i Hi Hne; [done|].
  cbn [mlp_blocks]. rewrite !biases_app.
  assert (biases is_linear
            (if (i <? MLP.self_depth self) || MLP.self_activate_last_layer self
             then mlp_post self else []) = []) as ->
    by (destruct (_ || _); [apply biases_linear_mlp_post | reflexivity]).
  unfold len in Hi. cbn [length] in Hi.
  destruct items as [|item items].
  - cbn [mlp_blocks]. unfold biases. cbn.
    rewrite is_linear_mlp_linear. cbn. rewrite layer_bias_mlp_linear.
    replace (i =? MLP.self_depth self) with true
      by (symmetry; apply Z.eqb_eq; cbn [length] in Hi; lia).
    reflexivity.
  - rewrite (IH (i + 1)) by (unfold len; cbn [length] in *; first [lia | done]).
    unfold biases at 1. cbn.
    rewrite is_linear_mlp_linear. cbn. rewrite layer_bias_mlp_linear.
    replace (i =? MLP.self_depth self) with false
      by (symmetry; apply Z.eqb_neq; cbn [length] in Hi; lia).
    cbn [length].
    replace (S (S (length items)) - 1)%nat with (S (length items)) by lia.
    replace (S (length items) - 1)%nat with (length items) by lia.
    replace (length items - 0)%nat with (length items) by lia.
    reflexivity.
Qed.

Lemma length_mlp_items (inf : option Z) (cells : list Z) (out : Z) :
  length (zip (inf :: (Some <$> cells)) (cells ++ [out])) = S (length cells).
Proof.
  rewrite length_zip, length_app. cbn [length]. rewrite length_fmap. lia.
Qed.

(** The bias rule of [MLP]: [True] on every layer but the last, which takes
    [bias_last_layer]. *)
Lemma MLP_linear_biases LM raises a net :
  MLP.__init__ LM raises a = Ok net →
  biases is_linear (MLP.modules net)
  = replicate (Z.to_nat (MLP.self_depth net)) true ++ [MLP.bias_last_layer a].
Proof.
  intros H. apply MLP_init_Ok in H as (o & cells & lz & _ & _ & _ & _ & ->).
  cbn [MLP.modules MLP.self_depth mlp_with_modules mlp_self].
  rewrite mlp_blocks_biases.
  - rewrite length_mlp_items. cbn [MLP.self_bias_last_layer mlp_self].
    unfold len. rewrite Nat2Z.id. do 2 f_equal. lia.
  - cbn [MLP.self_depth mlp_self]. unfold len. rewrite length_mlp_items. lia.
  - intros Hnil. apply (f_equal length) in Hnil.
    rewrite length_mlp_items in Hnil. discriminate Hnil.
Qed.

(** ** C3: number of weighted layers *)



(** ** C5: a length that conflicts with the given depth *)

Lemma conflict_not_matches {A} (v : arg A) d :
  conflicts_with_depth v d → matches_depth v d → False.
Proof. intros (l & -> & Hne) Hm. apply Hne, Hm. reflexivity. Qed.

(** C5: when an explicit [depth] comes with a sequence-valued per-layer
    parameter of another length ([num_cells] for [MLP]; [num_cells],
    [kernel_sizes], [strides] or [paddings] for the convolutional networks),
    the constructor raises a configuration error; it returns no object. *)
Theorem C5_length_conflict_raises
    (LazyMapping : gmap string pyclass)
    (fd : option Z → arg Z → arg (arg Z) → arg (arg Z) → arg (arg Z) → result Z)
    (raises : layer → option exn)
    (Hfd : find_depth_contract fd) :
  (∀ a d nc,
     MLP.depth a = Some d → MLP.num_cells a = Some nc →
     conflicts_with_depth nc d →
     ∃ e, MLP.__init__ LazyMapping raises a = Raise e ∧ ConfigurationError e = true) ∧
  (∀ a d,
     ConvNet.depth a = Some d →
     (∃ nc, ConvNet.num_cells a = Some nc ∧ conflicts_with_depth nc d)
     ∨ conflicts_with_depth (ConvNet.kernel_sizes a) d
     ∨ conflicts_with_depth (ConvNet.strides a) d
     ∨ conflicts_with_depth (ConvNet.paddings a) d →
     ∃ e, ConvNet.__init__ fd raises a = Raise e ∧ ConfigurationError e = true) ∧
  (∀ a d,
     Conv3dNet.depth a = Some d →
     (∃ nc, Conv3dNet.num_cells a = Some nc ∧ conflicts_with_depth nc d)
     ∨ conflicts_with_depth (Conv3dNet.kernel_sizes a) d
     ∨ conflicts_with_depth (Conv3dNet.strides a) d
     ∨ conflicts_with_depth (Conv3dNet.paddings a) d →
     ∃ e, Conv3dNet.__init__ fd raises a = Raise e ∧ ConfigurationError e = true).
Proof.
  destruct Hfd as (Hfd1 & _ & Hfd3).
  split; [|split].
  - intros a d nc Hd Hnc (l & -> & Hne).
    rewrite MLP_init_nf.
    destruct (MLP.out_features a); [|eauto].
    destruct (MLP.single_bias_last_layer a); [eauto|].
    unfold mlp_cells. rewrite Hnc, Hd.
    replace (len l =? d) with false by (symmetry; apply Z.eqb_neq; exact Hne).
    eauto.
  - intros a d Hd Hconf.
    destruct (ConvNet.__init__ fd raises a) as [net|e] eqn:H.
    + exfalso.
      destruct (ConvNet_init_Ok _ _ _ _ H)
        as (d' & _ & _ & _ & _ & _ & Hfind & _ & _ & _ & _ & _ & Hc & Hk & Hs & Hp & _).
      rewrite Hd in Hfind. apply Hfd1 in Hfind. subst d'.
      destruct Hconf as [(nc & Hnc & Hconf) | [Hconf | [Hconf | Hconf]]];
        try (eapply conflict_not_matches; eassumption).
      rewrite Hnc in Hc. eapply conflict_not_matches; eassumption.
    + exists e. split; [reflexivity|].
      apply ConvNet_init_Raise in H
        as [H | [-> | [-> | (d' & Hfind & _ & Hc & Hk & Hs & Hp & _)]]];
        try reflexivity; [eapply Hfd3, H|].
      exfalso. rewrite Hd in Hfind. apply Hfd1 in Hfind. subst d'.
      destruct Hconf as [(nc & Hnc & Hconf) | [Hconf | [Hconf | Hconf]]];
        try (eapply conflict_not_matches; eassumption).
      rewrite Hnc in Hc. eapply conflict_not_matches; eassumption.
  - intros a d Hd Hconf.
    destruct (Conv3dNet.__init__ fd raises a) as [net|e] eqn:H.
    + exfalso.
      destruct (Conv3dNet_init_Ok _ _ _ _ H)
        as (d' & _ & _ & _ & _ & _ & Hfind & _ & _ & _ & _ & _ & Hc & Hk & Hs & Hp & _).
      rewrite Hd in Hfind. apply Hfd1 in Hfind. subst d'.
      destruct Hconf as [(nc & Hnc & Hconf) | [Hconf | [Hconf | Hconf]]];
        try (eapply conflict_not_matches; eassumption).
      rewrite Hnc in Hc. eapply conflict_not_matches; eassumption.
    + exists e. split; [reflexivity|].
      apply Conv3dNet_init_Raise in H
        as [H | [-> | (d' & Hfind & _ & Hc & Hk & Hs & Hp & _)]];
        try reflexivity; [eapply Hfd3, H|].
      exfalso. rewrite Hd in Hfind. apply Hfd1 in Hfind. subst d'.
      destruct Hconf as [(nc & Hnc & Hconf) | [Hconf | [Hconf | Hconf]]];
        try (eapply conflict_not_matches; eassumption).
      rewrite Hnc in Hc. eapply conflict_not_matches; eassumption.
Qed.

Lemma C5_length_conflict_raises_witness :
  (∃ e, MLP.__init__ LazyMapping_doc torch_raises mlp_conflict_args = Raise e ∧
     ConfigurationError e = true) ∧
  (∃ e, ConvNet.__init__ _find_depth torch_raises (cnet_args 2 (Sequence [Number 1])) = Raise e ∧
     ConfigurationError e = true) ∧
  (∃ e, Conv3dNet.__init__ _find_depth torch_raises (cnet3d_args 2 (Sequence [Number 1])) = Raise e ∧
     ConfigurationError e = true).
Proof.
  destruct (C5_length_conflict_raises LazyMapping_doc _find_depth torch_raises
              _find_depth_contract) as (H1 & H2 & H3).
  split; [|split].
  - apply (H1 mlp_conflict_args 2 (Sequence [32; 33; 34])); try reflexivity.
    exists [32; 33; 34]. split; [reflexivity | discriminate].
  - apply (H2 (cnet_args 2 (Sequence [Number 1])) 2); [reflexivity|].
    right; right; left. exists [Number 1]. split; [reflexivity | discriminate].
  - apply (H3 (cnet3d_args 2 (Sequence [Number 1])) 2); [reflexivity|].
    right; right; left. exists [Number 1]. split; [reflexivity | discriminate].
Defined.

(** ** C9: a null depth *)

Lemma filter_linear_mlp_post self : List.filter is_linear (mlp_post self) = [].
Proof.
  unfold mlp_post.
  destruct (MLP.self_dropout self), (MLP.self_norm_class self); reflexivity.
Qed.

(** C9: [depth=0] makes [ConvNet] and [Conv3dNet] raise a configuration
    error; [MLP] accepts it and, when the constructors of the layers it asks
    for accept their arguments, builds exactly one linear layer, from the
    network's [in_features] (lazily inferred when absent) to its
    [out_features] (their product when a tuple). *)
Theorem C9_null_depth
    (LazyMapping : gmap string pyclass)
    (fd : option Z → arg Z → arg (arg Z) → arg (arg Z) → arg (arg Z) → result Z)
    (raises : layer → option exn)
    (Hfd : find_depth_contract fd) :
  (∀ a, ConvNet.depth a = Some 0 →
     ∃ e, ConvNet.__init__ fd raises a = Raise e ∧ ConfigurationError e = true) ∧
  (∀ a, Conv3dNet.depth a = Some 0 →
     ∃ e, Conv3dNet.__init__ fd raises a = Raise e ∧ ConfigurationError e = true) ∧
  (∀ a o,
     MLP.depth a = Some 0 →
     (∀ l, MLP.num_cells a = Some (Sequence l) → l = []) →
     MLP.out_features a = Some o → MLP.single_bias_last_layer a = false →
     (MLP.in_features a = None →
      is_Some (LazyMapping !! cls_name (MLP.layer_class a))) →
     accepts raises (MLP_layers LazyMapping a) →
     ∃ net lyr,
       MLP.__init__ LazyMapping raises a = Ok net ∧
       List.filter is_linear (MLP.modules net) = [lyr] ∧
       linear_in lyr = MLP.in_features a ∧
       linear_out lyr = Some match o with Number n => n | Sequence l => prod l end).
Proof.
  destruct Hfd as (Hfd1 & _ & Hfd3).
  split; [|split].
  - intros a Hd.
    destruct (ConvNet.__init__ fd raises a) as [net|e] eqn:H.
    + exfalso.
      destruct (ConvNet_init_Ok _ _ _ _ H) as (d' & _ & _ & _ & _ & _ & Hfind & Hne & _).
      rewrite Hd in Hfind. apply Hfd1 in Hfind. congruence.
    + exists e. split; [reflexivity|].
      apply ConvNet_init_Raise in H
        as [H | [-> | [-> | (d' & Hfind & Hpos & _)]]];
        try reflexivity; [eapply Hfd3, H|].
      exfalso. rewrite Hd in Hfind. apply Hfd1 in Hfind. lia.
  - intros a Hd.
    destruct (Conv3dNet.__init__ fd raises a) as [net|e] eqn:H.
    + exfalso.
      destruct (Conv3dNet_init_Ok _ _ _ _ H) as (d' & _ & _ & _ & _ & _ & Hfind & Hne & _).
      rewrite Hd in Hfind. apply Hfd1 in Hfind. congruence.
    + exists e. split; [reflexivity|].
      apply Conv3dNet_init_Raise in H
        as [H | [-> | (d' & Hfind & Hpos & _)]];
        try reflexivity; [eapply Hfd3, H|].
      exfalso. rewrite Hd in Hfind. apply Hfd1 in Hfind. lia.
  - intros a o Hd Hseq Ho Hsb Hlazy Hacc.
    assert (mlp_cells a = Some []) as Hcells.
    { unfold mlp_cells. rewrite Hd.
      destruct (MLP.num_cells a) as [[n|l]|]; try reflexivity.
      rewrite (Hseq l eq_refl). reflexivity. }
    destruct (MLP_init_success LazyMapping raises a o [] Ho Hsb Hcells Hlazy Hacc)
      as (net & Hnet & _).
    exists net.
    pose proof Hnet as Hnet'.
    apply MLP_init_Ok in Hnet' as (o' & cells & lz & Ho' & _ & Hc & _ & ->).
    assert (cells = []) as -> by congruence.
    assert (o' = o) as -> by congruence.
    eexists. split; [exact Hnet|].
    cbn [MLP.modules mlp_with_modules fmap list_fmap app zip zip_with mlp_blocks].
    rewrite app_nil_r. cbn [List.filter].
    assert (List.filter is_linear
              (if (0 <? MLP.self_depth (mlp_self a o []))
                  || MLP.self_activate_last_layer (mlp_self a o [])
               then mlp_post (mlp_self a o []) else []) = []) as ->
      by (destruct (_ || _); [apply filter_linear_mlp_post | reflexivity]).
    rewrite is_linear_mlp_linear.
    split; [reflexivity|].
    unfold mlp_linear. destruct (MLP.in_features a); split; reflexivity.
Qed.

Lemma C9_null_depth_witness :
  (∃ e, ConvNet.__init__ _find_depth torch_raises (cnet_args 0 (Number 1)) = Raise e ∧
     ConfigurationError e = true) ∧
  (∃ e, Conv3dNet.__init__ _find_depth torch_raises (cnet3d_args 0 (Number 1)) = Raise e ∧
     ConfigurationError e = true) ∧
  (∃ net lyr,
     MLP.__init__ LazyMapping_doc torch_raises mlp_depth0_args = Ok net ∧
     List.filter is_linear (MLP.modules net) = [lyr] ∧
     linear_in lyr = Some 3 ∧ linear_out lyr = Some 6).
Proof.
  destruct (C9_null_depth LazyMapping_doc _find_depth torch_raises
              _find_depth_contract) as (H1 & H2 & H3).
  split; [|split].
  - apply (H1 (cnet_args 0 (Number 1))). reflexivity.
  - apply (H2 (cnet3d_args 0 (Number 1))). reflexivity.
  - apply (H3 mlp_depth0_args (Number 6)); try reflexivity;
      first [discriminate | repeat constructor].
Defined.

Example mlp_depth0_example :
  MLP.modules <$> MLP.__init__ LazyMapping_doc torch_raises mlp_depth0_args =
  Ok [Layer nn_Linear 3 6 true ∅].
Proof. reflexivity. Qed.

Example cnet_depth0_example :
  ConvNet.__init__ _find_depth torch_raises (cnet_args 0 (Number 1)) = Raise ValueError.
Proof. reflexivity. Qed.

(** A constructor that rejects its arguments makes the construction fail
    with the constructor's exception. *)
Example cnet_bare_norm_example :
  ConvNet.__init__ _find_depth torch_raises cnet_bare_norm_args = Raise TypeError.
Proof. reflexivity. Qed.

Example mlp_conflict_example :
  MLP.__init__ LazyMapping_doc torch_raises mlp_conflict_args = Raise RuntimeError.
Proof. reflexivity. Qed.

(** ** Shapes *)


Lemma leading_snoc (l : shape) (c : Z) : leading (l ++ [c]) = l.
Proof.
  unfold leading. rewrite length_app. cbn [length].
  replace (length l + 1 - 1)%nat with (length l) by lia.
  apply take_app_length.
Qed.


Lemma leading_trailing (x : shape) (d : Z) :
  trailing x = Some d → x = leading x ++ [d].
Proof.
  unfold trailing. intros H. apply last_Some in H as [l ->].
  rewrite leading_snoc. reflexivity.
Qed.

Lemma unpack_trailing_app (k : nat) (batch rest : shape) :
  length rest = k → unpack_trailing k (batch ++ rest) = Ok (batch, rest).
Proof.
  intros <-. unfold unpack_trailing. rewrite length_app.
  replace (length batch + length rest <? length rest)%nat with false
    by (symmetry; apply Nat.ltb_ge; lia).
  replace (length batch + length rest - length rest)%nat with (length batch) by lia.
  rewrite take_app_length, drop_app_length. reflexivity.
Qed.

Lemma unpack_trailing_short (k : nat) (x : shape) :
  (length x < k)%nat → unpack_trailing k x = Raise ValueError.
Proof.
  intros H. unfold unpack_trailing.
  replace (length x <? k)%nat with true by (symmetry; apply Nat.ltb_lt; lia).
  reflexivity.
Qed.

Lemma flatten0_batch (batch rest : shape) :
  flatten0 (len batch - 1) (batch ++ rest) = prod batch :: rest.
Proof.
  unfold flatten0, len.
  replace (Z.to_nat (Z.of_nat (length batch) - 1 + 1)) with (length batch) by lia.
  rewrite take_app_length, drop_app_length. reflexivity.
Qed.

Lemma unflatten0_Ok sizes x out :
  unflatten0 sizes x = Ok out → ∃ rest, x = prod sizes :: rest ∧ out = sizes ++ rest.
Proof.
  unfold unflatten0. destruct x as [|d rest]; [discriminate|].
  destruct (prod sizes =? d) eqn:E; [|discriminate].
  apply Z.eqb_eq in E. intros [= <-]. subst d. eauto.
Qed.

(** ** C7: leading dimensions through the convolutional wrappers *)

(** C7: on an input with two or more leading batch dimensions in front of
    the channel and spatial axes (three for [ConvNet], four for [Conv3dNet])
    the batch dimensions are flattened for the layer stack and restored on its
    output, so the output starts with the input's batch dimensions; an input
    with fewer than three (resp. four) dimensions makes [forward] raise. *)
Theorem C7_conv_forward_batch_dims
    (framework_forward : layer → shape → result shape) :
  (∀ self batch C L W,
     1 < len batch →
     ConvNet.forward framework_forward self (batch ++ [C; L; W])
     = (nn_Sequential_forward framework_forward (ConvNet.modules self)
          [prod batch; C; L; W] ≫= unflatten0 batch)
     ∧ ∀ out, ConvNet.forward framework_forward self (batch ++ [C; L; W]) = Ok out →
         ∃ rest, out = batch ++ rest) ∧
  (∀ self batch C D L W,
     1 < len batch →
     Conv3dNet.forward framework_forward self (batch ++ [C; D; L; W])
     = (nn_Sequential_forward framework_forward (Conv3dNet.modules self)
          [prod batch; C; D; L; W] ≫= unflatten0 batch)
     ∧ ∀ out, Conv3dNet.forward framework_forward self (batch ++ [C; D; L; W]) = Ok out →
         ∃ rest, out = batch ++ rest) ∧
  (∀ self x, (length x < 3)%nat →
     ConvNet.forward framework_forward self x = Raise ValueError) ∧
  (∀ self x, (length x < 4)%nat →
     Conv3dNet.forward framework_forward self x = Raise ValueError).
Proof.
  repeat split.
  - unfold ConvNet.forward. rewrite unpack_trailing_app by reflexivity.
    cbn [mbind result_bind].
    replace (1 <? len batch) with true by (symmetry; apply Z.ltb_lt; assumption).
    rewrite flatten0_batch. reflexivity.
  - intros out. unfold ConvNet.forward. rewrite unpack_trailing_app by reflexivity.
    cbn [mbind result_bind].
    replace (1 <? len batch) with true by (symmetry; apply Z.ltb_lt; assumption).
    intros Hout. inv_bind Hout.
    apply unflatten0_Ok in Hout as (rest & _ & ->). eauto.
  - unfold Conv3dNet.forward. rewrite unpack_trailing_app by reflexivity.
    cbn [mbind result_bind].
    replace (1 <? len batch) with true by (symmetry; apply Z.ltb_lt; assumption).
    rewrite flatten0_batch. reflexivity.
  - intros out. unfold Conv3dNet.forward. rewrite unpack_trailing_app by reflexivity.
    cbn [mbind result_bind].
    replace (1 <? len batch) with true by (symmetry; apply Z.ltb_lt; assumption).
    intros Hout. inv_bind Hout.
    apply unflatten0_Ok in Hout as (rest & _ & ->). eauto.
  - intros self x Hx. unfold ConvNet.forward.
    rewrite unpack_trailing_short by assumption. reflexivity.
  - intros self x Hx. unfold Conv3dNet.forward.
    rewrite unpack_trailing_short by assumption. reflexivity.
Qed.

Lemma C7_conv_forward_batch_dims_witness :
  ∃ net,
    ConvNet.__init__ _find_depth torch_raises (cnet_args 2 (Number 1)) = Ok net ∧
    ConvNet.forward sample_framework_forward net [2; 5; 3; 8; 8] = Ok [2; 5; 528] ∧
    (∃ rest, [2; 5; 528] = [2; 5] ++ rest) ∧
    ConvNet.forward sample_framework_forward net [8; 8] = Raise ValueError.
Proof.
  eexists. split; [reflexivity|].
  destruct (C7_conv_forward_batch_dims sample_framework_forward)
    as (H2 & _ & Hs & _).
  match goal with
  | |- ConvNet.forward _ ?n _ = _ ∧ _ =>
    destruct (H2 n [2; 5] 3 8 8 eq_refl) as [Heq Hpre]
  end.
  split; [|split].
  - etrans; [exact Heq | reflexivity].
  - apply Hpre. etrans; [exact Heq | reflexivity].
  - apply Hs. cbn. lia.
Defined.

(** ** The flat network on shapes *)



Lemma mlp_blocks_cons self lz i _in _out items :
  mlp_blocks self lz i ((_in, _out) :: items)
  = mlp_linear self lz _in _out
      (if i =? MLP.self_depth self then MLP.self_bias_last_layer self else true)
    :: (if (i <? MLP.self_depth self) || MLP.self_activate_last_layer self
        then mlp_post self else [])
    ++ mlp_blocks self lz (i + 1) items.
Proof. reflexivity. Qed.

Section MLPForward.

Variable framework_forward : layer → shape → result shape.










End MLPForward.

(** ** C8: output shape of the flat network *)






(** ** Broadcasting and sums of rows *)

Local Open Scope Q_scope.

Lemma sequence_pure {A B} (f : A → B) (l : list A) :
  sequence ((λ a, Ok (f a)) <$> l) = Ok (f <$> l).
Proof.
  induction l as [|a l IH]; [reflexivity|].
  cbn [fmap list_fmap sequence] in *. rewrite IH. reflexivity.
Qed.





Lemma row_op_singleton_l f (a : Q) (y : row) :
  row_op f [a] y = Ok (f a <$> y).
Proof.
  unfold row_op, broadcast.
  destruct y as [|b [|b' y]]; cbn [length Nat.eqb]; try reflexivity.
  apply (sequence_pure (f a)).
Qed.















Local Close Scope Q_scope.

(** ** C6: the dueling output *)



(** ** The state of construction *)

Lemma bindM_inv {A B} (m : M A) (f : A → M B) w r w' :
  bindM m f w = (r, w') →
  (∃ a w1, m w = (Ok a, w1) ∧ f a w1 = (r, w'))
  ∨ (∃ e, m w = (Raise e, w') ∧ r = Raise e).
Proof.
  unfold bindM. destruct (m w) as [[a|e] w1]; intros H.
  - left. eauto.
  - right. injection H as <- <-. eauto.
Qed.

Lemma bindM_Ok {A B} (m : M A) (f : A → M B) w b w' :
  bindM m f w = (Ok b, w') → ∃ a w1, m w = (Ok a, w1) ∧ f a w1 = (Ok b, w').
Proof.
  intros H. apply bindM_inv in H as [H | (e & _ & H)]; [exact H | discriminate H].
Qed.

Lemma keeps_rand_bind {A B} (m : M A) (f : A → M B) :
  keeps_rand m → (∀ a, keeps_rand (f a)) → keeps_rand (bindM m f).
Proof.
  intros Hm Hf w r w' H.
  apply bindM_inv in H as [(a & w1 & H1 & H2) | (e & H1 & _)].
  - rewrite (Hf a _ _ _ H2). apply (Hm _ _ _ H1).
  - apply (Hm _ _ _ H1).
Qed.

Lemma keeps_rand_ret {A} (a : A) : keeps_rand (retM a).
Proof. intros w r w' [= <- <-]. reflexivity. Qed.

Lemma keeps_rand_lift {A} (r : result A) : keeps_rand (liftM r).
Proof. intros w r' w' [= <- <-]. reflexivity. Qed.

Lemma keeps_rand_draw stream n : keeps_rand (draw stream n).
Proof. intros w r w' [= <- <-]. reflexivity. Qed.

Lemma keeps_rand_alloc o : keeps_rand (alloc o).
Proof. intros w r w' [= <- <-]. reflexivity. Qed.

Lemma keeps_rand_alloc_tensor p : keeps_rand (alloc_tensor p).
Proof. intros w r w' [= <- <-]. reflexivity. Qed.

Lemma keeps_rand_write_tensor t p : keeps_rand (write_tensor t p).
Proof. intros w r w' [= <- <-]. reflexivity. Qed.

Lemma keeps_rand_read_tensor t : keeps_rand (read_tensor t).
Proof.
  intros w r w'. unfold read_tensor.
  destruct (tensors w !! t); intros [= <- <-]; reflexivity.
Qed.

Ltac keeps_rand_tac :=
  repeat first
    [ apply keeps_rand_bind; [|intros ?]
    | apply keeps_rand_ret
    | apply keeps_rand_lift
    | apply keeps_rand_draw
    | apply keeps_rand_alloc
    | apply keeps_rand_alloc_tensor
    | apply keeps_rand_write_tensor
    | apply keeps_rand_read_tensor ].

Lemma keeps_rand_new_module l : keeps_rand (new_module l).
Proof.
  destruct l; unfold new_module, new_param, new_bias, new_lazy_bias;
    repeat match goal with |- context [if ?b then _ else _] => destruct b end;
    keeps_rand_tac.
Qed.

Lemma keeps_rand_nn_Sequential layers : keeps_rand (nn_Sequential layers).
Proof.
  induction layers as [|l layers IH]; cbn [nn_Sequential].
  - apply keeps_rand_ret.
  - apply keeps_rand_bind; [apply keeps_rand_new_module | intros loc].
    apply keeps_rand_bind; [exact IH | intros locs]. apply keeps_rand_ret.
Qed.

Lemma keeps_rand_new_MLP LM raises k : keeps_rand (new_MLP LM raises k).
Proof.
  unfold new_MLP. apply keeps_rand_bind; [apply keeps_rand_lift | intros net].
  apply keeps_rand_bind; [apply keeps_rand_nn_Sequential | intros locs].
  apply keeps_rand_ret.
Qed.

Lemma keeps_rand_new_ConvNet fd raises k : keeps_rand (new_ConvNet fd raises k).
Proof.
  unfold new_ConvNet. apply keeps_rand_bind; [apply keeps_rand_lift | intros net].
  apply keeps_rand_bind; [apply keeps_rand_nn_Sequential | intros locs].
  apply keeps_rand_ret.
Qed.

Lemma uniform01_keeps {A} (m : M A) w r w' :
  keeps_rand m → m w = (r, w') → uniform01 w → uniform01 w'.
Proof. intros Hm H Hu i. rewrite (Hm _ _ _ H). apply Hu. Qed.

(** ** The last-layer initialiser *)

Lemma find_ext_in {A} (f g : A → bool) (l : list A) :
  (∀ x, f x = g x) → List.find f l = List.find g l.
Proof.
  intros H. induction l as [|x l IH]; [reflexivity|].
  cbn [List.find]. rewrite H, IH. reflexivity.
Qed.

(** The module [find_last_layer] returns is a linear or convolutional module
    of the heap. *)
Lemma find_last_layer_Some h module loc :
  find_last_layer h module = Some loc →
  ∃ o, h !! loc = Some o ∧ isinstance_Linear_Conv2d (descr o) = true.
Proof.
  unfold find_last_layer. intros H. apply List.find_some in H as [_ H].
  destruct (h !! loc) as [o|]; [eauto | discriminate H].
Qed.

Lemma noise_within (scale r : Q) :
  (0 <= scale)%Q → (0 <= r)%Q → (r < 1)%Q →
  within (scale / 2) (r * scale - scale / 2) = true.
Proof.
  intros Hs H0 H1. unfold within.
  assert (scale / 2 == scale * (1 # 2))%Q as Hhalf by (unfold Qdiv; reflexivity).
  assert (0 <= r * scale)%Q by (apply Qmult_le_0_compat; assumption).
  assert (r * scale <= 1 * scale)%Q by (apply Qmult_le_compat_r; [lra | assumption]).
  apply andb_true_intro. split; apply Qle_bool_iff; rewrite Hhalf; lra.
Qed.

Lemma draw_rand_within (scale : Q) n w l w' :
  uniform01 w → (0 <= scale)%Q →
  draw rand n w = (Ok l, w') →
  forallb (within (scale / 2)) ((λ x, x * scale - scale / 2)%Q <$> l) = true.
Proof.
  intros Hu Hs [= <- _]. apply forallb_forall. intros x Hx.
  apply list_elem_of_In, list_elem_of_fmap in Hx as (r & -> & Hr).
  apply list_elem_of_fmap in Hr as (i & -> & _).
  destruct (Hu (cursor w + i)%nat) as [H0 H1]. apply noise_within; assumption.
Qed.

(** What a successful [ddpg_noise] returns, and what it does to the state. *)
Lemma ddpg_noise_Ok scale p w q w' :
  ddpg_noise scale p w = (Ok q, w') →
  heap w' = heap w ∧ tensors w' = tensors w ∧ rand w' = rand w ∧
  (uniform01 w → (0 <= scale)%Q → param_within (scale / 2) (Some q) = true).
Proof.
  unfold ddpg_noise. intros H. apply bindM_Ok in H as (l & w1 & Hl & H).
  injection H as <- <-.
  destruct p as [|data]; [discriminate Hl|]. cbn [rand_like] in Hl.
  split; [|split; [|split]].
  - injection Hl as _ <-. reflexivity.
  - injection Hl as _ <-. reflexivity.
  - injection Hl as _ <-. reflexivity.
  - intros Hu Hs. cbn [param_within]. eapply draw_rand_within; eassumption.
Qed.

Lemma ddpg_noise_heap scale p w r w' :
  ddpg_noise scale p w = (r, w') →
  heap w' = heap w ∧ tensors w' = tensors w ∧ rand w' = rand w.
Proof.
  unfold ddpg_noise, bindM. destruct p as [|data]; cbn.
  - intros [= _ <-]. auto.
  - intros [= _ <-]. auto.
Qed.

(** [copy_noise] writes at most the tensor it is given, which then holds the
    scaled noise; the module objects are not touched. *)
Lemma copy_noise_cases scale t w r w' :
  copy_noise scale t w = (r, w') →
  heap w' = heap w ∧ rand w' = rand w ∧
  ((r ≠ Ok tt ∧ tensors w' = tensors w)
   ∨ ∃ q, r = Ok tt ∧ (t < length (tensors w))%nat ∧
          tensors w' = <[t := q]> (tensors w) ∧
          (uniform01 w → (0 <= scale)%Q →
           param_within (scale / 2) (Some q) = true)).
Proof.
  unfold copy_noise. intros H.
  apply bindM_inv in H as [(p & w1 & Hp & H) | (e & Hp & ->)].
  2:{ unfold read_tensor in Hp. destruct (tensors w !! t); [discriminate Hp|].
      injection Hp as _ <-. split; [reflexivity|]. split; [reflexivity|].
      left. split; [discriminate | reflexivity]. }
  unfold read_tensor in Hp. destruct (tensors w !! t) as [p0|] eqn:Ht;
    [|discriminate Hp].
  injection Hp as <- <-.
  apply bindM_inv in H as [(q & w2 & Hq & H) | (e & Hq & ->)].
  2:{ apply ddpg_noise_heap in Hq as (Hh & Ht' & Hr).
      split; [exact Hh|]. split; [exact Hr|].
      left. split; [discriminate | exact Ht']. }
  apply ddpg_noise_Ok in Hq as (Hh & Ht' & Hr & Hq).
  injection H as <- <-. cbn [heap rand tensors].
  split; [exact Hh|]. split; [exact Hr|].
  right. exists q. split; [reflexivity|].
  split; [eapply lookup_lt_Some; exact Ht|].
  split; [rewrite Ht'; reflexivity | exact Hq].
Qed.

Lemma param_within_attribute_insert b (ts : list param) t q (a : option nat) :
  (t < length ts)%nat →
  param_within b (Some q) = true →
  param_within b (a ≫= λ t, ts !! t) = true →
  param_within b (a ≫= λ t', <[t := q]> ts !! t') = true.
Proof.
  intros Hlt Hq Ha. destruct a as [t'|]; [|exact Ha]. cbn [mbind option_bind] in *.
  destruct (decide (t = t')) as [<-|Hne].
  - rewrite list_lookup_insert_eq by exact Hlt. exact Hq.
  - rewrite list_lookup_insert_ne by exact Hne. exact Ha.
Qed.

(** Every run of [ddpg_init_last_layer]: the module objects are not touched
    and no tensor is created; without a linear or convolutional module the
    call raises and leaves the tensors alone; otherwise every tensor other
    than the weight and the bias of the found module is as before, and after
    a successful run these two hold the scaled noise. *)
Lemma ddpg_init_last_layer_cases module scale w r w' :
  ddpg_init_last_layer module scale w = (r, w') →
  heap w' = heap w ∧ rand w' = rand w ∧
  length (tensors w') = length (tensors w) ∧
  match find_last_layer (heap w) module with
  | None => r = Raise RuntimeError ∧ tensors w' = tensors w
  | Some loc =>
    ∃ o, heap w !! loc = Some o ∧
      (∀ t, Some t ≠ weight o → Some t ≠ bias o →
         tensors w' !! t = tensors w !! t) ∧
      (r = Ok tt → uniform01 w → (0 <= scale)%Q →
       is_Some (weight o) ∧
       param_within (scale / 2) (attribute w' (weight o)) = true ∧
       param_within (scale / 2) (attribute w' (bias o)) = true)
  end.
Proof.
  unfold ddpg_init_last_layer.
  destruct (find_last_layer (heap w) module) as [loc|] eqn:Hfind;
    [|intros [= <- <-]; auto].
  destruct (find_last_layer_Some _ _ _ Hfind) as (o & Hloc & _).
  rewrite Hloc.
  destruct (weight o) as [t|] eqn:Hw.
  2:{ intros [= <- <-]. repeat (split; [reflexivity|]).
      exists o. repeat split; try reflexivity; discriminate. }
  intros H.
  apply bindM_inv in H as [(u & w1 & Hc1 & H) | (e & Hc1 & ->)].
  2:{ apply copy_noise_cases in Hc1 as (Hh & Hr & [[_ Ht] | (q & Hq & _)]);
        [|discriminate Hq].
      split; [exact Hh|]. split; [exact Hr|]. split; [rewrite Ht; reflexivity|].
      exists o. split; [reflexivity|]. split; [rewrite Ht; reflexivity|].
      discriminate. }
  apply copy_noise_cases in Hc1 as (Hh1 & Hr1 & [[Hne _] | (q & _ & Hlt & Ht1 & Hq)]);
    [destruct u; contradiction|].
  destruct (bias o) as [b|] eqn:Hb.
  - apply copy_noise_cases in H
      as (Hh2 & Hr2 & [[Hne Ht2] | (q' & -> & Hlt' & Ht2 & Hq')]).
    + split; [congruence|]. split; [congruence|].
      split; [rewrite Ht2, Ht1; apply length_insert|].
      exists o. split; [reflexivity|]. split; [|intros Hr; contradiction].
      intros t' Hne1 _. rewrite Ht2, Ht1.
      apply list_lookup_insert_ne. congruence.
    + split; [congruence|]. split; [congruence|].
      split; [rewrite Ht2, Ht1, !length_insert; reflexivity|].
      exists o. split; [reflexivity|]. split.
      * intros t' Hne1 Hne2. rewrite Ht2, Ht1.
        rewrite !list_lookup_insert_ne by congruence. reflexivity.
      * intros _ Hu Hs. split; [eauto|].
        assert (uniform01 w1) as Hu1 by (intros i; rewrite Hr1; apply Hu).
        unfold attribute. rewrite Hw, Hb, Ht2. cbn [mbind option_bind].
        split.
        -- destruct (decide (b = t)) as [->|Hne].
           ++ rewrite list_lookup_insert_eq by exact Hlt'. apply Hq'; assumption.
           ++ rewrite list_lookup_insert_ne by exact Hne.
              rewrite Ht1, list_lookup_insert_eq by exact Hlt. apply Hq; assumption.
        -- rewrite list_lookup_insert_eq by exact Hlt'. apply Hq'; assumption.
  - injection H as <- <-.
    split; [exact Hh1|]. split; [exact Hr1|].
    split; [rewrite Ht1; apply length_insert|].
    exists o. split; [reflexivity|]. split.
    + intros t' Hne1 _. rewrite Ht1. apply list_lookup_insert_ne. congruence.
    + intros _ Hu Hs. split; [eauto|]. unfold attribute. rewrite Hw, Hb.
      cbn [mbind option_bind].
      rewrite Ht1, list_lookup_insert_eq by exact Hlt.
      split; [apply Hq; assumption | reflexivity].
Qed.

(** ** C10: what the initialiser touches *)

(** C10, on the store of tensors: [ddpg_init_last_layer] changes no module
    object and creates no tensor; the only tensors it writes are the weight
    and, when there is one, the bias of the last [nn.Linear]/[nn.Conv2d]
    module of the given network: every other tensor is as before, so a
    parameter of another layer is unchanged unless it is one of these two
    tensors (tied parameters).  When there is no such module the call
    raises and changes nothing. *)
Theorem C10_ddpg_init_frame (module : list nat) (scale : Q)
    (w w' : world) (r : result unit) :
  ddpg_init_last_layer module scale w = (r, w') →
  heap w' = heap w ∧
  length (tensors w') = length (tensors w) ∧
  (find_last_layer (heap w) module = None →
     r = Raise RuntimeError ∧ tensors w' = tensors w) ∧
  (∀ loc, find_last_layer (heap w) module = Some loc →
     ∃ last_layer,
       heap w !! loc = Some last_layer ∧
       isinstance_Linear_Conv2d (descr last_layer) = true ∧
       (∀ t, Some t ≠ weight last_layer → Some t ≠ bias last_layer →
          tensors w' !! t = tensors w !! t) ∧
       (∀ loc' o, heap w !! loc' = Some o →
          (∀ t, t ∈ parameters o →
             Some t ≠ weight last_layer ∧ Some t ≠ bias last_layer) →
          ∀ t, t ∈ parameters o → tensors w' !! t = tensors w !! t)).
Proof.
  intros H. apply ddpg_init_last_layer_cases in H as (Hh & _ & Hlen & H).
  split; [exact Hh|]. split; [exact Hlen|].
  destruct (find_last_layer (heap w) module) as [loc|] eqn:Hfind.
  - split; [discriminate|]. intros loc' [= <-].
    destruct H as (o & Hloc & Hframe & _).
    destruct (find_last_layer_Some _ _ _ Hfind) as (o' & Hloc' & Hinst).
    assert (o' = o) as -> by congruence.
    exists o. split; [exact Hloc|]. split; [exact Hinst|].
    split; [exact Hframe|].
    intros loc' o' Ho' Hdisj t Ht. destruct (Hdisj t Ht). apply Hframe; assumption.
  - split; [intros _; exact H | discriminate].
Qed.

Lemma C10_ddpg_init_frame_witness :
  ∃ w1 w',
    nn_Sequential
      [Layer nn_Linear 2 2 true ∅; Activation "ELU" ∅; Layer nn_Linear 2 1 true ∅]
      sample_world = (Ok [0; 1; 2]%nat, w1) ∧
    ddpg_init_last_layer [0; 1; 2]%nat 6e-4 w1 = (Ok tt, w') ∧
    find_last_layer (heap w1) [0; 1; 2]%nat = Some 2%nat ∧
    (parameters <$> heap w1 !! 0%nat) = Some [0; 1]%nat ∧
    (parameters <$> heap w1 !! 2%nat) = Some [2; 3]%nat ∧
    heap w' = heap w1 ∧
    tensors w' !! 0%nat = tensors w1 !! 0%nat ∧
    tensors w' !! 1%nat = tensors w1 !! 1%nat ∧
    length (tensors w') = 4%nat.
Proof.
  destruct (nn_Sequential
              [Layer nn_Linear 2 2 true ∅; Activation "ELU" ∅;
               Layer nn_Linear 2 1 true ∅] sample_world) as [r1 w1] eqn:H1.
  destruct (ddpg_init_last_layer [0; 1; 2]%nat 6e-4 w1) as [r w'] eqn:H.
  exists w1, w'.
  destruct (C10_ddpg_init_frame [0; 1; 2]%nat 6e-4 w1 w' r H)
    as (Hheap & Hlen & _ & Hlast).
  vm_compute in H1. injection H1 as <- <-.
  destruct (Hlast 2%nat eq_refl) as (o & Ho & _ & Hframe & _).
  injection Ho as <-.
  split; [reflexivity|].
  split; [rewrite H; vm_compute in H; injection H as <- _; reflexivity|].
  split; [reflexivity|]. split; [reflexivity|]. split; [reflexivity|].
  split; [exact Hheap|].
  split; [apply Hframe; discriminate|].
  split; [apply Hframe; discriminate|].
  exact Hlen.
Defined.

(** C10 as claimed fails when a parameter is tied: in a network whose last
    linear layer shares its weight tensor with the first one, the write to
    the weight of the last layer changes the weight of the first layer, a
    parameter of another layer. *)
Lemma C10_tied_weight_counterexample :
  ∃ w' x,
    ddpg_init_last_layer [0; 1; 2]%nat 6e-4 tied_world = (Ok tt, w') ∧
    find_last_layer (heap tied_world) [0; 1; 2]%nat = Some 2%nat ∧
    (weight <$> heap tied_world !! 0%nat) = Some (Some 0%nat) ∧
    (weight <$> heap tied_world !! 2%nat) = Some (Some 0%nat) ∧
    tensors tied_world !! 0%nat = Some (Tensor [0; 0; 0; 0]%Q) ∧
    tensors w' !! 0%nat = Some (Tensor [x; x; x; x]) ∧
    (x == 0.00024)%Q ∧ ¬ (x == 0)%Q.
Proof.
  eexists. eexists. split; [vm_compute; reflexivity|].
  split; [reflexivity|]. split; [reflexivity|]. split; [reflexivity|].
  split; [reflexivity|]. split; [reflexivity|].
  split; [reflexivity | discriminate].
Qed.

(** ** C4: the range of the last layer after construction *)

(** After a successful [ddpg_init_last_layer] the weight and bias of the last
    linear or convolutional module lie within [scale / 2] of zero. *)
Lemma ddpg_init_last_layer_within module scale w w' :
  ddpg_init_last_layer module scale w = (Ok tt, w') →
  uniform01 w → (0 <= scale)%Q →
  last_layer_within w' module (scale / 2) = true.
Proof.
  intros H Hu Hs. apply ddpg_init_last_layer_cases in H as (Hh & _ & _ & H).
  unfold last_layer_within. rewrite Hh.
  destruct (find_last_layer (heap w) module) as [loc|] eqn:Hfind;
    [|destruct H as [H _]; discriminate H].
  destruct H as (o & -> & _ & Hin).
  destruct (Hin eq_refl Hu Hs) as (_ & -> & ->). reflexivity.
Qed.

(** C4, as the code has it: after the construction of a DDPG composite every
    weight and bias entry of the last linear layer of its final [MLP] lies in
    [[-scale/2, scale/2]], with [scale = 6e-4] for the two convolutional
    composites ([DdpgCnnActor], [DdpgCnnQNet]) and [scale = 6e-3] for the two
    flat ones ([DdpgMlpActor], [DdpgMlpQNet]).  The draws of the generator
    are taken in [[0, 1)] and the arithmetic is exact. *)
Theorem C4_ddpg_last_layer_range
    (LazyMapping : gmap string pyclass)
    (fd : option Z → arg Z → arg (arg Z) → arg (arg Z) → arg (arg Z) → result Z)
    (raises : layer → option exn)
    (w w' : world) (Hu : uniform01 w) :
  (∀ action_dim ckw mkw avg convnet mlp,
     DdpgCnnActor LazyMapping fd raises action_dim ckw mkw avg w = (Ok (convnet, mlp), w') →
     last_layer_within w' (snd mlp) (6e-4 / 2) = true) ∧
  (∀ action_dim mkw mlp,
     DdpgMlpActor LazyMapping raises action_dim mkw w = (Ok mlp, w') →
     last_layer_within w' (snd mlp) (6e-3 / 2) = true) ∧
  (∀ ckw mkw avg convnet mlp,
     DdpgCnnQNet LazyMapping fd raises ckw mkw avg w = (Ok (convnet, mlp), w') →
     last_layer_within w' (snd mlp) (6e-4 / 2) = true) ∧
  (∀ kw1 kw2 mlp1 mlp2,
     DdpgMlpQNet LazyMapping raises kw1 kw2 w = (Ok (mlp1, mlp2), w') →
     last_layer_within w' (snd mlp2) (6e-3 / 2) = true).
Proof.
  split; [|split; [|split]].
  - intros action_dim ckw mkw avg convnet mlp H. unfold DdpgCnnActor in H.
    apply bindM_Ok in H as (c & w1 & Hc & H).
    apply bindM_Ok in H as (m & w2 & Hm & H).
    apply bindM_Ok in H as (u & w3 & Hinit & H).
    injection H as <- <- <-. destruct u.
    eapply ddpg_init_last_layer_within; [exact Hinit| |discriminate].
    eapply uniform01_keeps; [apply keeps_rand_new_MLP | exact Hm |].
    eapply uniform01_keeps; [apply keeps_rand_new_ConvNet | exact Hc | exact Hu].
  - intros action_dim mkw mlp H. unfold DdpgMlpActor in H.
    apply bindM_Ok in H as (m & w2 & Hm & H).
    apply bindM_Ok in H as (u & w3 & Hinit & H).
    injection H as <- <-. destruct u.
    eapply ddpg_init_last_layer_within; [exact Hinit| |discriminate].
    eapply uniform01_keeps; [apply keeps_rand_new_MLP | exact Hm | exact Hu].
  - intros ckw mkw avg convnet mlp H. unfold DdpgCnnQNet in H.
    apply bindM_Ok in H as (c & w1 & Hc & H).
    apply bindM_Ok in H as (m & w2 & Hm & H).
    apply bindM_Ok in H as (u & w3 & Hinit & H).
    injection H as <- <- <-. destruct u.
    eapply ddpg_init_last_layer_within; [exact Hinit| |discriminate].
    eapply uniform01_keeps; [apply keeps_rand_new_MLP | exact Hm |].
    eapply uniform01_keeps; [apply keeps_rand_new_ConvNet | exact Hc | exact Hu].
  - intros kw1 kw2 mlp1 mlp2 H. unfold DdpgMlpQNet in H.
    apply bindM_Ok in H as (m1 & w1 & Hm1 & H).
    apply bindM_Ok in H as (m2 & w2 & Hm2 & H).
    apply bindM_Ok in H as (u & w3 & Hinit & H).
    injection H as <- <- <-. destruct u.
    eapply ddpg_init_last_layer_within; [exact Hinit| |discriminate].
    eapply uniform01_keeps; [apply keeps_rand_new_MLP | exact Hm2 |].
    eapply uniform01_keeps; [apply keeps_rand_new_MLP | exact Hm1 | exact Hu].
Qed.

Lemma sample_world_uniform : uniform01 sample_world.
Proof. intros i. split; [discriminate | reflexivity]. Qed.

Lemma C4_ddpg_last_layer_range_witness :
  ∃ mlp w',
    DdpgMlpActor LazyMapping_doc torch_raises 1 (Some small_mlp_kw) sample_world
    = (Ok mlp, w') ∧
    last_layer_within w' (snd mlp) (6e-3 / 2) = true.
Proof.
  destruct (DdpgMlpActor LazyMapping_doc torch_raises 1 (Some small_mlp_kw)
              sample_world) as [[mlp|e] w'] eqn:H;
    [|vm_compute in H; discriminate H].
  exists mlp, w'. split; [reflexivity|].
  exact (proj1 (proj2 (C4_ddpg_last_layer_range LazyMapping_doc _find_depth
                         torch_raises sample_world w' sample_world_uniform))
           1 (Some small_mlp_kw) mlp H).
Defined.

(** C4 as claimed fails for the flat actor: [DdpgMlpActor] initialises with
    [scale = 6e-3], so with a draw of [9/10] the entries of its last layer
    are [9/10 * 6e-3 - 3e-3 = 2.4e-3], outside [[-3e-4, 3e-4]]. *)
Lemma C4_mlp_actor_scale_counterexample :
  ∃ mlp w' t x,
    DdpgMlpActor LazyMapping_doc torch_raises 1 (Some small_mlp_kw) sample_world
    = (Ok mlp, w') ∧
    find_last_layer (heap w') (snd mlp) = Some 4%nat ∧
    (weight <$> heap w' !! 4%nat) = Some (Some t) ∧
    tensors w' !! t = Some (Tensor [x; x]) ∧
    (x == 0.0024)%Q ∧ ¬ (x <= 6e-4 / 2)%Q ∧
    last_layer_within w' (snd mlp) (6e-4 / 2) = false.
Proof.
  eexists. eexists. eexists. eexists. split; [vm_compute; reflexivity|].
  split; [reflexivity|]. split; [reflexivity|]. split; [reflexivity|].
  split; [reflexivity|]. split; [|reflexivity].
  intros H. apply H. reflexivity.
Qed.

(** * Further properties of the module *)

(** ** The flat network *)

(** X1: in a constructed [MLP] every linear layer but the last is created
    with [bias=True]; the last one takes [bias_last_layer]. *)
Theorem X1_mlp_bias_rule (LazyMapping : gmap string pyclass)
    (raises : layer → option exn) (a : MLP.args) (net : MLP.t) :
  MLP.__init__ LazyMapping raises a = Ok net →
  biases is_linear (MLP.modules net)
  = replicate (Z.to_nat (MLP.self_depth net)) true ++ [MLP.bias_last_layer a].
Proof. apply MLP_linear_biases. Qed.

Lemma X1_mlp_bias_rule_witness :
  ∃ net, MLP.__init__ LazyMapping_doc torch_raises mlp_full_args = Ok net ∧
         biases is_linear (MLP.modules net) = [true; true; false].
Proof.
  eexists. split; [reflexivity|].
  exact (X1_mlp_bias_rule LazyMapping_doc torch_raises mlp_full_args _ eq_refl).
Defined.

(** X2: the guards of [MLP.__init__], in their order: a missing
    [out_features] is a [ValueError]; otherwise a set
    [single_bias_last_layer] is a [NotImplementedError]; otherwise a
    number-valued [num_cells] without [depth], or a negative [depth], is a
    [RuntimeError]. *)
Theorem X2_mlp_init_guards (LazyMapping : gmap string pyclass)
    (raises : layer → option exn) (a : MLP.args) :
  (MLP.out_features a = None → MLP.__init__ LazyMapping raises a = Raise ValueError) ∧
  (is_Some (MLP.out_features a) → MLP.single_bias_last_layer a = true →
     MLP.__init__ LazyMapping raises a = Raise NotImplementedError) ∧
  (is_Some (MLP.out_features a) → MLP.single_bias_last_layer a = false →
     (∃ n, MLP.num_cells a = Some (Number n)) → MLP.depth a = None →
     MLP.__init__ LazyMapping raises a = Raise RuntimeError) ∧
  (is_Some (MLP.out_features a) → MLP.single_bias_last_layer a = false →
     (∃ d, MLP.depth a = Some d ∧ d < 0) →
     MLP.__init__ LazyMapping raises a = Raise RuntimeError).
Proof.
  rewrite MLP_init_nf. repeat split.
  - intros ->. reflexivity.
  - intros [o ->] ->. reflexivity.
  - intros [o ->] -> [n Hn] Hd. unfold mlp_cells. rewrite Hn, Hd. reflexivity.
  - intros [o ->] -> (d & Hd & Hneg). unfold mlp_cells. rewrite Hd.
    destruct (MLP.num_cells a) as [[n|l]|].
    + replace (0 <=? d) with false by (symmetry; apply Z.leb_gt; lia). reflexivity.
    + replace (len l =? d) with false
        by (symmetry; apply Z.eqb_neq; pose proof (len_nonneg l); lia).
      reflexivity.
    + replace (0 <=? d) with false by (symmetry; apply Z.leb_gt; lia). reflexivity.
Qed.

Lemma X2_mlp_init_guards_witness :
  MLP.__init__ LazyMapping_doc torch_raises
    (mlp_default_args None None None nn_Linear true) = Raise ValueError ∧
  MLP.__init__ LazyMapping_doc torch_raises
    (mlp_default_args (Some (Number 6)) None None nn_Linear true)
    = Raise NotImplementedError ∧
  MLP.__init__ LazyMapping_doc torch_raises
    (mlp_default_args (Some (Number 6)) None (Some (Number 32)) nn_Linear false)
    = Raise RuntimeError ∧
  MLP.__init__ LazyMapping_doc torch_raises
    (mlp_default_args (Some (Number 6)) (Some (-1)) None nn_Linear false)
    = Raise RuntimeError.
Proof.
  split; [|split; [|split]].
  - apply (proj1 (X2_mlp_init_guards LazyMapping_doc torch_raises _)). reflexivity.
  - apply (proj1 (proj2 (X2_mlp_init_guards LazyMapping_doc torch_raises _)));
      [eexists|]; reflexivity.
  - apply (proj1 (proj2 (proj2 (X2_mlp_init_guards LazyMapping_doc torch_raises _))));
      [eexists; reflexivity | reflexivity | eexists; reflexivity | reflexivity].
  - apply (proj2 (proj2 (proj2 (X2_mlp_init_guards LazyMapping_doc torch_raises _))));
      [eexists; reflexivity | reflexivity |].
    exists (-1). split; [reflexivity | lia].
Defined.



(** X4: without [num_cells], a constructed [MLP] has hidden layers of 32
    cells: three of them when [depth] is absent too, [depth] of them
    otherwise. *)
Theorem X4_mlp_default_cells (LazyMapping : gmap string pyclass)
    (raises : layer → option exn)
    (a : MLP.args) (net : MLP.t) :
  MLP.num_cells a = None →
  MLP.__init__ LazyMapping raises a = Ok net →
  MLP.self_depth net = default 3 (MLP.depth a) ∧
  MLP.self_num_cells net = py_repeat 32 (default 3 (MLP.depth a)) ∧
  count_layers is_linear (MLP.modules net) = S (Z.to_nat (default 3 (MLP.depth a))).
Proof.
  intros Hnc Hnet.
  apply MLP_init_Ok in Hnet as (o & cells & lz & _ & _ & Hc & _ & ->).
  cbn [MLP.self_depth MLP.self_num_cells MLP.modules mlp_with_modules mlp_self].
  rewrite mlp_blocks_count, length_mlp_items.
  unfold mlp_cells in Hc. rewrite Hnc in Hc.
  destruct (MLP.depth a) as [d|]; cbn [default from_option]; unfold id.
  - destruct (0 <=? d) eqn:Hd; [|discriminate Hc]. apply Z.leb_le in Hd.
    injection Hc as <-. rewrite len_py_repeat.
    unfold py_repeat. rewrite length_replicate. split; [lia | auto].
  - injection Hc as <-. auto.
Qed.

Lemma X4_mlp_default_cells_witness :
  ∃ net,
    MLP.__init__ LazyMapping_doc torch_raises
      (mlp_default_args (Some (Number 6)) (Some 2) None nn_Linear false) = Ok net ∧
    MLP.self_num_cells net = [32; 32] ∧
    count_layers is_linear (MLP.modules net) = 3%nat.
Proof.
  eexists. split; [reflexivity|].
  exact (proj2 (X4_mlp_default_cells LazyMapping_doc torch_raises
                  (mlp_default_args (Some (Number 6)) (Some 2) None nn_Linear false)
                  _ eq_refl eq_refl)).
Defined.

Lemma mlp_blocks_count_post (p : layer → bool) self lz i items :
  (∀ _in _out b, p (mlp_linear self lz _in _out b) = false) →
  i + len items = MLP.self_depth self + 1 → items ≠ [] →
  count_layers p (mlp_blocks self lz i items)
  = ((length items - 1 + indicator (MLP.self_activate_last_layer self))
     * count_layers p (mlp_post self))%nat.
Proof.
  intros Hp. revert i.
  induction items as [|[_in _out] items IH]; intros i Hi Hne; [done|].
  rewrite mlp_blocks_cons.
  change (?x :: ?l ++ ?r) with ([x] ++ l ++ r).
  rewrite !count_layers_app.
  assert (count_layers p [mlp_linear self lz _in _out
            (if i =? MLP.self_depth self then MLP.self_bias_last_layer self else true)]
          = 0%nat) as -> by (unfold count_layers; cbn; rewrite Hp; reflexivity).
  unfold len in Hi. cbn [length] in Hi.
  destruct items as [|item items].
  - cbn [mlp_blocks length]. 
    replace (i <? MLP.self_depth self) with false
      by (symmetry; apply Z.ltb_ge; cbn [length] in Hi; lia).
    cbn [orb]. destruct (MLP.self_activate_last_layer self); cbn [indicator];
      unfold count_layers; cbn [List.filter length]; lia.
  - rewrite (IH (i + 1)) by (unfold len; cbn [length] in *; first [lia | done]).
    replace (i <? MLP.self_depth self) with true
      by (symmetry; apply Z.ltb_lt; cbn [length] in Hi; lia).
    cbn [orb length]. lia.
Qed.

(** The blocks of the loop, as a list: each hidden linear layer with what
    follows it, then the last linear layer, followed by the same layers when
    [activate_last_layer] is set. *)
Lemma mlp_blocks_structure self lz i items :
  i + len items = MLP.self_depth self + 1 → items ≠ [] →
  ∃ hidden last,
    length hidden = (length items - 1)%nat ∧
    Forall (λ l, is_linear l = true) (hidden ++ [last]) ∧
    mlp_blocks self lz i items
    = (hidden ≫= λ l, l :: mlp_post self)
      ++ last :: (if MLP.self_activate_last_layer self then mlp_post self else []).
Proof.
  revert i. induction items as [|[_in _out] items IH]; intros i Hi Hne; [done|].
  rewrite mlp_blocks_cons. unfold len in Hi. cbn [length] in Hi.
  destruct items as [|item items].
  - eexists [], _. split; [reflexivity|].
    split; [repeat constructor; apply is_linear_mlp_linear|].
    cbn [mlp_blocks mbind list_bind app length] in *. rewrite app_nil_r.
    replace (i <? MLP.self_depth self) with false
      by (symmetry; apply Z.ltb_ge; lia).
    reflexivity.
  - destruct (IH (i + 1)) as (hidden & last & Hlen & Hlin & ->);
      [unfold len; cbn [length] in *; lia | done |].
    eexists (_ :: hidden), last. split; [cbn [length] in *; lia|].
    split; [constructor; [apply is_linear_mlp_linear | exact Hlin]|].
    replace (i <? MLP.self_depth self) with true
      by (symmetry; apply Z.ltb_lt; cbn [length] in Hi; lia).
    cbn [orb mbind list_bind app]. rewrite <- app_assoc. reflexivity.
Qed.

(** X5: a constructed [MLP] of depth [d] consists, in this order, of its [d]
    hidden linear layers, each directly followed by the dropout layer (when
    [dropout] is configured), the normalisation layer (when [norm_class] is
    configured) and the activation layer, and of its last linear layer,
    followed by the same layers exactly when [activate_last_layer] is set;
    hence the counts of the activation, dropout and normalisation layers. *)
Theorem X5_mlp_post_layer_counts (LazyMapping : gmap string pyclass)
    (raises : layer → option exn)
    (a : MLP.args) (net : MLP.t) :
  MLP.__init__ LazyMapping raises a = Ok net →
  let n := (Z.to_nat (MLP.self_depth net)
            + indicator (MLP.activate_last_layer a))%nat in
  let post :=
    match MLP.dropout a with Some p => [Dropout p] | None => [] end
    ++ match MLP.norm_class a with
       | Some nc => [Norm nc (default ∅ (MLP.norm_kwargs a))]
       | None => []
       end
    ++ [Activation (MLP.activation_class a) (default ∅ (MLP.activation_kwargs a))] in
  (∃ hidden last,
     length hidden = Z.to_nat (MLP.self_depth net) ∧
     Forall (λ l, is_linear l = true) (hidden ++ [last]) ∧
     MLP.modules net
     = (hidden ≫= λ l, l :: post)
       ++ last :: (if MLP.activate_last_layer a then post else [])) ∧
  count_layers is_activation (MLP.modules net) = n ∧
  count_layers is_dropout (MLP.modules net)
  = (n * indicator (bool_decide (is_Some (MLP.dropout a))))%nat ∧
  count_layers is_norm (MLP.modules net)
  = (n * indicator (bool_decide (is_Some (MLP.norm_class a))))%nat.
Proof.
  intros Hnet.
  apply MLP_init_Ok in Hnet as (o & cells & lz & _ & _ & _ & _ & ->).
  cbn [MLP.modules MLP.self_depth mlp_with_modules mlp_self].
  assert (∀ p, (∀ _in _out b, p (mlp_linear (mlp_self a o cells) lz _in _out b) = false) →
            count_layers p
              (mlp_blocks (mlp_self a o cells) lz 0
                 (zip (MLP.in_features a :: (Some <$> cells))
                    (cells ++ [MLP.self__out_features_num (mlp_self a o cells)])))
            = ((Z.to_nat (len cells) + indicator (MLP.activate_last_layer a))
               * count_layers p (mlp_post (mlp_self a o cells)))%nat) as Hcount.
  { intros p Hp. rewrite mlp_blocks_count_post; [| exact Hp | |].
    - rewrite length_mlp_items. cbn [MLP.self_activate_last_layer mlp_self].
      unfold len. rewrite Nat2Z.id. f_equal. lia.
    - cbn [MLP.self_depth mlp_self]. unfold len. rewrite length_mlp_items. lia.
    - intros Hnil. apply (f_equal length) in Hnil.
      rewrite length_mlp_items in Hnil. discriminate Hnil. }
  cbv zeta. split.
  - destruct (mlp_blocks_structure (mlp_self a o cells) lz 0
                (zip (MLP.in_features a :: (Some <$> cells))
                   (cells ++ [MLP.self__out_features_num (mlp_self a o cells)])))
      as (hidden & last & Hlen & Hlin & Hblocks).
    + cbn [MLP.self_depth mlp_self]. unfold len. rewrite length_mlp_items. lia.
    + intros Hnil. apply (f_equal length) in Hnil.
      rewrite length_mlp_items in Hnil. discriminate Hnil.
    + exists hidden, last. rewrite length_mlp_items in Hlen.
      split; [unfold len; rewrite Nat2Z.id; lia|].
      split; [exact Hlin|]. exact Hblocks.
  - rewrite !Hcount by (intros [i|] ? ?; reflexivity).
    unfold mlp_post. cbn [MLP.self_dropout MLP.self_norm_class mlp_self].
    destruct (MLP.dropout a), (MLP.norm_class a); cbn; repeat split; lia.
Qed.

Lemma X5_mlp_post_layer_counts_witness :
  ∃ net, MLP.__init__ LazyMapping_doc torch_raises mlp_full_args = Ok net ∧
    (∃ hidden last,
       length hidden = 2%nat ∧
       Forall (λ l, is_linear l = true) (hidden ++ [last]) ∧
       MLP.modules net
       = (hidden ≫= λ l,
            [l; Dropout 0.5%Q; Norm "LayerNorm" {["normalized_shape" := Number 4]};
             Activation "Tanh" ∅])
         ++ [last; Dropout 0.5%Q; Norm "LayerNorm" {["normalized_shape" := Number 4]};
             Activation "Tanh" ∅]) ∧
    count_layers is_activation (MLP.modules net) = 3%nat ∧
    count_layers is_dropout (MLP.modules net) = 3%nat ∧
    count_layers is_norm (MLP.modules net) = 3%nat.
Proof.
  destruct (MLP.__init__ LazyMapping_doc torch_raises mlp_full_args) as [net|e] eqn:H;
    [|vm_compute in H; discriminate H].
  exists net. split; [reflexivity|].
  pose proof (X5_mlp_post_layer_counts LazyMapping_doc torch_raises mlp_full_args
                net H) as Hx.
  vm_compute in H. injection H as <-. exact Hx.
Defined.

Lemma mlp_blocks_widths self lz i items :
  linear_out <$> List.filter is_linear (mlp_blocks self lz i items)
  = Some <$> (snd <$> items)
  ∧ linear_in <$> List.filter is_linear (mlp_blocks self lz i items)
    = fst <$> items.
Proof.
  revert i. induction items as [|[_in _out] items IH]; intros i; [split; reflexivity|].
  rewrite mlp_blocks_cons. cbn [List.filter].
  rewrite is_linear_mlp_linear, List.filter_app.
  assert (List.filter is_linear
            (if (i <? MLP.self_depth self) || MLP.self_activate_last_layer self
             then mlp_post self else []) = []) as ->
    by (destruct (_ || _); [apply filter_linear_mlp_post | reflexivity]).
  cbn [app fmap list_fmap]. destruct (IH (i + 1)) as [-> ->].
  split; destruct _in; reflexivity.
Qed.

(** X6: the widths of the linear layers of a constructed [MLP] chain from
    [in_features] through [num_cells] to the output width: the layers put out
    [num_cells] and then [_out_features_num]; they take in [in_features]
    (nothing fixed when it is absent: a lazy layer) and then [num_cells]. *)
Theorem X6_mlp_layer_widths (LazyMapping : gmap string pyclass)
    (raises : layer → option exn)
    (a : MLP.args) (net : MLP.t) :
  MLP.__init__ LazyMapping raises a = Ok net →
  linear_out <$> List.filter is_linear (MLP.modules net)
  = Some <$> (MLP.self_num_cells net ++ [MLP.self__out_features_num net]) ∧
  linear_in <$> List.filter is_linear (MLP.modules net)
  = MLP.in_features a :: (Some <$> MLP.self_num_cells net).
Proof.
  intros Hnet.
  apply MLP_init_Ok in Hnet as (o & cells & lz & _ & _ & _ & _ & ->).
  cbn [MLP.modules MLP.self_num_cells MLP.self__out_features_num
       mlp_with_modules mlp_self].
  destruct (mlp_blocks_widths (mlp_self a o cells) lz 0
              (zip (MLP.in_features a :: (Some <$> cells))
                 (cells ++ [match o with Number n => n | Sequence l => prod l end])))
    as [Hout Hin].
  cbn [MLP.self__out_features_num mlp_self] in *.
  rewrite Hout, Hin. split.
  - f_equal. apply snd_zip.
    cbn [length]. rewrite length_fmap, length_app. cbn [length]. lia.
  - apply fst_zip.
    cbn [length]. rewrite length_fmap, length_app. cbn [length]. lia.
Qed.

Lemma X6_mlp_layer_widths_witness :
  ∃ net, MLP.__init__ LazyMapping_doc torch_raises mlp_seq_args = Ok net ∧
         linear_out <$> List.filter is_linear (MLP.modules net)
         = [Some 32; Some 33; Some 34; Some 35; Some 6] ∧
         linear_in <$> List.filter is_linear (MLP.modules net)
         = [None; Some 32; Some 33; Some 34; Some 35].
Proof.
  eexists. split; [reflexivity|].
  exact (X6_mlp_layer_widths LazyMapping_doc torch_raises mlp_seq_args _ eq_refl).
Defined.

Lemma MLP_forward_inputs (inputs : list shape) (x : shape) :
  cat_last inputs = Ok x →
  (if 1 <? len inputs then x0 ← cat_last inputs; Ok [x0] else Ok inputs) = Ok [x].
Proof.
  intros Hcat. destruct inputs as [|y [|z inputs]].
  - discriminate Hcat.
  - cbn [cat_last] in Hcat. destruct (trailing y); [|discriminate].
    injection Hcat as ->. reflexivity.
  - replace (1 <? len (y :: z :: inputs)) with true
      by (symmetry; apply Z.ltb_lt; unfold len; cbn [length]; lia).
    rewrite Hcat. reflexivity.
Qed.

(** X7: [MLP.forward] on several tensors is [MLP.forward] on their
    concatenation along the last axis; when the tensors cannot be
    concatenated, the call fails with the error of the concatenation. *)
Theorem X7_mlp_forward_concatenates
    (framework_forward : layer → shape → result shape)
    (net : MLP.t) (inputs : list shape) :
  1 < len inputs →
  match cat_last inputs with
  | Ok x => MLP.forward framework_forward net inputs
            = MLP.forward framework_forward net [x]
  | Raise e => MLP.forward framework_forward net inputs = Raise e
  end.
Proof.
  intros Hlen. destruct (cat_last inputs) as [x|e] eqn:Hcat.
  - unfold MLP.forward. rewrite (MLP_forward_inputs _ _ Hcat). reflexivity.
  - unfold MLP.forward.
    replace (1 <? len inputs) with true by (symmetry; apply Z.ltb_lt; exact Hlen).
    rewrite Hcat. reflexivity.
Qed.

Lemma X7_mlp_forward_concatenates_witness :
  ∃ net,
    MLP.__init__ LazyMapping_doc torch_raises mlp_doc_args = Ok net ∧
    MLP.forward sample_framework_forward net [[4; 5; 2]; [4; 5; 1]]
    = MLP.forward sample_framework_forward net [[4; 5; 3]] ∧
    MLP.forward sample_framework_forward net [[4; 5; 2]; [4; 7; 1]]
    = Raise RuntimeError.
Proof.
  eexists. split; [reflexivity|]. split.
  - exact (X7_mlp_forward_concatenates sample_framework_forward _
             [[4; 5; 2]; [4; 5; 1]] eq_refl).
  - exact (X7_mlp_forward_concatenates sample_framework_forward _
             [[4; 5; 2]; [4; 7; 1]] eq_refl).
Defined.



(** ** The convolutional networks *)

Lemma conv_blocks_length mk ac akw nc nkw bll n i ins outs ks ss ps :
  (length ks ≤ length ins)%nat → (length ks ≤ length outs)%nat →
  length ss = length ks → length ps = length ks →
  length (conv_blocks mk (conv_post ac akw nc nkw) bll n i ins outs ks ss ps)
  = (length ks * (2 + indicator (bool_decide (is_Some nc))))%nat.
Proof.
  revert i ins outs ss ps.
  induction ks as [|k ks IH]; intros i ins outs ss ps Hi Ho Hs Hp.
  - destruct ins, outs, ss, ps; reflexivity.
  - destruct ins as [|x ins], outs as [|o outs], ss as [|s ss], ps as [|q ps];
      simpl in Hi, Ho, Hs, Hp; try lia.
    rewrite conv_blocks_cons, !length_app, IH by lia.
    unfold conv_post. destruct nc; cbn; lia.
Qed.

Lemma conv_blocks_channels mk ac akw nc nkw bll n i ins outs ks ss ps :
  (∀ i o k s b p, is_conv (mk i o k s b p) = true) →
  (∀ i o k s b p, conv_out (mk i o k s b p) = Some o) →
  (∀ i o k s b p, conv_in (mk i o k s b p) = i) →
  (length ks ≤ length ins)%nat → (length ks ≤ length outs)%nat →
  length ss = length ks → length ps = length ks →
  conv_out <$> List.filter is_conv
                 (conv_blocks mk (conv_post ac akw nc nkw) bll n i ins outs ks ss ps)
  = Some <$> take (length ks) outs
  ∧ conv_in <$> List.filter is_conv
                  (conv_blocks mk (conv_post ac akw nc nkw) bll n i ins outs ks ss ps)
    = take (length ks) ins.
Proof.
  intros Hconv Hout Hin. revert i ins outs ss ps.
  induction ks as [|k ks IH]; intros i ins outs ss ps Hi Ho Hs Hp.
  - destruct ins, outs, ss, ps; split; reflexivity.
  - destruct ins as [|x ins], outs as [|o outs], ss as [|s ss], ps as [|q ps];
      simpl in Hi, Ho, Hs, Hp; try lia.
    rewrite conv_blocks_cons, !List.filter_app.
    assert (List.filter is_conv (conv_post ac akw nc nkw) = []) as ->
      by (unfold conv_post; destruct nc; reflexivity).
    cbn [List.filter app]. rewrite Hconv.
    destruct (IH (i + 1) ins outs ss ps) as [IH1 IH2]; try lia.
    cbn [app fmap list_fmap take length].
    change (list_fmap layer (option Z) conv_out ?l) with (conv_out <$> l).
    change (list_fmap layer (option Z) conv_in ?l) with (conv_in <$> l).
    rewrite IH1, IH2, Hout, Hin. split; reflexivity.
Qed.

Lemma length_conv_tail ac akw sq squeeze :
  length (conv_tail ac akw sq squeeze)
  = (indicator (bool_decide (is_Some ac)) + indicator sq)%nat.
Proof. unfold conv_tail. destruct ac, sq; reflexivity. Qed.

Lemma filter_conv_tail ac akw sq squeeze :
  is_conv squeeze = false → List.filter is_conv (conv_tail ac akw sq squeeze) = [].
Proof.
  intros H. unfold conv_tail. destruct ac, sq; cbn; rewrite ?H; reflexivity.
Qed.

(** The blocks of the loop, as a list: each convolution with what follows
    it. *)
Lemma conv_blocks_structure mk ac akw nc nkw bll n i ins outs ks ss ps :
  (∀ i o k s b p, is_conv (mk i o k s b p) = true) →
  (length ks ≤ length ins)%nat → (length ks ≤ length outs)%nat →
  length ss = length ks → length ps = length ks →
  ∃ convs,
    length convs = length ks ∧
    Forall (λ c, is_conv c = true) convs ∧
    conv_blocks mk (conv_post ac akw nc nkw) bll n i ins outs ks ss ps
    = convs ≫= λ c, c :: conv_post ac akw nc nkw.
Proof.
  intros Hconv. revert i ins outs ss ps.
  induction ks as [|k ks IH]; intros i ins outs ss ps Hi Ho Hs Hp.
  - exists []. destruct ins, outs, ss, ps; repeat split; constructor.
  - destruct ins as [|x ins], outs as [|o outs], ss as [|s ss], ps as [|q ps];
      simpl in Hi, Ho, Hs, Hp; try lia.
    destruct (IH (i + 1) ins outs ss ps) as (convs & Hlen & Hall & Heq); try lia.
    eexists (_ :: convs). split; [cbn [length]; rewrite Hlen; reflexivity|].
    split; [constructor; [apply Hconv | exact Hall]|].
    rewrite conv_blocks_cons, Heq. reflexivity.
Qed.

(** X9: a constructed [ConvNet] or [Conv3dNet] of depth [d] consists, in this
    order, of [d] convolutions, each directly followed by the activation
    layer and then (when [norm_class] is configured) by the normalisation
    layer, then of the aggregator (when [aggregator_class] is not [None]) and
    of the squeeze layer (when [squeeze_output] is set), and of nothing else;
    hence the number of its modules. *)
Theorem X9_conv_module_count
    (fd : option Z → arg Z → arg (arg Z) → arg (arg Z) → arg (arg Z) → result Z)
    (raises : layer → option exn) :
  (∀ a net, ConvNet.__init__ fd raises a = Ok net →
     (∃ convs,
        length convs = Z.to_nat (ConvNet.self_depth net) ∧
        Forall (λ c, is_conv c = true) convs ∧
        ConvNet.modules net
        = (convs ≫= λ c,
             c :: Activation (ConvNet.activation_class a)
                    (default ∅ (ConvNet.activation_kwargs a))
               :: match ConvNet.norm_class a with
                  | Some nc => [Norm nc (default ∅ (ConvNet.norm_kwargs a))]
                  | None => []
                  end)
          ++ match ConvNet.aggregator_class a with
             | Some ac =>
               [Aggregator ac
                  (default {["ndims_in" := Number 3]} (ConvNet.aggregator_kwargs a))]
             | None => []
             end
          ++ (if ConvNet.squeeze_output a then [Squeeze2dLayer] else [])) ∧
     length (ConvNet.modules net)
     = (Z.to_nat (ConvNet.self_depth net)
          * (2 + indicator (bool_decide (is_Some (ConvNet.norm_class a))))
        + indicator (bool_decide (is_Some (ConvNet.aggregator_class a)))
        + indicator (ConvNet.squeeze_output a))%nat) ∧
  (∀ a net, Conv3dNet.__init__ fd raises a = Ok net →
     (∃ convs,
        length convs = Z.to_nat (Conv3dNet.self_depth net) ∧
        Forall (λ c, is_conv c = true) convs ∧
        Conv3dNet.modules net
        = (convs ≫= λ c,
             c :: Activation (Conv3dNet.activation_class a)
                    (default ∅ (Conv3dNet.activation_kwargs a))
               :: match Conv3dNet.norm_class a with
                  | Some nc => [Norm nc (default ∅ (Conv3dNet.norm_kwargs a))]
                  | None => []
                  end)
          ++ match Conv3dNet.aggregator_class a with
             | Some ac =>
               [Aggregator ac
                  (default {["ndims_in" := Number 4]} (Conv3dNet.aggregator_kwargs a))]
             | None => []
             end
          ++ (if Conv3dNet.squeeze_output a then [SqueezeLayer [-3; -2; -1]] else [])) ∧
     length (Conv3dNet.modules net)
     = (Z.to_nat (Conv3dNet.self_depth net)
          * (2 + indicator (bool_decide (is_Some (Conv3dNet.norm_class a))))
        + indicator (bool_decide (is_Some (Conv3dNet.aggregator_class a)))
        + indicator (Conv3dNet.squeeze_output a))%nat).
Proof.
  split; intros a net H.
  - destruct (ConvNet_init_Ok _ _ _ _ H)
      as (d & cells & ks & ss & ps & out & _ & _ & Hc & Hk & Hs & Hp & _ & _ & _ & _ & Hd & ->).
    assert (length ks ≤ length (ConvNet.in_features a :: (Some <$> cells)))%nat as H1
      by (cbn [length]; rewrite length_fmap; unfold len in *; lia).
    assert (length ks ≤ length (cells ++ [out]))%nat as H2
      by (rewrite length_app; unfold len in *; lia).
    assert (length ss = length ks) as H3 by (apply len_length; congruence).
    assert (length ps = length ks) as H4 by (apply len_length; congruence).
    split.
    + destruct (conv_blocks_structure mk_conv2d
                  (ConvNet.activation_class a) (default ∅ (ConvNet.activation_kwargs a))
                  (ConvNet.norm_class a) (default ∅ (ConvNet.norm_kwargs a))
                  (ConvNet.bias_last_layer a) (d + 1) 0 _ _ ks ss ps
                  mk_conv2d_is_conv H1 H2 H3 H4) as (convs & Hlen & Hall & ->).
      exists convs. split; [rewrite Hlen, Hd, <- Hk; unfold len; lia|].
      split; [exact Hall | reflexivity].
    + rewrite length_app, length_conv_tail, conv_blocks_length by assumption.
      rewrite Hd, <- Hk. unfold len. rewrite Nat2Z.id. lia.
  - destruct (Conv3dNet_init_Ok _ _ _ _ H)
      as (d & cells & ks & ss & ps & out & _ & _ & Hc & Hk & Hs & Hp & _ & _ & _ & _ & Hd & ->).
    assert (length ks ≤ length (Conv3dNet.in_features a :: (Some <$> cells)))%nat as H1
      by (cbn [length]; rewrite length_fmap; unfold len in *; lia).
    assert (length ks ≤ length (cells ++ [out]))%nat as H2
      by (rewrite length_app; unfold len in *; lia).
    assert (length ss = length ks) as H3 by (apply len_length; congruence).
    assert (length ps = length ks) as H4 by (apply len_length; congruence).
    split.
    + destruct (conv_blocks_structure mk_conv3d
                  (Conv3dNet.activation_class a) (default ∅ (Conv3dNet.activation_kwargs a))
                  (Conv3dNet.norm_class a) (default ∅ (Conv3dNet.norm_kwargs a))
                  (Conv3dNet.bias_last_layer a) (d + 1) 0 _ _ ks ss ps
                  mk_conv3d_is_conv H1 H2 H3 H4) as (convs & Hlen & Hall & ->).
      exists convs. split; [rewrite Hlen, Hd, <- Hk; unfold len; lia|].
      split; [exact Hall | reflexivity].
    + rewrite length_app, length_conv_tail, conv_blocks_length by assumption.
      rewrite Hd, <- Hk. unfold len. rewrite Nat2Z.id. lia.
Qed.

Lemma X9_conv_module_count_witness :
  ∃ net net3,
    ConvNet.__init__ _find_depth torch_raises cnet_norm_args = Ok net ∧
    Conv3dNet.__init__ _find_depth torch_raises (cnet3d_args 2 (Number 1)) = Ok net3 ∧
    (∃ convs,
       length convs = 1%nat ∧ Forall (λ c, is_conv c = true) convs ∧
       ConvNet.modules net
       = (convs ≫= λ c,
            [c; Activation "ELU" ∅;
             Norm "BatchNorm2d" {["num_features" := Number 32]}])
         ++ [Aggregator "SquashDims" {["ndims_in" := Number 3]}] ++ []) ∧
    length (ConvNet.modules net) = 4%nat ∧
    length (Conv3dNet.modules net3) = 5%nat.
Proof.
  destruct (ConvNet.__init__ _find_depth torch_raises cnet_norm_args)
    as [net|e] eqn:H; [|vm_compute in H; discriminate H].
  destruct (Conv3dNet.__init__ _find_depth torch_raises (cnet3d_args 2 (Number 1)))
    as [net3|e] eqn:H3; [|vm_compute in H3; discriminate H3].
  exists net, net3. split; [reflexivity|]. split; [reflexivity|].
  pose proof (proj1 (X9_conv_module_count _find_depth torch_raises)
                cnet_norm_args net H) as [Hs Hl].
  pose proof (proj2 (proj2 (X9_conv_module_count _find_depth torch_raises)
                       (cnet3d_args 2 (Number 1)) net3 H3)) as Hl3.
  vm_compute in H. injection H as <-.
  vm_compute in H3. injection H3 as <-.
  split; [exact Hs|]. split; [exact Hl | exact Hl3].
Defined.

(** The attributes of a constructed [ConvNet], next to its layers. *)
Lemma ConvNet_init_fields fd raises a net :
  ConvNet.__init__ fd raises a = Ok net →
  let cells := ConvNet.self_num_cells net in
  let d := ConvNet.self_depth net in
  fd (ConvNet.depth a) (default (Sequence [32; 32; 32]) (ConvNet.num_cells a))
    (ConvNet.kernel_sizes a) (ConvNet.strides a) (ConvNet.paddings a) = Ok d ∧
  cells = match default (Sequence [32; 32; 32]) (ConvNet.num_cells a) with
          | Sequence l => l
          | Number n => py_repeat n d
          end ∧
  len cells = d ∧ len (ConvNet.self_kernel_sizes net) = d ∧
  len (ConvNet.self_strides net) = d ∧ len (ConvNet.self_paddings net) = d ∧
  last cells = Some (ConvNet.self_out_features net) ∧
  ConvNet.modules net =
    conv_blocks mk_conv2d
      (conv_post (ConvNet.activation_class a) (default ∅ (ConvNet.activation_kwargs a))
         (ConvNet.norm_class a) (default ∅ (ConvNet.norm_kwargs a)))
      (ConvNet.bias_last_layer a) (d + 1) 0
      (ConvNet.in_features a :: (Some <$> cells))
      (cells ++ [ConvNet.self_out_features net])
      (ConvNet.self_kernel_sizes net) (ConvNet.self_strides net)
      (ConvNet.self_paddings net)
    ++ conv_tail (ConvNet.aggregator_class a)
         (default {["ndims_in" := Number 3]} (ConvNet.aggregator_kwargs a))
         (ConvNet.squeeze_output a) Squeeze2dLayer.
Proof.
  intros H.
  apply ConvNet_init_layers in H
    as (d & Hfd & Hd & Hc & Hk & Hs & Hp & Hdepth & Hm & _ & Hcells & Hks & Hss
        & Hps & Hout).
  cbv zeta. rewrite Hdepth, Hcells, Hks, Hss, Hps, Hout, Hm.
  rewrite !len_per_layer by (assumption || lia).
  repeat split; try assumption; try reflexivity.
  destruct (py_last_Ok (per_layer id (default (Sequence [32; 32; 32]) (ConvNet.num_cells a)) d)) as [out Eo];
    [rewrite len_per_layer by (assumption || lia); lia|].
  unfold py_last in Eo. destruct (last _); [reflexivity | discriminate Eo].
Qed.

Lemma Conv3dNet_init_fields fd raises a net :
  Conv3dNet.__init__ fd raises a = Ok net →
  let cells := Conv3dNet.self_num_cells net in
  let d := Conv3dNet.self_depth net in
  let num_cells :=
    match Conv3dNet.num_cells a with
    | None =>
      match Conv3dNet.depth a with
      | None => Sequence [32; 32; 32]
      | Some depth => Sequence (py_repeat 32 depth)
      end
    | Some num_cells => num_cells
    end in
  fd (Conv3dNet.depth a) num_cells
    (Conv3dNet.kernel_sizes a) (Conv3dNet.strides a) (Conv3dNet.paddings a) = Ok d ∧
  cells = match num_cells with
          | Sequence l => l
          | Number n => py_repeat n d
          end ∧
  len cells = d ∧ len (Conv3dNet.self_kernel_sizes net) = d ∧
  len (Conv3dNet.self_strides net) = d ∧ len (Conv3dNet.self_paddings net) = d ∧
  last cells = Some (Conv3dNet.self_out_features net) ∧
  Conv3dNet.modules net =
    conv_blocks mk_conv3d
      (conv_post (Conv3dNet.activation_class a)
         (default ∅ (Conv3dNet.activation_kwargs a))
         (Conv3dNet.norm_class a) (default ∅ (Conv3dNet.norm_kwargs a)))
      (Conv3dNet.bias_last_layer a) (d + 1) 0
      (Conv3dNet.in_features a :: (Some <$> cells))
      (cells ++ [Conv3dNet.self_out_features net])
      (Conv3dNet.self_kernel_sizes net) (Conv3dNet.self_strides net)
      (Conv3dNet.self_paddings net)
    ++ conv_tail (Conv3dNet.aggregator_class a)
         (default {["ndims_in" := Number 4]} (Conv3dNet.aggregator_kwargs a))
         (Conv3dNet.squeeze_output a) (SqueezeLayer [-3; -2; -1]).
Proof.
  intros H.
  apply Conv3dNet_init_layers in H
    as (d & Hfd & Hd & Hc & Hk & Hs & Hp & Hdepth & Hm & _ & Hcells & Hks & Hss
        & Hps & Hout).
  cbv zeta. rewrite Hdepth, Hcells, Hks, Hss, Hps, Hout, Hm.
  rewrite !len_per_layer by (assumption || lia).
  repeat split; try assumption; try reflexivity.
  destruct (py_last_Ok (per_layer id (match Conv3dNet.num_cells a with
       | None =>
         match Conv3dNet.depth a with
         | None => Sequence [32; 32; 32]
         | Some depth => Sequence (py_repeat 32 depth)
         end
       | Some num_cells => num_cells
       end) d)) as [out Eo];
    [rewrite len_per_layer by (assumption || lia); lia|].
  unfold py_last in Eo. destruct (last _); [reflexivity | discriminate Eo].
Qed.

Lemma conv_out_mk_conv2d i o k s b p : conv_out (mk_conv2d i o k s b p) = Some o.
Proof. destruct i; reflexivity. Qed.

Lemma conv_in_mk_conv2d i o k s b p : conv_in (mk_conv2d i o k s b p) = i.
Proof. destruct i; reflexivity. Qed.

Lemma conv_out_mk_conv3d i o k s b p : conv_out (mk_conv3d i o k s b p) = Some o.
Proof. destruct i; reflexivity. Qed.

Lemma conv_in_mk_conv3d i o k s b p : conv_in (mk_conv3d i o k s b p) = i.
Proof. destruct i; reflexivity. Qed.

Lemma take_len_app {A} (cells : list A) (ks : list (arg Z)) (x : A) :
  len cells = len ks → take (length ks) (cells ++ [x]) = cells.
Proof.
  intros H. apply len_length in H. rewrite <- H. apply take_app_length.
Qed.

(** X10: the channels of a constructed [ConvNet] or [Conv3dNet] chain from
    [in_features] through [num_cells]: the convolutions put out [num_cells],
    they take in [in_features] (nothing fixed when it is absent: a lazy
    convolution) and then [num_cells] without its last entry; the
    [out_features] attribute is the last entry of [num_cells]. *)
Theorem X10_conv_channels
    (fd : option Z → arg Z → arg (arg Z) → arg (arg Z) → arg (arg Z) → result Z)
    (raises : layer → option exn) :
  (∀ a net, ConvNet.__init__ fd raises a = Ok net →
     conv_out <$> List.filter is_conv (ConvNet.modules net)
     = Some <$> ConvNet.self_num_cells net ∧
     conv_in <$> List.filter is_conv (ConvNet.modules net)
     = take (length (ConvNet.self_num_cells net))
         (ConvNet.in_features a :: (Some <$> ConvNet.self_num_cells net)) ∧
     last (ConvNet.self_num_cells net) = Some (ConvNet.self_out_features net)) ∧
  (∀ a net, Conv3dNet.__init__ fd raises a = Ok net →
     conv_out <$> List.filter is_conv (Conv3dNet.modules net)
     = Some <$> Conv3dNet.self_num_cells net ∧
     conv_in <$> List.filter is_conv (Conv3dNet.modules net)
     = take (length (Conv3dNet.self_num_cells net))
         (Conv3dNet.in_features a :: (Some <$> Conv3dNet.self_num_cells net)) ∧
     last (Conv3dNet.self_num_cells net) = Some (Conv3dNet.self_out_features net)).
Proof.
  split; intros a net H.
  - destruct (ConvNet_init_fields _ _ _ _ H) as (_ & _ & Hc & Hk & Hs & Hp & Hlast & Hm).
    rewrite Hm, List.filter_app, filter_conv_tail, app_nil_r by reflexivity.
    destruct (conv_blocks_channels mk_conv2d
                (ConvNet.activation_class a) (default ∅ (ConvNet.activation_kwargs a))
                (ConvNet.norm_class a) (default ∅ (ConvNet.norm_kwargs a))
                (ConvNet.bias_last_layer a) (ConvNet.self_depth net + 1) 0
                (ConvNet.in_features a :: (Some <$> ConvNet.self_num_cells net))
                (ConvNet.self_num_cells net ++ [ConvNet.self_out_features net])
                (ConvNet.self_kernel_sizes net) (ConvNet.self_strides net)
                (ConvNet.self_paddings net)) as [Hout Hin].
    + apply mk_conv2d_is_conv.
    + apply conv_out_mk_conv2d.
    + apply conv_in_mk_conv2d.
    + cbn [length]. rewrite length_fmap. unfold len in *. lia.
    + rewrite length_app. unfold len in *. lia.
    + apply len_length. congruence.
    + apply len_length. congruence.
    + rewrite Hout, Hin, take_len_app by congruence.
      replace (length (ConvNet.self_kernel_sizes net))
        with (length (ConvNet.self_num_cells net)) by (apply len_length; congruence).
      auto.
  - destruct (Conv3dNet_init_fields _ _ _ _ H) as (_ & _ & Hc & Hk & Hs & Hp & Hlast & Hm).
    rewrite Hm, List.filter_app, filter_conv_tail, app_nil_r by reflexivity.
    destruct (conv_blocks_channels mk_conv3d
                (Conv3dNet.activation_class a)
                (default ∅ (Conv3dNet.activation_kwargs a))
                (Conv3dNet.norm_class a) (default ∅ (Conv3dNet.norm_kwargs a))
                (Conv3dNet.bias_last_layer a) (Conv3dNet.self_depth net + 1) 0
                (Conv3dNet.in_features a :: (Some <$> Conv3dNet.self_num_cells net))
                (Conv3dNet.self_num_cells net ++ [Conv3dNet.self_out_features net])
                (Conv3dNet.self_kernel_sizes net) (Conv3dNet.self_strides net)
                (Conv3dNet.self_paddings net)) as [Hout Hin].
    + apply mk_conv3d_is_conv.
    + apply conv_out_mk_conv3d.
    + apply conv_in_mk_conv3d.
    + cbn [length]. rewrite length_fmap. unfold len in *. lia.
    + rewrite length_app. unfold len in *. lia.
    + apply len_length. congruence.
    + apply len_length. congruence.
    + rewrite Hout, Hin, take_len_app by congruence.
      replace (length (Conv3dNet.self_kernel_sizes net))
        with (length (Conv3dNet.self_num_cells net)) by (apply len_length; congruence).
      auto.
Qed.

Lemma X10_conv_channels_witness :
  ∃ net,
    ConvNet.__init__ _find_depth torch_raises cnet_doc_args = Ok net ∧
    conv_out <$> List.filter is_conv (ConvNet.modules net)
    = [Some 32; Some 33; Some 34; Some 35] ∧
    conv_in <$> List.filter is_conv (ConvNet.modules net)
    = [Some 3; Some 32; Some 33; Some 34] ∧
    ConvNet.self_out_features net = 35.
Proof.
  eexists. split; [reflexivity|].
  destruct (proj1 (X10_conv_channels _find_depth torch_raises) cnet_doc_args _ eq_refl)
    as (H1 & H2 & H3).
  split; [exact H1|]. split; [exact H2|]. reflexivity.
Defined.

(** X11: with an explicit [depth] and no [num_cells], [Conv3dNet] uses
    [depth] convolutions of 32 channels (it is built when the constructors
    of its layers accept their arguments), whereas [ConvNet] keeps its
    default of three and so raises a configuration error for any other
    depth. *)
Theorem X11_conv_default_cells_with_depth
    (fd : option Z → arg Z → arg (arg Z) → arg (arg Z) → arg (arg Z) → result Z)
    (raises : layer → option exn)
    (Hfd : find_depth_contract fd) :
  (∀ a d, ConvNet.num_cells a = None → ConvNet.depth a = Some d → d ≠ 3 →
     ∃ e, ConvNet.__init__ fd raises a = Raise e ∧ ConfigurationError e = true) ∧
  (∀ a d, Conv3dNet.num_cells a = None → Conv3dNet.depth a = Some d → 0 < d →
     matches_depth (Conv3dNet.kernel_sizes a) d →
     matches_depth (Conv3dNet.strides a) d →
     matches_depth (Conv3dNet.paddings a) d →
     accepts raises (Conv3dNet_layers a d) →
     ∃ net, Conv3dNet.__init__ fd raises a = Ok net ∧
       Conv3dNet.self_depth net = d ∧
       Conv3dNet.self_num_cells net = py_repeat 32 d ∧
       Conv3dNet.modules net = Conv3dNet_layers a d).
Proof.
  destruct Hfd as (Hfd1 & Hfd2 & Hfd3). split.
  - intros a d Hnc Hd Hne.
    destruct (ConvNet.__init__ fd raises a) as [net|e] eqn:H.
    + exfalso.
      destruct (ConvNet_init_Ok _ _ _ _ H)
        as (d' & _ & _ & _ & _ & _ & Hfind & _ & _ & _ & _ & _ & Hc & _).
      rewrite Hd in Hfind. apply Hfd1 in Hfind. subst d'.
      rewrite Hnc in Hc. specialize (Hc [32; 32; 32] eq_refl).
      apply Hne. symmetry. exact Hc.
    + exists e. split; [reflexivity|].
      apply ConvNet_init_Raise in H
        as [H | [-> | [-> | (d' & Hfind & _ & Hc & _)]]];
        try reflexivity; [eapply Hfd3, H|].
      exfalso. rewrite Hd in Hfind. apply Hfd1 in Hfind. subst d'.
      rewrite Hnc in Hc. specialize (Hc [32; 32; 32] eq_refl).
      apply Hne. symmetry. exact Hc.
  - intros a d Hnc Hd Hpos Hk Hs Hp Hacc.
    assert (matches_depth
              (match Conv3dNet.num_cells a with
               | None =>
                 match Conv3dNet.depth a with
                 | None => Sequence [32; 32; 32]
                 | Some depth => Sequence (py_repeat 32 depth)
                 end
               | Some num_cells => num_cells
               end) d) as Hc.
    { rewrite Hnc, Hd. intros l [= <-]. rewrite len_py_repeat. lia. }
    pose proof (Hfd2 d _ _ _ _ Hc Hk Hs Hp) as Hfind. rewrite <- Hd in Hfind.
    destruct (Conv3dNet_init_success fd raises a d Hfind Hpos Hc Hk Hs Hp Hacc)
      as (net & Hnet & Hmods).
    exists net. split; [exact Hnet|].
    destruct (Conv3dNet_init_fields _ _ _ _ Hnet) as (Hfind' & Hcells & _).
    rewrite Hfind in Hfind'. injection Hfind' as Hdepth.
    split; [congruence|]. split; [|exact Hmods].
    rewrite Hcells, Hnc, Hd. reflexivity.
Qed.

Lemma X11_conv_default_cells_with_depth_witness :
  (∃ e, ConvNet.__init__ _find_depth torch_raises
          (ConvNet.bind_args
             (ConvNet.Kw None (Some (Some 2)) None None None None None None None
                None None None None None)) = Raise e ∧
        ConfigurationError e = true) ∧
  (∃ net, Conv3dNet.__init__ _find_depth torch_raises (cnet3d_args 2 (Number 1)) = Ok net ∧
          Conv3dNet.self_depth net = 2 ∧ Conv3dNet.self_num_cells net = [32; 32] ∧
          Conv3dNet.modules net = Conv3dNet_layers (cnet3d_args 2 (Number 1)) 2).
Proof.
  destruct (X11_conv_default_cells_with_depth _find_depth torch_raises _find_depth_contract)
    as [H1 H2].
  split.
  - apply (H1 _ 2); [reflexivity | reflexivity | lia].
  - apply (H2 (cnet3d_args 2 (Number 1)) 2); try reflexivity; try lia;
      first [intros l Hl; discriminate Hl | repeat constructor].
Defined.

(** ** The last-layer initialiser and the composites *)

Lemma find_split {A} (f : A → bool) (l : list A) :
  match List.find f l with
  | Some x => ∃ a b, l = a ++ x :: b ∧ f x = true ∧ Forall (λ y, f y = false) a
  | None => Forall (λ y, f y = false) l
  end.
Proof.
  induction l as [|y l IH]; cbn [List.find]; [constructor|].
  destruct (f y) eqn:Hy.
  - exists [], l. repeat split; [exact Hy | constructor].
  - destruct (List.find f l) as [x|].
    + destruct IH as (a & b & -> & Hx & Ha).
      exists (y :: a), b. repeat split; [exact Hx | constructor; assumption].
    + constructor; assumption.
Qed.

(** X12: the module [ddpg_init_last_layer] works on is the last one, in the
    order of the network, that is an [nn.Linear] or an [nn.Conv2d]: every
    module behind it is of another kind (an activation, a dropout, a 3D
    convolution, ...); none is found exactly when the network has no such
    module. *)
Theorem X12_find_last_layer_is_last (h : list module_obj) (module : list nat) :
  match find_last_layer h module with
  | Some loc =>
    ∃ before behind,
      module = before ++ loc :: behind ∧
      holds_Linear_Conv2d h loc = true ∧
      Forall (λ l, holds_Linear_Conv2d h l = false) behind
  | None => Forall (λ l, holds_Linear_Conv2d h l = false) module
  end.
Proof.
  unfold find_last_layer.
  pose proof (find_split (holds_Linear_Conv2d h) (reverse module)) as H.
  change (λ loc, from_option (λ o, isinstance_Linear_Conv2d (descr o)) false (h !! loc))
    with (holds_Linear_Conv2d h).
  destruct (List.find (holds_Linear_Conv2d h) (reverse module)) as [loc|].
  - destruct H as (a & b & Hrev & Hloc & Ha).
    exists (reverse b), (reverse a). repeat split; [|exact Hloc|].
    + apply (f_equal reverse) in Hrev.
      rewrite reverse_involutive, reverse_app, reverse_cons, <- app_assoc in Hrev.
      exact Hrev.
    + apply Forall_reverse. exact Ha.
  - apply Forall_reverse in H. rewrite reverse_involutive in H. exact H.
Qed.

(** A new module is registered at the next position of the heap; its
    parameters are new tensors, behind those that exist. *)
Lemma new_module_alloc l w r w' :
  new_module l w = (r, w') →
  r = Ok (length (heap w)) ∧
  ∃ o ts, heap w' = heap w ++ [o] ∧ tensors w' = tensors w ++ ts ∧ descr o = l ∧
    ∀ t, t ∈ parameters o →
      (length (tensors w) ≤ t < length (tensors w ++ ts))%nat.
Proof.
  destruct l;
    unfold new_module, new_param, new_bias, new_lazy_bias, bindM, draw, retM,
      alloc, alloc_tensor;
    repeat match goal with |- context [if ?b then _ else _] => destruct b end;
    cbn [heap tensors]; intros [= <- <-]; cbn [heap tensors];
    (split; [reflexivity|]);
    eexists _, _;
    (split; [reflexivity|]);
    (split; [first [symmetry; apply app_nil_r | rewrite <- ?app_assoc; reflexivity]|]);
    (split; [reflexivity|]);
    intros t Ht; unfold parameters in Ht; cbn in Ht;
    rewrite ?length_app; cbn [length];
    set_unfold; intuition (subst; rewrite ?length_app; cbn [length]; lia).
Qed.

Lemma nn_Sequential_alloc layers w r w' :
  nn_Sequential layers w = (r, w') →
  r = Ok (seq (length (heap w)) (length layers)) ∧
  ∃ objs ts, heap w' = heap w ++ objs ∧ tensors w' = tensors w ++ ts ∧
    descr <$> objs = layers ∧
    Forall (λ o, ∀ t, t ∈ parameters o →
                   (length (tensors w) ≤ t < length (tensors w ++ ts))%nat) objs.
Proof.
  revert w r w'. induction layers as [|l layers IH]; intros w r w' H.
  - injection H as <- <-. split; [reflexivity|]. exists [], [].
    rewrite !app_nil_r. repeat split; constructor.
  - cbn [nn_Sequential] in H.
    apply bindM_inv in H as [(loc & w1 & H1 & H) | (e & H1 & _)].
    2:{ apply new_module_alloc in H1 as [H1 _]. discriminate H1. }
    apply new_module_alloc in H1 as [[= ->] (o & ts1 & Hh1 & Ht1 & Ho & Hp1)].
    apply bindM_inv in H as [(locs & w2 & H2 & H) | (e & H2 & _)].
    2:{ apply IH in H2 as [H2 _]. discriminate H2. }
    apply IH in H2 as [[= ->] (objs & ts2 & Hh2 & Ht2 & Hobjs & Hp2)].
    injection H as <- <-. rewrite Hh1, Ht1 in *. split.
    + cbn [length seq]. rewrite length_app. cbn [length].
      do 3 f_equal. lia.
    + exists (o :: objs), (ts1 ++ ts2). rewrite Hh2, Ht2, <- !app_assoc.
      split; [reflexivity|]. split; [reflexivity|].
      split; [rewrite fmap_cons; congruence|].
      constructor.
      * intros t Ht. specialize (Hp1 t Ht). rewrite !length_app in *. lia.
      * eapply Forall_impl; [exact Hp2|]. cbn beta. intros o' Ho' t Ht.
        specialize (Ho' t Ht). rewrite !length_app in *. lia.
Qed.

Lemma new_MLP_alloc LM raises k w mlp w' :
  new_MLP LM raises k w = (Ok mlp, w') →
  MLP.__init__ LM raises (MLP.bind_args k) = Ok (fst mlp) ∧
  registers (MLP.modules (fst mlp)) (snd mlp) w w'.
Proof.
  unfold new_MLP. intros H.
  apply bindM_Ok in H as (net & w1 & Hnet & H). injection Hnet as Hnet <-.
  apply bindM_Ok in H as (locs & w2 & Hlocs & H). injection H as <- <-.
  apply nn_Sequential_alloc in Hlocs as [[= ->] Hobjs].
  split; [exact Hnet|]. split; [reflexivity | exact Hobjs].
Qed.

Lemma new_ConvNet_alloc fd raises k w convnet w' :
  new_ConvNet fd raises k w = (Ok convnet, w') →
  ConvNet.__init__ fd raises (ConvNet.bind_args k) = Ok (fst convnet) ∧
  registers (ConvNet.modules (fst convnet)) (snd convnet) w w'.
Proof.
  unfold new_ConvNet. intros H.
  apply bindM_Ok in H as (net & w1 & Hnet & H). injection Hnet as Hnet <-.
  apply bindM_Ok in H as (locs & w2 & Hlocs & H). injection H as <- <-.
  apply nn_Sequential_alloc in Hlocs as [[= ->] Hobjs].
  split; [exact Hnet|]. split; [reflexivity | exact Hobjs].
Qed.

(** The module at a registered position, and where its parameters are. *)
Lemma registers_lookup layers locs w w' loc :
  registers layers locs w w' → loc ∈ locs →
  ∃ o, heap w' !! loc = Some o ∧
    ∀ t, t ∈ parameters o →
      (length (tensors w) ≤ t < length (tensors w'))%nat.
Proof.
  intros (-> & objs & ts & Hh & Ht & Hd & Hp) Hloc.
  apply elem_of_seq in Hloc as [Hge Hlt].
  assert (length objs = length layers) as Hlen by (rewrite <- Hd, length_fmap; reflexivity).
  destruct (lookup_lt_is_Some_2 objs (loc - length (heap w))) as [o Ho]; [lia|].
  exists o. split.
  - rewrite Hh, lookup_app_r by lia. exact Ho.
  - rewrite Ht. rewrite Forall_forall in Hp. apply Hp.
    eapply list_elem_of_lookup_2. exact Ho.
Qed.

(** The initialiser changes no module object, and no tensor in front of the
    parameters of the modules of the network it is given. *)
Lemma ddpg_init_last_layer_heap module scale w r w' :
  ddpg_init_last_layer module scale w = (r, w') →
  heap w' = heap w ∧
  ∀ n, (∀ loc o t, loc ∈ module → heap w !! loc = Some o → t ∈ parameters o →
          (n ≤ t)%nat) →
       take n (tensors w') = take n (tensors w).
Proof.
  intros H. apply ddpg_init_last_layer_cases in H as (Hh & _ & Hlen & H).
  split; [exact Hh|]. intros n Hn.
  destruct (find_last_layer (heap w) module) as [loc|] eqn:Hfind;
    [|destruct H as [_ ->]; reflexivity].
  destruct H as (o & Hloc & Hframe & _).
  assert (loc ∈ module) as Hin.
  { unfold find_last_layer in Hfind. apply List.find_some in Hfind as [Hin _].
    apply list_elem_of_In in Hin. apply elem_of_reverse. exact Hin. }
  apply list_eq. intros i. rewrite !lookup_take.
  destruct (decide (i < n)%nat) as [Hi|Hi]; [|reflexivity].
  apply Hframe; intros Heq.
  - specialize (Hn loc o i Hin Hloc). unfold parameters in Hn.
    rewrite <- Heq in Hn. cbn in Hn. specialize (Hn ltac:(left)). lia.
  - specialize (Hn loc o i Hin Hloc). unfold parameters in Hn.
    rewrite <- Heq in Hn. 
    assert (i ∈ option_list (weight o) ++ option_list (Some i) ++ others o) as Hm
      by (apply elem_of_app; right; left).
    specialize (Hn Hm). lia.
Qed.

(** The shape the constructors of the two-part composites share: a first
    network, then an [MLP], then the initialisation of the last layer of the
    [MLP]. *)
Lemma composite_registration {A} (first : M (A * list nat)) (layers : A → list layer)
    LM raises k scale w w' a mlp :
  (∀ w a w1, first w = (Ok a, w1) → registers (layers (fst a)) (snd a) w w1) →
  (do a <- first; do mlp <- new_MLP LM raises k;
   do _ <- ddpg_init_last_layer (snd mlp) scale; retM (a, mlp)) w = (Ok (a, mlp), w') →
  ∃ w1,
    first w = (Ok a, w1) ∧
    take (length (heap w1)) (heap w') = heap w1 ∧
    take (length (tensors w1)) (tensors w') = tensors w1 ∧
    (∀ loc, loc ∈ snd a →
       ∃ o, heap w1 !! loc = Some o ∧ heap w' !! loc = Some o ∧
         ∀ t, t ∈ parameters o →
           is_Some (tensors w1 !! t) ∧ tensors w' !! t = tensors w1 !! t) ∧
    snd a ++ snd mlp
    = seq (length (heap w)) (length (layers (fst a) ++ MLP.modules (fst mlp))) ∧
    descr <$> heap w' = (descr <$> heap w) ++ layers (fst a) ++ MLP.modules (fst mlp).
Proof.
  intros Hfirst H.
  apply bindM_Ok in H as (a' & w1 & Ha & H).
  apply bindM_Ok in H as (m & w2 & Hm & H).
  apply bindM_Ok in H as (u & w3 & Hinit & H).
  injection H as <- <- <-.
  exists w1. split; [exact Ha|].
  apply Hfirst in Ha. pose proof Ha as (Hlocs1 & objs1 & ts1 & Hh1 & Ht1 & Hd1 & Hp1).
  apply new_MLP_alloc in Hm as (_ & Hm).
  pose proof Hm as (Hlocs2 & objs2 & ts2 & Hh2 & Ht2 & Hd2 & Hp2).
  apply ddpg_init_last_layer_heap in Hinit as [Hh3 Htake].
  assert (take (length (heap w1)) (heap w3) = heap w1) as Hheap
    by (rewrite Hh3, Hh2; apply take_app_length).
  assert (take (length (tensors w1)) (tensors w3) = tensors w1) as Htens.
  { rewrite Htake.
    - rewrite Ht2. apply take_app_length.
    - intros loc o t Hloc Ho Ht.
      destruct (registers_lookup _ _ _ _ loc Hm Hloc) as (o' & Ho' & Hp').
      rewrite Ho in Ho'. injection Ho' as <-. apply Hp'. exact Ht. }
  split; [exact Hheap|]. split; [exact Htens|].
  split; [|split].
  - intros loc Hloc.
    destruct (registers_lookup _ _ _ _ loc Ha Hloc) as (o & Ho & Hp).
    exists o. split; [exact Ho|]. split.
    + rewrite <- Hheap in Ho. rewrite lookup_take in Ho.
      destruct (decide (loc < length (heap w1))%nat); [exact Ho | discriminate Ho].
    + intros t Ht. specialize (Hp t Ht). split.
      * apply lookup_lt_is_Some_2. lia.
      * transitivity (take (length (tensors w1)) (tensors w3) !! t);
          [|rewrite Htens; reflexivity].
        rewrite lookup_take.
        destruct (decide (t < length (tensors w1))%nat); [reflexivity | lia].
  - rewrite Hlocs1, Hlocs2, Hh1, !length_app, <- Hd1, length_fmap. apply eq_sym, seq_app.
  - rewrite Hh3, Hh2, Hh1, !fmap_app, Hd1, Hd2, <- app_assoc. reflexivity.
Qed.

(** X13: the two-part DDPG composites register the layers of their first
    network and then those of their [MLP], at fresh consecutive positions,
    and change no layer; the initialisation of the last layer leaves every
    module object and every tensor that existed once the first network was
    built as it was: the modules of that first network ([convnet], resp.
    [mlp1]) are the same objects, their parameters are among these tensors,
    and so keep their construction-time values. *)
Theorem X13_ddpg_composite_registration
    (LazyMapping : gmap string pyclass)
    (fd : option Z → arg Z → arg (arg Z) → arg (arg Z) → arg (arg Z) → result Z)
    (raises : layer → option exn)
    (w w' : world) :
  (∀ action_dim ckw mkw avg convnet mlp,
     DdpgCnnActor LazyMapping fd raises action_dim ckw mkw avg w = (Ok (convnet, mlp), w') →
     ∃ w1,
       new_ConvNet fd raises
         (ConvNet.update (conv_net_default_kwargs [32; 64; 64] avg)
            (default ConvNet.empty_kw ckw)) w = (Ok convnet, w1) ∧
       take (length (heap w1)) (heap w') = heap w1 ∧
       take (length (tensors w1)) (tensors w') = tensors w1 ∧
       (∀ loc, loc ∈ snd convnet →
          ∃ o, heap w1 !! loc = Some o ∧ heap w' !! loc = Some o ∧
            ∀ t, t ∈ parameters o →
              is_Some (tensors w1 !! t) ∧ tensors w' !! t = tensors w1 !! t) ∧
       snd convnet ++ snd mlp
       = seq (length (heap w))
           (length (ConvNet.modules (fst convnet) ++ MLP.modules (fst mlp))) ∧
       descr <$> heap w'
       = (descr <$> heap w) ++ ConvNet.modules (fst convnet) ++ MLP.modules (fst mlp)) ∧
  (∀ ckw mkw avg convnet mlp,
     DdpgCnnQNet LazyMapping fd raises ckw mkw avg w = (Ok (convnet, mlp), w') →
     ∃ w1,
       new_ConvNet fd raises
         (ConvNet.update (conv_net_default_kwargs [32; 64; 128] avg)
            (default ConvNet.empty_kw ckw)) w = (Ok convnet, w1) ∧
       take (length (heap w1)) (heap w') = heap w1 ∧
       take (length (tensors w1)) (tensors w') = tensors w1 ∧
       (∀ loc, loc ∈ snd convnet →
          ∃ o, heap w1 !! loc = Some o ∧ heap w' !! loc = Some o ∧
            ∀ t, t ∈ parameters o →
              is_Some (tensors w1 !! t) ∧ tensors w' !! t = tensors w1 !! t) ∧
       snd convnet ++ snd mlp
       = seq (length (heap w))
           (length (ConvNet.modules (fst convnet) ++ MLP.modules (fst mlp))) ∧
       descr <$> heap w'
       = (descr <$> heap w) ++ ConvNet.modules (fst convnet) ++ MLP.modules (fst mlp)) ∧
  (∀ kw1 kw2 mlp1 mlp2,
     DdpgMlpQNet LazyMapping raises kw1 kw2 w = (Ok (mlp1, mlp2), w') →
     ∃ w1,
       new_MLP LazyMapping raises
         (MLP.update (mlp_net_default_kwargs 400 (Some 0) (Sequence []) (Some true))
            (default MLP.empty_kw kw1)) w = (Ok mlp1, w1) ∧
       take (length (heap w1)) (heap w') = heap w1 ∧
       take (length (tensors w1)) (tensors w') = tensors w1 ∧
       (∀ loc, loc ∈ snd mlp1 →
          ∃ o, heap w1 !! loc = Some o ∧ heap w' !! loc = Some o ∧
            ∀ t, t ∈ parameters o →
              is_Some (tensors w1 !! t) ∧ tensors w' !! t = tensors w1 !! t) ∧
       snd mlp1 ++ snd mlp2
       = seq (length (heap w))
           (length (MLP.modules (fst mlp1) ++ MLP.modules (fst mlp2))) ∧
       descr <$> heap w'
       = (descr <$> heap w) ++ MLP.modules (fst mlp1) ++ MLP.modules (fst mlp2)).
Proof.
  split; [|split].
  - intros action_dim ckw mkw avg convnet mlp H.
    eapply (composite_registration _ ConvNet.modules); [|exact H].
    intros w0 a w1 Ha. apply new_ConvNet_alloc in Ha as (_ & Hr). exact Hr.
  - intros ckw mkw avg convnet mlp H.
    eapply (composite_registration _ ConvNet.modules); [|exact H].
    intros w0 a w1 Ha. apply new_ConvNet_alloc in Ha as (_ & Hr). exact Hr.
  - intros kw1 kw2 mlp1 mlp2 H.
    eapply (composite_registration _ MLP.modules); [|exact H].
    intros w0 a w1 Ha. apply new_MLP_alloc in Ha as (_ & Hr). exact Hr.
Qed.

Lemma X13_ddpg_composite_registration_witness :
  ∃ mlp1 mlp2 w1 w',
    DdpgMlpQNet LazyMapping_doc torch_raises None (Some tiny_mlp_kw) sample_world
    = (Ok (mlp1, mlp2), w') ∧
    new_MLP LazyMapping_doc torch_raises
      (MLP.update (mlp_net_default_kwargs 400 (Some 0) (Sequence []) (Some true))
         MLP.empty_kw) sample_world = (Ok mlp1, w1) ∧
    take (length (heap w1)) (heap w') = heap w1 ∧
    take (length (tensors w1)) (tensors w') = tensors w1 ∧
    snd mlp1 ++ snd mlp2
    = seq 0 (length (MLP.modules (fst mlp1) ++ MLP.modules (fst mlp2))) ∧
    descr <$> heap w' = MLP.modules (fst mlp1) ++ MLP.modules (fst mlp2).
Proof.
  destruct (DdpgMlpQNet LazyMapping_doc torch_raises None (Some tiny_mlp_kw) sample_world)
    as [[[mlp1 mlp2]|e] w'] eqn:Hw'; [|vm_compute in Hw'; discriminate Hw'].
  exists mlp1, mlp2.
  destruct (proj2 (proj2 (X13_ddpg_composite_registration LazyMapping_doc
                            _find_depth torch_raises sample_world w'))
              None (Some tiny_mlp_kw) mlp1 mlp2 Hw')
    as (w1 & H1 & H2 & H3 & _ & H4 & H5).
  exists w1, w'. split; [reflexivity|]. split; [exact H1|]. split; [exact H2|].
  split; [exact H3|]. split; [exact H4 | exact H5].
Defined.

(** ** The outputs of the DDPG composites *)








(** ** The distributional network *)

Lemma DistributionalDQNnet_loop_frame dqn keys td k :
  k ∉ keys.*2 →
  snd (DistributionalDQNnet.forward_loop dqn keys td) !! k = td !! k.
Proof.
  revert td. induction keys as [|[in_key out_key] keys IH]; intros td Hk; [reflexivity|].
  cbn [DistributionalDQNnet.forward_loop].
  rewrite fmap_cons in Hk. apply not_elem_of_cons in Hk as [Hne Hk].
  destruct (td !! in_key) as [q|]; [|reflexivity].
  destruct (match dqn with Some net => _ | None => _ end) as [q'|e]; [|reflexivity].
  destruct (len q' <? 2); [reflexivity|].
  rewrite IH by exact Hk. apply lookup_insert_ne. cbn in Hne. congruence.
Qed.

Lemma DistributionalDQNnet_loop_rank dqn keys td k :
  fst (DistributionalDQNnet.forward_loop dqn keys td) = Ok tt →
  k ∈ keys.*2 →
  ∃ s, snd (DistributionalDQNnet.forward_loop dqn keys td) !! k = Some s ∧ 2 ≤ len s.
Proof.
  revert td. induction keys as [|[in_key out_key] keys IH]; intros td Hok Hk.
  - apply elem_of_nil in Hk as [].
  - cbn [DistributionalDQNnet.forward_loop] in *.
    destruct (td !! in_key) as [q|]; [|discriminate Hok].
    destruct (match dqn with Some net => _ | None => _ end) as [q'|e];
      [|discriminate Hok].
    destruct (len q' <? 2) eqn:Hrank; [discriminate Hok|].
    destruct (decide (k ∈ keys.*2)) as [Hin | Hnin]; [apply IH; assumption|].
    rewrite fmap_cons in Hk. apply elem_of_cons in Hk as [-> | Hk]; [|contradiction].
    rewrite DistributionalDQNnet_loop_frame by exact Hnin.
    exists q'. split; [apply lookup_insert_eq|]. apply Z.ltb_ge. exact Hrank.
Qed.

Lemma snd_zip_take {A B} (l1 : list A) (l2 : list B) :
  (zip l1 l2).*2 = take (length l1) l2.
Proof.
  revert l2. induction l1 as [|x l1 IH]; intros [|y l2]; cbn; [reflexivity..|].
  f_equal. apply IH.
Qed.

(** X16: a [DistributionalDQNnet] is only built around a network whose
    [out_features] is a sequence of at least two entries, and, on a
    tensordict with string keys, its [forward] writes under its output keys
    only: every other entry is as before, whether the call returns or raises
    part of the way; after a call that returns, every output key paired with
    an input key holds a tensor of at least two dimensions.  Output keys
    beyond the number of input keys are not written. *)
Theorem X16_distributional_forward_frame
    (DQNet : option DistributionalDQNnet.network)
    (in_keys out_keys : option (list string)) (self : DistributionalDQNnet.t)
    (tensordict : gmap string shape) :
  DistributionalDQNnet.__init__ DQNet in_keys out_keys = Ok self →
  (∀ net, DQNet = Some net →
     ∃ l, DistributionalDQNnet.net_out_features net = Sequence l ∧ 1 < len l) ∧
  (∀ k, k ∉ take (length (default ["action_value"] in_keys))
              (default ["action_value"] out_keys) →
     snd (DistributionalDQNnet.forward self tensordict) !! k = tensordict !! k) ∧
  (fst (DistributionalDQNnet.forward self tensordict) = Ok tt →
   ∀ k, k ∈ take (length (default ["action_value"] in_keys))
              (default ["action_value"] out_keys) →
     ∃ s, snd (DistributionalDQNnet.forward self tensordict) !! k = Some s ∧ 2 ≤ len s).
Proof.
  unfold DistributionalDQNnet.__init__. intros H.
  split; [|split].
  - intros net ->. cbn [mbind result_bind] in H.
    destruct (DistributionalDQNnet.net_out_features net) as [n|l]; [discriminate H|].
    destruct (1 <? len l) eqn:Hl; [|discriminate H].
    exists l. split; [reflexivity|]. apply Z.ltb_lt. exact Hl.
  - intros k Hk. inv_bind H. injection H as <-.
    unfold DistributionalDQNnet.forward.
    cbn [DistributionalDQNnet.dqn DistributionalDQNnet.in_keys
         DistributionalDQNnet.out_keys].
    apply DistributionalDQNnet_loop_frame. rewrite snd_zip_take. exact Hk.
  - inv_bind H. injection H as <-.
    unfold DistributionalDQNnet.forward.
    cbn [DistributionalDQNnet.dqn DistributionalDQNnet.in_keys
         DistributionalDQNnet.out_keys].
    intros Hok k Hk. apply DistributionalDQNnet_loop_rank; [exact Hok|].
    rewrite snd_zip_take. exact Hk.
Qed.

Lemma X16_distributional_forward_frame_witness :
  ∃ self,
    DistributionalDQNnet.__init__ None (Some ["q"]) (Some ["logits"; "spare"]) = Ok self ∧
    snd (DistributionalDQNnet.forward self {["q" := [4; 51; 2]]}) !! "spare" = None ∧
    ∃ s, snd (DistributionalDQNnet.forward self {["q" := [4; 51; 2]]}) !! "logits"
         = Some s ∧ 2 ≤ len s.
Proof.
  eexists. split; [reflexivity|].
  match goal with
  | |- snd (DistributionalDQNnet.forward ?self _) !! _ = _ ∧ _ =>
    destruct (X16_distributional_forward_frame None (Some ["q"])
                (Some ["logits"; "spare"]) self {["q" := [4; 51; 2]]} eq_refl)
      as (_ & Hframe & Hrank)
  end.
  split.
  - rewrite Hframe; [reflexivity|]. cbn. intros Hin.
    apply list_elem_of_singleton in Hin. discriminate Hin.
  - apply Hrank; [vm_compute; reflexivity|]. cbn. apply list_elem_of_singleton. reflexivity.
Defined.

Lemma DistributionalDQNnet_loop_in_place keys td :
  snd (DistributionalDQNnet.forward_loop None (zip keys keys) td) = td ∧
  (fst (DistributionalDQNnet.forward_loop None (zip keys keys) td) = Ok tt
   ↔ ∀ k, k ∈ keys → ∃ s, td !! k = Some s ∧ 2 ≤ len s).
Proof.
  induction keys as [|key keys [IHs IHf]].
  - split; [reflexivity|]. split; [|reflexivity].
    intros _ k Hk. apply elem_of_nil in Hk as [].
  - cbn [zip zip_with DistributionalDQNnet.forward_loop].
    destruct (td !! key) as [q|] eqn:Hkey.
    2:{ split; [reflexivity|]. split; [discriminate|].
        intros H. destruct (H key) as (s & Hs & _); [left|]. congruence. }
    destruct (len q <? 2) eqn:Hrank.
    { split; [reflexivity|]. split; [discriminate|].
      intros H. destruct (H key) as (s & Hs & Hlen); [left|].
      apply Z.ltb_lt in Hrank. rewrite Hkey in Hs. injection Hs as <-. lia. }
    rewrite insert_id by exact Hkey. split; [exact IHs|].
    rewrite IHf. split.
    + intros H k Hk. apply elem_of_cons in Hk as [-> | Hk]; [|auto].
      exists q. split; [exact Hkey|]. apply Z.ltb_ge. exact Hrank.
    + intros H k Hk. apply H. right. exact Hk.
Qed.

(** X17: without a network and with the same input and output keys (the
    default is [["action_value"]] for both), [forward] works in place: it
    returns exactly when every key holds a tensor of at least two
    dimensions, and, as the log-softmax keeps the shape, the shapes held by
    the tensordict are the same after the call, whether it returns or not. *)
Theorem X17_distributional_in_place
    (keys : option (list string)) (self : DistributionalDQNnet.t)
    (tensordict : gmap string shape) :
  DistributionalDQNnet.__init__ None keys keys = Ok self →
  snd (DistributionalDQNnet.forward self tensordict) = tensordict ∧
  (fst (DistributionalDQNnet.forward self tensordict) = Ok tt
   ↔ ∀ k, k ∈ default ["action_value"] keys →
       ∃ s, tensordict !! k = Some s ∧ 2 ≤ len s).
Proof.
  intros [= <-]. unfold DistributionalDQNnet.forward.
  cbn [DistributionalDQNnet.dqn DistributionalDQNnet.in_keys
       DistributionalDQNnet.out_keys].
  apply DistributionalDQNnet_loop_in_place.
Qed.

Lemma X17_distributional_in_place_witness :
  ∃ self,
    DistributionalDQNnet.__init__ None None None = Ok self ∧
    DistributionalDQNnet.forward self {["action_value" := [4; 51; 2]]}
    = (Ok tt, {["action_value" := [4; 51; 2]]}) ∧
    fst (DistributionalDQNnet.forward self {["action_value" := [4]]}) ≠ Ok tt.
Proof.
  eexists. split; [reflexivity|].
  match goal with
  | |- DistributionalDQNnet.forward ?self _ = _ ∧ _ =>
    pose proof (X17_distributional_in_place None self
                  {["action_value" := [4; 51; 2]]} eq_refl) as [H1 H2];
    pose proof (X17_distributional_in_place None self
                  {["action_value" := [4]]} eq_refl) as [_ H3]
  end.
  split.
  - apply injective_projections; [cbn [fst]|exact H1].
    apply H2. intros k Hk. apply list_elem_of_singleton in Hk as ->.
    exists [4; 51; 2]. split; [reflexivity|]. unfold len. cbn. lia.
  - intros Hok. destruct (proj1 H3 Hok "action_value") as (s & Hs & Hlen).
    + apply list_elem_of_singleton. reflexivity.
    + rewrite lookup_singleton_eq in Hs. injection Hs as <-.
      unfold len in Hlen. cbn in Hlen. lia.
Defined.

(** ** The recurrent network *)

Lemma stack1_pad (n : nat) (h : shape) :
  0 < len h →
  stack1 (replicate n h ++ [h]) = Ok (take 1 h ++ (Z.of_nat n + 1) :: drop 1 h).
Proof.
  intros Hh.
  assert (∀ l, Forall (λ y, y = h) l → forallb (λ y, bool_decide (y = h)) l = true)
    as Hall.
  { intros l Hl. apply forallb_forall. intros y Hy.
    apply bool_decide_eq_true_2. rewrite Forall_forall in Hl.
    apply Hl, list_elem_of_In, Hy. }
  assert ((0 <? len h) = true) as Hpos by (apply Z.ltb_lt; exact Hh).
  destruct n as [|n]; cbn [replicate app stack1].
  - cbn [forallb]. rewrite Hpos. reflexivity.
  - rewrite Hall, Hpos.
    + cbn [andb]. do 3 f_equal. unfold len. cbn [length].
      rewrite length_app, length_replicate. cbn [length]. lia.
    + apply Forall_app. split; [apply Forall_replicate; reflexivity|].
      constructor; [reflexivity | constructor].
Qed.

Ltac eval_rank :=
  repeat (cbn;
          match goal with
          | |- context [Z.of_nat (S ?n)] =>
            let v := eval vm_compute in (Z.of_nat (S n)) in
            change (Z.of_nat (S n)) with v
          end);
  cbn.

Lemma LSTMNet_lstm_shapes
    (lstm_forward : shape → shape → shape → result (shape * (shape * shape)))
    (self : LSTMNet.t) (input_size : Z) (batch : shape) (hidden : option shape) :
  lstm_contract input_size (LSTMNet.lstm_num_layers self)
    (LSTMNet.lstm_hidden_size self) lstm_forward →
  (length batch ≤ 2)%nat →
  Forall (λ n, 0 < n) batch →
  hidden = None
  ∨ hidden = Some (batch ++ [LSTMNet.lstm_num_layers self; LSTMNet.lstm_hidden_size self]) →
  LSTMNet._lstm lstm_forward self (batch ++ [input_size]) hidden hidden
  = Ok (batch ++ [LSTMNet.linear_out_features self],
        batch ++ [LSTMNet.lstm_num_layers self; LSTMNet.lstm_hidden_size self],
        batch ++ [LSTMNet.lstm_num_layers self; LSTMNet.lstm_hidden_size self],
        batch ++ [LSTMNet.lstm_num_layers self; LSTMNet.lstm_hidden_size self],
        batch ++ [LSTMNet.lstm_num_layers self; LSTMNet.lstm_hidden_size self]).
Proof.
  intros Hc Hlen Hpos Hhidden.
  destruct batch as [|B [|T [|]]]; [| | |cbn in Hlen; lia].
  - pose proof (Hc 1 1 eq_refl eq_refl) as H11.
    destruct Hhidden as [-> | ->]; unfold LSTMNet._lstm; lazy;
      lazy in H11; rewrite H11; reflexivity.
  - apply Forall_cons in Hpos as [HB _].
    pose proof (Hc B 1 HB eq_refl) as HB1.
    destruct Hhidden as [-> | ->]; unfold LSTMNet._lstm; lazy;
      lazy in HB1; rewrite HB1; reflexivity.
  - apply Forall_cons in Hpos as [HB Hpos]. apply Forall_cons in Hpos as [HT _].
    pose proof (Hc B T HB HT) as HBT.
    assert ((0 <? T) = true) as HT' by (apply Z.ltb_lt; exact HT).
    assert (∀ h : shape, 0 < len h →
              stack1 (replicate (Z.to_nat (T - 1)) h ++ [h])
              = Ok (take 1 h ++ T :: drop 1 h)) as Hpad.
    { intros h Hh. rewrite stack1_pad by exact Hh. do 3 f_equal. lia. }
    destruct Hhidden as [-> | ->]; unfold LSTMNet._lstm, len; eval_rank;
      rewrite HT'; eval_rank; rewrite HBT; eval_rank;
      rewrite Hpad by (unfold len; cbn [length]; lia); reflexivity.
Qed.

Lemma sample_lstm_contract (input_size num_layers hidden_size : Z) :
  lstm_contract input_size num_layers hidden_size
    (sample_lstm_forward num_layers hidden_size).
Proof.
  intros B T _ _. unfold sample_lstm_forward.
  rewrite !bool_decide_eq_true_2 by reflexivity. reflexivity.
Qed.

(** X18: the shapes of [LSTMNet._lstm].  For an input without batch
    dimension, with one (a batch of single steps) or with two (batch and
    time), called without hidden states, the output keeps the batch
    dimensions of the input and has [out_features] entries, and all four
    hidden states returned have the batch dimensions of the input followed
    by [[num_layers, hidden_size]]: the last hidden state of the LSTM is
    padded along the time axis.  The hidden states returned can be passed
    back: the call gives the same shapes.  The LSTM is taken to follow the
    shape rule of [nn.LSTM] with [batch_first=True]. *)
Theorem X18_lstm_shapes
    (lstm_forward : shape → shape → shape → result (shape * (shape * shape)))
    (self : LSTMNet.t) (input_size : Z) (batch : shape) :
  lstm_contract input_size (LSTMNet.lstm_num_layers self)
    (LSTMNet.lstm_hidden_size self) lstm_forward →
  (length batch ≤ 2)%nat →
  Forall (λ n, 0 < n) batch →
  ∃ hidden,
    hidden = batch ++ [LSTMNet.lstm_num_layers self; LSTMNet.lstm_hidden_size self] ∧
    LSTMNet._lstm lstm_forward self (batch ++ [input_size]) None None
    = Ok (batch ++ [LSTMNet.linear_out_features self], hidden, hidden, hidden, hidden) ∧
    LSTMNet._lstm lstm_forward self (batch ++ [input_size]) (Some hidden) (Some hidden)
    = Ok (batch ++ [LSTMNet.linear_out_features self], hidden, hidden, hidden, hidden).
Proof.
  intros Hc Hlen Hpos. eexists. split; [reflexivity|].
  split; apply LSTMNet_lstm_shapes; auto.
Qed.

Lemma X18_lstm_shapes_witness :
  ∃ net,
    MLP.__init__ LazyMapping_doc torch_raises (MLP.bind_args lstm_doc_mlp_kw) = Ok net ∧
    LSTMNet._lstm (sample_lstm_forward 1 5) (LSTMNet.Self net 1 5 10) [7; 6; 5] None None
    = Ok ([7; 6; 10], [7; 6; 1; 5], [7; 6; 1; 5], [7; 6; 1; 5], [7; 6; 1; 5]) ∧
    LSTMNet._lstm (sample_lstm_forward 1 5) (LSTMNet.Self net 1 5 10) [7; 5]
      (Some [7; 1; 5]) (Some [7; 1; 5])
    = Ok ([7; 10], [7; 1; 5], [7; 1; 5], [7; 1; 5], [7; 1; 5]).
Proof.
  destruct (MLP.__init__ LazyMapping_doc torch_raises (MLP.bind_args lstm_doc_mlp_kw))
    as [net|e] eqn:Hnet; [|vm_compute in Hnet; discriminate Hnet].
  exists net. split; [reflexivity|].
  destruct (X18_lstm_shapes (sample_lstm_forward 1 5) (LSTMNet.Self net 1 5 10) 5 [7; 6]
              (sample_lstm_contract 5 1 5))
    as (h2 & -> & H2 & _); [cbn; lia | repeat constructor |].
  destruct (X18_lstm_shapes (sample_lstm_forward 1 5) (LSTMNet.Self net 1 5 10) 5 [7]
              (sample_lstm_contract 5 1 5))
    as (h1 & -> & _ & H1); [cbn; lia | repeat constructor |].
  split; [exact H2 | exact H1].
Defined.

(** X19: the argument errors of [LSTMNet._lstm] come before any call to the
    LSTM: an input without any dimension raises a [ValueError] (its shape
    cannot be unpacked into batch and steps), and for every other input
    giving exactly one of the two hidden states raises a [RuntimeError]. *)
Theorem X19_lstm_argument_errors
    (lstm_forward : shape → shape → shape → result (shape * (shape * shape)))
    (self : LSTMNet.t) :
  (∀ hidden0_in hidden1_in,
     LSTMNet._lstm lstm_forward self [] hidden0_in hidden1_in = Raise ValueError) ∧
  (∀ input hidden, input ≠ [] →
     LSTMNet._lstm lstm_forward self input (Some hidden) None = Raise RuntimeError ∧
     LSTMNet._lstm lstm_forward self input None (Some hidden) = Raise RuntimeError).
Proof.
  split; [reflexivity|].
  intros input hidden Hne.
  destruct input as [|a [|b [|c rest]]]; [congruence|..].
  - split; reflexivity.
  - split; reflexivity.
  - unfold LSTMNet._lstm.
    replace (len (a :: b :: c :: rest) =? 1) with false
      by (symmetry; apply Z.eqb_neq; unfold len; cbn [length]; lia).
    replace (len (a :: b :: c :: rest) =? 2) with false
      by (symmetry; apply Z.eqb_neq; unfold len; cbn [length]; lia).
    split; reflexivity.
Qed.

Lemma X19_lstm_argument_errors_witness :
  ∃ net,
    MLP.__init__ LazyMapping_doc torch_raises (MLP.bind_args lstm_doc_mlp_kw) = Ok net ∧
    LSTMNet._lstm (sample_lstm_forward 1 5) (LSTMNet.Self net 1 5 10) [7; 5]
      (Some [7; 1; 5]) None = Raise RuntimeError.
Proof.
  destruct (MLP.__init__ LazyMapping_doc torch_raises (MLP.bind_args lstm_doc_mlp_kw))
    as [net|e] eqn:Hnet; [|vm_compute in Hnet; discriminate Hnet].
  exists net. split; [reflexivity|].
  apply (proj2 (X19_lstm_argument_errors (sample_lstm_forward 1 5)
                  (LSTMNet.Self net 1 5 10)) [7; 5] [7; 1; 5]).
  discriminate.
Defined.



(** ** The online decision-transformer actor *)

(** X21: the rescaling in [OnlineDTActor.forward] maps the range [[-1, 1]] of
    [tanh] onto [[log_std_min, log_std_max] = [-5, 2]]: it is increasing,
    sends [-1] to [-5] and [1] to [2], so every rescaled entry lies between
    the two bounds (in exact arithmetic). *)
Theorem X21_online_dt_log_std_range :
  (OnlineDTActor.rescale_log_std (-1) == OnlineDTActor.log_std_min)%Q ∧
  (OnlineDTActor.rescale_log_std 1 == OnlineDTActor.log_std_max)%Q ∧
  (∀ t u, (t <= u)%Q →
     (OnlineDTActor.rescale_log_std t <= OnlineDTActor.rescale_log_std u)%Q) ∧
  (∀ t, (-1 <= t)%Q → (t <= 1)%Q →
     (OnlineDTActor.log_std_min <= OnlineDTActor.rescale_log_std t)%Q ∧
     (OnlineDTActor.rescale_log_std t <= OnlineDTActor.log_std_max)%Q).
Proof.
  unfold OnlineDTActor.rescale_log_std, OnlineDTActor.log_std_min,
    OnlineDTActor.log_std_max.
  split; [reflexivity|]. split; [reflexivity|].
  split; [intros t u H | intros t H1 H2; split]; lra.
Qed.

Lemma X21_online_dt_log_std_range_witness :
  (OnlineDTActor.log_std_min <= OnlineDTActor.rescale_log_std 0)%Q ∧
  (OnlineDTActor.rescale_log_std 0 <= OnlineDTActor.log_std_max)%Q ∧
  (OnlineDTActor.rescale_log_std 0 == -1.5)%Q.
Proof.
  split; [|split].
  - apply (proj2 (proj2 (proj2 X21_online_dt_log_std_range)) 0%Q); discriminate.
  - apply (proj2 (proj2 (proj2 X21_online_dt_log_std_range)) 0%Q); discriminate.
  - reflexivity.
Defined.
